(** * Chat intent parser of the todo backend: embedding and properties

    This development embeds [backend/app/api/routes/chat.py] in Rocq:
    the local-numbering helpers, the lexical resolvers, the fast intent
    parser [parse_intent_fast], the Gemini fallback with [normalize_ai],
    and the action loop of [send_message].  It also embeds the REST
    routes of [backend/app/api/routes/todos.py], which work on the
    same table.

    Conventions of the embedding.
    - A Python [str] is a [string]; the embedding is exact on ASCII
      text.  Bytes above 127 are neither space, digit nor word
      characters and are left alone by [lower].
    - A Python [int] is a [Z].
    - A payload [Dict[str, Any]] is an association list from keys to
      dynamically typed values ([value]).
    - A function that can raise returns a [result].
    - The database session is a record holding the todo table; queries
      are list functions over it, [order_by(Todo.id.asc())] is a sort.
    - Regular expressions are terms of [regex] run by a backtracking
      matcher that follows the priorities of Python's [re] module
      (leftmost match, greedy and lazy repetition, ordered
      alternation). *)

From Stdlib Require Import String Ascii List Bool Arith ZArith Lia.
From Stdlib Require Import Permutation Sorted DecimalString.
From Stdlib Require Import Floats.
Import ListNotations.

Local Open Scope list_scope.
Local Open Scope string_scope.

(* ================================================================= *)
(** ** Python string primitives *)

Module Py.

Definition code (c : ascii) : nat := nat_of_ascii c.

(** [str.isspace] on ASCII: TAB..CR, FS..US and the blank. *)
Definition is_space (c : ascii) : bool :=
  let n := code c in
  (((9 <=? n) && (n <=? 13)) || ((28 <=? n) && (n <=? 32)))%nat.

Definition is_digit (c : ascii) : bool :=
  let n := code c in ((48 <=? n) && (n <=? 57))%nat.

Definition is_upper (c : ascii) : bool :=
  let n := code c in ((65 <=? n) && (n <=? 90))%nat.

Definition is_lower (c : ascii) : bool :=
  let n := code c in ((97 <=? n) && (n <=? 122))%nat.

(** The class [\w] on ASCII. *)
Definition is_word (c : ascii) : bool :=
  is_digit c || is_upper c || is_lower c || (code c =? 95)%nat.

Definition to_lower (c : ascii) : ascii :=
  if is_upper c then ascii_of_nat (code c + 32) else c.

(** [s.lower()] *)
Fixpoint lower (s : string) : string :=
  match s with
  | EmptyString => EmptyString
  | String c s' => String (to_lower c) (lower s')
  end.

Fixpoint mem (c : ascii) (cs : string) : bool :=
  match cs with
  | EmptyString => false
  | String d cs' => Ascii.eqb c d || mem c cs'
  end.

Fixpoint lstrip_by (p : ascii -> bool) (s : string) : string :=
  match s with
  | EmptyString => EmptyString
  | String c s' => if p c then lstrip_by p s' else s
  end.

Fixpoint rstrip_by (p : ascii -> bool) (s : string) : string :=
  match s with
  | EmptyString => EmptyString
  | String c s' =>
      match rstrip_by p s' with
      | EmptyString => if p c then EmptyString else String c EmptyString
      | r => String c r
      end
  end.

Definition strip_by (p : ascii -> bool) (s : string) : string :=
  rstrip_by p (lstrip_by p s).

(** [s.strip()] *)
Definition strip (s : string) : string := strip_by is_space s.

(** [s.strip(chars)] *)
Definition strip_chars (chars : string) (s : string) : string :=
  strip_by (fun c => mem c chars) s.

(** [s.startswith(pre)] *)
Fixpoint startswith (s pre : string) {struct pre} : bool :=
  match pre with
  | EmptyString => true
  | String a pre' =>
      match s with
      | EmptyString => false
      | String b s' => Ascii.eqb a b && startswith s' pre'
      end
  end.

(** [s.startswith((p1, ..., pn))] *)
Definition startswith_any (s : string) (pres : list string) : bool :=
  existsb (startswith s) pres.

(** [needle in hay] *)
Fixpoint contains (needle hay : string) : bool :=
  startswith hay needle ||
  match hay with
  | EmptyString => false
  | String _ hay' => contains needle hay'
  end.

(** [any(k in hay for k in ks)] *)
Definition contains_any (ks : list string) (hay : string) : bool :=
  existsb (fun k => contains k hay) ks.

(** [s.split(sep, 1)[1]] for a one-character [sep]; [None] when [sep]
    does not occur (Python raises [IndexError] there). *)
Fixpoint after_first (sep : ascii) (s : string) : option string :=
  match s with
  | EmptyString => None
  | String c s' => if Ascii.eqb c sep then Some s' else after_first sep s'
  end.

(** [s.split(sep)] for a one-character [sep]. *)
Fixpoint split_char (sep : ascii) (s : string) : list string :=
  match s with
  | EmptyString => [EmptyString]
  | String c s' =>
      if Ascii.eqb c sep then EmptyString :: split_char sep s'
      else match split_char sep s' with
           | [] => [String c EmptyString]
           | w :: ws => String c w :: ws
           end
  end.

(** [sep.join(parts)] *)
Fixpoint join (sep : string) (parts : list string) : string :=
  match parts with
  | [] => EmptyString
  | [p] => p
  | p :: ps => p ++ sep ++ join sep ps
  end.

(** [int(s)] on a string of decimal digits. *)
Definition digit_val (c : ascii) : Z := Z.of_nat (code c - 48).

Fixpoint int_acc (acc : Z) (s : string) : Z :=
  match s with
  | EmptyString => acc
  | String c s' => int_acc (10 * acc + digit_val c) s'
  end.

Definition int (s : string) : Z := int_acc 0 s.

(** [str(n)] *)
Definition str (n : Z) : string := NilZero.string_of_int (Z.to_int n).

Fixpoint take (n : nat) (s : string) : string :=
  match n, s with
  | S n', String c s' => String c (take n' s')
  | _, _ => EmptyString
  end.

(** [s.replace(old, new)]: occurrences are replaced left to right
    and do not overlap; [skip] counts the characters of an occurrence
    still to be dropped. *)
Fixpoint replace_from (old new : string) (skip : nat) (s : string) : string :=
  match s with
  | EmptyString => EmptyString
  | String c s' =>
      match skip with
      | S k => replace_from old new k s'
      | O =>
          if startswith s old
          then new ++ replace_from old new (String.length old - 1) s'
          else String c (replace_from old new 0 s')
      end
  end.

Fixpoint interleave (new : string) (s : string) : string :=
  match s with
  | EmptyString => new
  | String c s' => new ++ String c (interleave new s')
  end.

Definition replace (old new : string) (s : string) : string :=
  match old with
  | EmptyString => interleave new s
  | _ => replace_from old new 0 s
  end.

(** Quote characters used by the patterns and by [strip]. *)
Definition dq : ascii := ascii_of_nat 34.
Definition sq : ascii := ascii_of_nat 39.
Definition nl : ascii := ascii_of_nat 10.
Definition tab : ascii := ascii_of_nat 9.

End Py.

(* ================================================================= *)
(** ** Regular expressions

    The fragment of Python's [re] syntax the program uses.  Repetition
    is only ever applied to a character class ([\s+], [\s*], [\d+],
    [.+], [.+?]), so [RRep] takes a class. *)

Module Re.

Inductive cclass : Type :=
| CAny                      (* .   : anything but a newline *)
| CDigit                    (* \d *)
| CSpace                    (* \s *)
| COneOf (chars : string).  (* [...] *)

Definition in_class (cl : cclass) (c : ascii) : bool :=
  match cl with
  | CAny => negb (Ascii.eqb c Py.nl)
  | CDigit => Py.is_digit c
  | CSpace => Py.is_space c
  | COneOf cs => Py.mem c cs
  end.

Inductive regex : Type :=
| RLit (s : string)                               (* literal text *)
| RCls (cl : cclass)                              (* one character *)
| RSeq (a b : regex)                              (* ab *)
| RAlt (a b : regex)                              (* a|b *)
| ROpt (a : regex)                                (* a? *)
| RRep (cl : cclass) (lo : nat) (greedy : bool)   (* cl{lo,} / cl{lo,}? *)
| RGrp (i : nat) (a : regex)                      (* capturing group i *)
| RWordB                                          (* \b *)
| REnd.                                           (* $ *)

(** A position in the subject: the character before it and the text
    after it. *)
Record pos : Type := mkpos { before : option ascii; rest : string }.

Definition caps : Type := list (nat * string).

(** The text between two positions of the same subject. *)
Definition between (p q : pos) : string :=
  Py.take (String.length (rest p) - String.length (rest q)) (rest p).

Definition word_before (p : pos) : bool :=
  match before p with Some c => Py.is_word c | None => false end.

Definition word_after (p : pos) : bool :=
  match rest p with String c _ => Py.is_word c | EmptyString => false end.

Section Matcher.

(** [re.I] *)
Variable ic : bool.
Context {R : Type}.

Definition chr_eq (a b : ascii) : bool :=
  if ic then Ascii.eqb (Py.to_lower a) (Py.to_lower b) else Ascii.eqb a b.

Fixpoint m_lit (l : string) (p : pos) : option pos :=
  match l with
  | EmptyString => Some p
  | String a l' =>
      match rest p with
      | String b s' =>
          if chr_eq a b then m_lit l' (mkpos (Some b) s') else None
      | EmptyString => None
      end
  end.

(** Repetition of a class, at least [lo] times; [cnt] characters have
    been taken so far.  Greedy takes one more first and stops as a
    fallback; lazy stops first. *)
Fixpoint m_rep (cl : cclass) (greedy : bool) (lo : nat)
         (prev : option ascii) (s : string) (cnt : nat)
         (k : pos -> option R) {struct s} : option R :=
  match s with
  | String c s' =>
      if in_class cl c then
        if greedy then
          match m_rep cl greedy lo (Some c) s' (S cnt) k with
          | Some x => Some x
          | None => if (lo <=? cnt)%nat then k (mkpos prev s) else None
          end
        else
          match (if (lo <=? cnt)%nat then k (mkpos prev s) else None) with
          | Some x => Some x
          | None => m_rep cl greedy lo (Some c) s' (S cnt) k
          end
      else if (lo <=? cnt)%nat then k (mkpos prev s) else None
  | EmptyString => if (lo <=? cnt)%nat then k (mkpos prev s) else None
  end.

(** The matcher, in continuation-passing style: [k] is the rest of
    the pattern; the first success in priority order is returned. *)
Fixpoint m (r : regex) (p : pos) (cs : caps)
         (k : pos -> caps -> option R) {struct r} : option R :=
  match r with
  | RLit l =>
      match m_lit l p with
      | Some p' => k p' cs
      | None => None
      end
  | RCls cl =>
      match rest p with
      | String c s' =>
          if in_class cl c then k (mkpos (Some c) s') cs else None
      | EmptyString => None
      end
  | RSeq a b => m a p cs (fun p' cs' => m b p' cs' k)
  | RAlt a b =>
      match m a p cs k with
      | Some x => Some x
      | None => m b p cs k
      end
  | ROpt a =>
      match m a p cs k with
      | Some x => Some x
      | None => k p cs
      end
  | RRep cl lo greedy =>
      m_rep cl greedy lo (before p) (rest p) 0 (fun p' => k p' cs)
  | RGrp i a => m a p cs (fun p' cs' => k p' ((i, between p p') :: cs'))
  | RWordB => if xorb (word_before p) (word_after p) then k p cs else None
  | REnd =>
      match rest p with
      | EmptyString => k p cs
      | String c EmptyString => if Ascii.eqb c Py.nl then k p cs else None
      | _ => None
      end
  end.

End Matcher.

(** A match: where it starts, where it ends, what the groups hold. *)
Record mres : Type :=
  mkres { m_start : pos; m_end : pos; m_caps : caps }.

Definition match_at (ic : bool) (r : regex) (p : pos) : option mres :=
  m ic r p [] (fun q cs => Some (mkres p q cs)).

(** Leftmost match at or after position [(prev, s)]. *)
Fixpoint search_from (ic : bool) (r : regex) (prev : option ascii)
         (s : string) : option mres :=
  match match_at ic r (mkpos prev s) with
  | Some x => Some x
  | None =>
      match s with
      | EmptyString => None
      | String c s' => search_from ic r (Some c) s'
      end
  end.

(** [re.search(r, s)] and [re.search(r, s, flags=re.I)] *)
Definition search (r : regex) (s : string) : option mres :=
  search_from false r None s.

Definition search_i (r : regex) (s : string) : option mres :=
  search_from true r None s.

(** [m.group(i)]; [None] when the group took no part in the match. *)
Fixpoint lookup (i : nat) (cs : caps) : option string :=
  match cs with
  | [] => None
  | (j, v) :: cs' => if Nat.eqb i j then Some v else lookup i cs'
  end.

Definition group (i : nat) (x : mres) : option string := lookup i (m_caps x).

(** [m.group(i)] for a group that every match of the pattern sets. *)
Definition group_str (i : nat) (x : mres) : string :=
  match group i x with Some v => v | None => EmptyString end.

(** [m.group(0)] *)
Definition whole (x : mres) : string := between (m_start x) (m_end x).

(** Successive non-overlapping matches, left to right, each with the
    unmatched text before it, and the unmatched tail.  After an empty
    match the scan moves on by one character; the patterns the program
    scans with ([findall], [sub], [split]) never match the empty
    string. *)
Fixpoint scan (fuel : nat) (ic : bool) (r : regex) (p : pos)
         (carry : string) : list (string * mres) * string :=
  match fuel with
  | O => ([], carry ++ rest p)
  | S fuel' =>
      match search_from ic r (before p) (rest p) with
      | None => ([], carry ++ rest p)
      | Some x =>
          let pre := carry ++ between p (m_start x) in
          let q := m_end x in
          if (String.length (rest q) <? String.length (rest (m_start x)))%nat then
            let (ms, tl) := scan fuel' ic r q EmptyString in
            ((pre, x) :: ms, tl)
          else
            match rest q with
            | EmptyString => ([(pre, x)], EmptyString)
            | String c s' =>
                let (ms, tl) :=
                  scan fuel' ic r (mkpos (Some c) s') (String c EmptyString) in
                ((pre, x) :: ms, tl)
            end
      end
  end.

Definition scan_all (ic : bool) (r : regex) (s : string)
  : list (string * mres) * string :=
  scan (S (String.length s)) ic r (mkpos None s) EmptyString.

(** [re.findall(r, s)], as the list of matches. *)
Definition findall (r : regex) (s : string) : list mres :=
  map snd (fst (scan_all false r s)).

(** [re.sub(r, repl, s)] for a replacement without group references. *)
Definition sub (r : regex) (repl : string) (s : string) : string :=
  let (ms, tl) := scan_all false r s in
  fold_right (fun pm acc => fst pm ++ repl ++ acc) tl ms.

(** [re.split(r, s, flags=re.I)] for a pattern without capturing
    groups. *)
Definition split_i (r : regex) (s : string) : list string :=
  let (ms, tl) := scan_all true r s in
  (map fst ms ++ [tl])%list.

(** Pattern building blocks. *)
Fixpoint cat (rs : list regex) : regex :=
  match rs with
  | [] => RLit EmptyString
  | [r] => r
  | r :: rs' => RSeq r (cat rs')
  end.

Fixpoint alt (rs : list regex) : regex :=
  match rs with
  | [] => RLit EmptyString
  | [r] => r
  | r :: rs' => RAlt r (alt rs')
  end.

Definition lits (ws : list string) : regex := alt (map RLit ws).

Definition ws1 : regex := RRep CSpace 1 true.       (* \s+ *)
Definition ws0 : regex := RRep CSpace 0 true.       (* \s* *)
Definition digits : regex := RRep CDigit 1 true.    (* \d+ *)
Definition some_lazy : regex := RRep CAny 1 false.  (* .+? *)
Definition some_greedy : regex := RRep CAny 1 true. (* .+ *)
Definition quote : regex :=              (* a single or double quote *)
  RCls (COneOf (String Py.sq (String Py.dq EmptyString))).
Definition optquote : regex := ROpt quote.

End Re.

Import Re.

(* ================================================================= *)
(** ** The chat module: data *)

(** A dynamically typed Python value, as found in payloads and in the
    JSON answer of the model. *)
#[warnings="-register-all"]
Inductive value : Type :=
| VNone
| VBool (b : bool)
| VInt (n : Z)
| VFloat (f : float)
| VStr (s : string)
| VList (l : list value)
| VDict (d : list (string * value)).

Definition payload : Type := list (string * value).

(** [Parsed = Tuple[str, Dict[str, Any]]] *)
Definition Parsed : Type := (string * payload)%type.

(** [d.get(k)], with [None] for a missing key. *)
Fixpoint get (k : string) (d : payload) : value :=
  match d with
  | [] => VNone
  | (k', v) :: d' => if String.eqb k k' then v else get k d'
  end.

(** [d.get(k, dflt)] *)
Fixpoint get_default (k : string) (dflt : value) (d : payload) : value :=
  match d with
  | [] => dflt
  | (k', v) :: d' => if String.eqb k k' then v else get_default k dflt d'
  end.

Definition opt_str (o : option string) : value :=
  match o with Some s => VStr s | None => VNone end.

Definition ints (l : list Z) : value := VList (map VInt l).

Definition strs (l : list string) : value := VList (map VStr l).

(** [sorted(set(xs))] on integers. *)
Fixpoint insert_uniq (x : Z) (l : list Z) : list Z :=
  match l with
  | [] => [x]
  | y :: l' =>
      if (x <? y)%Z then x :: l
      else if (x =? y)%Z then l
      else y :: insert_uniq x l'
  end.

Definition sorted_set (l : list Z) : list Z := fold_right insert_uniq [] l.

(** [list(range(a, b))] *)
Definition range (a b : Z) : list Z :=
  map (fun i => (a + Z.of_nat i)%Z) (seq 0 (Z.to_nat (b - a))).

(** [_human_list] *)
Definition _human_list (nums : list Z) : string :=
  let nums := sorted_set nums in
  match nums with
  | [] => ""
  | [a] => Py.str a
  | [a; b] => Py.str a ++ " and " ++ Py.str b
  | _ =>
      Py.join ", " (map Py.str (removelast nums))
      ++ ", and " ++ Py.str (last nums 0%Z)
  end.

(* ================================================================= *)
(** ** Parsing utilities *)

(** [\b(\d+)\b] *)
Definition re_int : regex := cat [RWordB; RGrp 1 digits; RWordB].

(** [_extract_all_ints] *)
Definition _extract_all_ints (text : string) : list Z :=
  map (fun x => Py.int (group_str 1 x)) (findall re_int text).

(** [\b(\d+)\s*(?:to|-)\s*(\d+)\b] *)
Definition re_range : regex :=
  cat [RWordB; RGrp 1 digits; ws0; lits ["to"; "-"]; ws0; RGrp 2 digits;
       RWordB].

(** The [(a, b)] pairs [re.findall] returns for [re_range]. *)
Definition range_pairs (t : string) : list (Z * Z) :=
  map (fun x => (Py.int (group_str 1 x), Py.int (group_str 2 x)))
      (findall re_range t).

Definition span (ab : Z * Z) : list Z :=
  let (start, end_) := ab in
  if (start <=? end_)%Z then range start (end_ + 1)
  else range end_ (start + 1).

(** [_extract_ranges_and_lists] *)
Definition _extract_ranges_and_lists (text : string) : list Z :=
  let t := Py.lower text in
  let out := flat_map span (range_pairs t) in
  sorted_set (out ++ _extract_all_ints t).

(** [\b(\d+)(st|nd|rd|th)\b] *)
Definition re_ordinal : regex :=
  cat [RWordB; RGrp 1 digits; RGrp 2 (lits ["st"; "nd"; "rd"; "th"]); RWordB].

Definition ordinal_words : list (string * Z) :=
  [("first", 1%Z); ("second", 2%Z); ("third", 3%Z); ("fourth", 4%Z);
   ("fifth", 5%Z)].

(** The loop over [words.items()]: the first word found as a whole
    word decides. *)
Fixpoint first_word (ws : list (string * Z)) (t : string) : option Z :=
  match ws with
  | [] => None
  | (k, v) :: ws' =>
      match search (cat [RWordB; RLit k; RWordB]) t with
      | Some _ => Some v
      | None => first_word ws' t
      end
  end.

(** [_extract_ordinal_refs] *)
Definition _extract_ordinal_refs (text : string) : option Z :=
  let t := Py.strip (Py.lower text) in
  if Py.contains "second last" t || Py.contains "2nd last" t
     || Py.contains "second-last" t then Some (-2)%Z
  else if Py.contains "last" t || Py.contains "latest" t then Some (-1)%Z
  else
    match search re_ordinal t with
    | Some m => Some (Py.int (group_str 1 m))
    | None => first_word ordinal_words t
    end.

(** The characters of [p.strip(...)] in [_split_multi_items]: blank,
    both quotes, newline and tab. *)
Definition item_trim : string :=
  String " " (String Py.sq (String Py.dq (String Py.nl (String Py.tab "")))).

Definition quotes : string := String Py.sq (String Py.dq "").

Definition nonblank (s : string) : bool :=
  negb (String.eqb (Py.strip s) "").

(** [[p.strip(...) for p in after.split(",") if p.strip()]] *)
Definition items_of (after : string) : list string :=
  map (Py.strip_chars item_trim) (filter nonblank (Py.split_char "," after)).

(** [\badd\s+\d+\s+todos?\b(.+)$] *)
Definition re_add_n : regex :=
  cat [RWordB; RLit "add"; ws1; digits; ws1; RLit "todo"; ROpt (RLit "s");
       RWordB; RGrp 1 some_greedy; REnd].

(** [_split_multi_items] *)
Definition _split_multi_items (text : string) : list string :=
  match Py.after_first ":" text with
  | Some rest => items_of (Py.strip rest)
  | None =>
      match search_i re_add_n text with
      | Some m => items_of (group_str 1 m)
      | None => []
      end
  end.

(* ================================================================= *)
(** ** Intent parser *)

(** The trailing [list] action of a chained message. *)
Definition show_all : Parsed :=
  ("list", [("filter", VStr "all"); ("priority", VNone); ("sort_by", VNone);
            ("sort_dir", VNone); ("limit", VNone)]).

(** [if wants_show_after: acts.append(("list", ...))] *)
Definition with_show (wants_show_after : bool) (acts : list Parsed)
  : list Parsed :=
  if wants_show_after then (acts ++ [show_all])%list else acts.

Definition clarify (msg : string) : Parsed := ("clarify", [("message", VStr msg)]).

(** [not title] for an [Optional[str]] *)
Definition falsy_str (o : option string) : bool :=
  match o with
  | None => true
  | Some s => String.eqb s ""
  end.

(** [title or ""] *)
Definition or_empty (o : option string) : string :=
  match o with Some s => s | None => "" end.

(** [if ordref:] for an [Optional[int]] *)
Definition truthy_int (o : option Z) : option Z :=
  match o with
  | Some 0%Z => None
  | other => other
  end.

(** [\b(and|then)\s+(show|list)\b] *)
Definition re_show_after : regex :=
  cat [RWordB; RGrp 1 (lits ["and"; "then"]); ws1;
       RGrp 2 (lits ["show"; "list"]); RWordB].

(** [\b(?:todo|task)\s+(\d+)\s+is\s+(completed|done|finished|pending|incomplete|not done|undone)\b] *)
Definition re_status : regex :=
  cat [RWordB; lits ["todo"; "task"]; ws1; RGrp 1 digits; ws1; RLit "is"; ws1;
       RGrp 2 (lits ["completed"; "done"; "finished"; "pending"; "incomplete";
                     "not done"; "undone"]);
       RWordB].

(** [\b(i[' ]?ve|i have|i)\s+(completed|done with|finished)\s+(?:todo|task)\s+(\d+)\b] *)
Definition re_status2 : regex :=
  cat [RWordB;
       RGrp 1 (alt [cat [RLit "i"; ROpt (RCls (COneOf (String Py.sq " ")));
                         RLit "ve"];
                    RLit "i have"; RLit "i"]);
       ws1; RGrp 2 (lits ["completed"; "done with"; "finished"]); ws1;
       lits ["todo"; "task"]; ws1; RGrp 3 digits; RWordB].

(** [\bshow\s+(?:todo|task)\s+(?:number\s+)?(\d+)\b] *)
Definition re_show_one : regex :=
  cat [RWordB; RLit "show"; ws1; lits ["todo"; "task"]; ws1;
       ROpt (cat [RLit "number"; ws1]); RGrp 1 digits; RWordB].

(** [\bshow\s+first\s+(\d+)\s+(?:todos|tasks)\b] *)
Definition re_first_n : regex :=
  cat [RWordB; RLit "show"; ws1; RLit "first"; ws1; RGrp 1 digits; ws1;
       lits ["todos"; "tasks"]; RWordB].

(** [(?:title)\s*(?:is|=|:)?\s*Q?(.+?)Q?\??$], with [Q] a quote *)
Definition re_which_title : regex :=
  cat [RLit "title"; ws0; ROpt (lits ["is"; "="; ":"]); ws0; optquote;
       RGrp 1 some_lazy; optquote; ROpt (RLit "?"); REnd].

(** [(?:desc|description|details)\s*(?:is|=|:)?\s*Q?(.+?)Q?\??$] *)
Definition re_which_desc : regex :=
  cat [lits ["desc"; "description"; "details"]; ws0;
       ROpt (lits ["is"; "="; ":"]); ws0; optquote;
       RGrp 1 some_lazy; optquote; ROpt (RLit "?"); REnd].

(** [(?:which\s+(?:todo|task))\s+(?:has|contains|include|mentions)\s+Q?(.+?)Q?\??$] *)
Definition re_which_has : regex :=
  cat [RLit "which"; ws1; lits ["todo"; "task"]; ws1;
       lits ["has"; "contains"; "include"; "mentions"]; ws1; optquote;
       RGrp 1 some_lazy; optquote; ROpt (RLit "?"); REnd].

(** [(?:find|search)\s+(?:todos?|tasks?)\s*(?:related to|with word|containing|that contain)?\s*Q?(.+?)Q?$] *)
Definition re_find : regex :=
  cat [lits ["find"; "search"]; ws1;
       alt [cat [RLit "todo"; ROpt (RLit "s")];
            cat [RLit "task"; ROpt (RLit "s")]];
       ws0;
       ROpt (lits ["related to"; "with word"; "containing"; "that contain"]);
       ws0; optquote; RGrp 1 some_lazy; optquote; REnd].

(** [do i have any todos?\s+(?:for|about)\s+(.+)\??$] *)
Definition re_do_i_have : regex :=
  cat [RLit "do i have any todo"; ROpt (RLit "s"); ws1;
       lits ["for"; "about"]; ws1; RGrp 1 some_greedy; ROpt (RLit "?"); REnd].

(** [(?::|=|is|should be)] *)
Definition re_assign : regex := lits [":"; "="; "is"; "should be"].

(** [(?:desc|description|details)] *)
Definition re_desc_kw : regex := lits ["desc"; "description"; "details"].

(** [(?:title)\s*(?::|=|is|should be)\s*Q?(.+?)Q?(?:\s+(?:and\s+)?(?:desc|description|details)\s*(?::|=|is|should be)\s*|$)] *)
Definition re_add_title : regex :=
  cat [RLit "title"; ws0; re_assign; ws0; optquote; RGrp 1 some_lazy;
       optquote;
       alt [cat [ws1; ROpt (cat [RLit "and"; ws1]); re_desc_kw; ws0;
                 re_assign; ws0];
            REnd]].

(** [(?:desc|description|details)\s*(?::|=|is|should be)\s*Q?(.+?)Q?$] *)
Definition re_add_desc : regex :=
  cat [re_desc_kw; ws0; re_assign; ws0; optquote; RGrp 1 some_lazy;
       optquote; REnd].

(** [remind me to\s+(.+)$] *)
Definition re_remind : regex :=
  cat [RLit "remind me to"; ws1; RGrp 1 some_greedy; REnd].

(** [(?:i need to|i have to)\s+(.+)$] *)
Definition re_need : regex :=
  cat [lits ["i need to"; "i have to"]; ws1; RGrp 1 some_greedy; REnd].

(** [\badd\b\s+Q?(.+?)Q?(?:\s+to\s+my\s+todo\s+list)?$] *)
Definition re_add_bare : regex :=
  cat [RWordB; RLit "add"; RWordB; ws1; optquote; RGrp 1 some_lazy; optquote;
       ROpt (cat [ws1; RLit "to"; ws1; RLit "my"; ws1; RLit "todo"; ws1;
                  RLit "list"]);
       REnd].

(** [(?:delete|remove)\s+(?:the\s+)?(.+?)\s+(?:todo|task)\b] *)
Definition re_delete_text : regex :=
  cat [lits ["delete"; "remove"]; ws1; ROpt (cat [RLit "the"; ws1]);
       RGrp 1 some_lazy; ws1; lits ["todo"; "task"]; RWordB].

(** [(?:add|set)\s+(?:this\s+)?(?:desc|description|details)\s*(?::|=)?\s*Q?(.+?)Q?\s+(?:to|for|in)\s+(?:todo|task)\s+(\d+)\b] *)
Definition re_add_this_desc : regex :=
  cat [lits ["add"; "set"]; ws1; ROpt (cat [RLit "this"; ws1]); re_desc_kw;
       ws0; ROpt (lits [":"; "="]); ws0; optquote; RGrp 1 some_lazy; optquote;
       ws1; lits ["to"; "for"; "in"]; ws1; lits ["todo"; "task"]; ws1;
       RGrp 2 digits; RWordB].

(** [\b(?:and|,)\b] *)
Definition re_segment_sep : regex := cat [RWordB; lits ["and"; ","]; RWordB].

(** [(?::|=|to|is|as|should be)] *)
Definition re_assign_to : regex := lits [":"; "="; "to"; "is"; "as"; "should be"].

(** [(?:title)\s*(?::|=|to|is|as|should be)\s*Q?(.+?)Q?(?:\s+(?:and\s+)?(?:desc|description|details)\b|$)] *)
Definition re_upd_title : regex :=
  cat [RLit "title"; ws0; re_assign_to; ws0; optquote; RGrp 1 some_lazy;
       optquote;
       alt [cat [ws1; ROpt (cat [RLit "and"; ws1]); re_desc_kw; RWordB];
            REnd]].

(** [(?:desc|description|details)\s*(?::|=|to|is|as|should be)\s*Q?(.+?)Q?$] *)
Definition re_upd_desc : regex :=
  cat [re_desc_kw; ws0; re_assign_to; ws0; optquote; RGrp 1 some_lazy;
       optquote; REnd].

(** [rename\s+(?:todo|task)?\s*\b(\d+)\b\s+(?:as|to)\s+Q?(.+?)Q?$] *)
Definition re_rename : regex :=
  cat [RLit "rename"; ws1; ROpt (lits ["todo"; "task"]); ws0; RWordB;
       RGrp 1 digits; RWordB; ws1; lits ["as"; "to"]; ws1; optquote;
       RGrp 2 some_lazy; optquote; REnd].

(** [m.group(i).strip() if m else None] *)
Definition stripped_group (i : nat) (m : option mres) : option string :=
  match m with
  | Some x => Some (Py.strip (group_str i x))
  | None => None
  end.

(** One block of [parse_intent_fast]: [Some acts] when the block
    returns [acts], [None] when control falls through to the next
    block. *)
Definition rule : Type := string -> string -> bool -> option (list Parsed).

Section Rules.

(** [raw]: the message with white space collapsed; [t]: [raw]
    lower-cased; [wants_show_after]: the chaining flag. *)
Variables (raw t : string) (wants_show_after : bool).

(** Status: todo 1 is completed/incomplete/done/pending *)
Definition rule_status : option (list Parsed) :=
  match search re_status t with
  | Some m_status =>
      let local_no := Py.int (group_str 1 m_status) in
      let word := group_str 2 m_status in
      let completed :=
        negb (existsb (String.eqb word)
                ["pending"; "incomplete"; "not done"; "undone"]) in
      Some (with_show wants_show_after
              [("complete_many",
                [("local_nos", ints [local_no]);
                 ("completed", VBool completed)])])
  | None => None
  end.

(** Status: I've completed todo 3 *)
Definition rule_status2 : option (list Parsed) :=
  match search re_status2 t with
  | Some m_status2 =>
      let local_no := Py.int (group_str 3 m_status2) in
      Some (with_show wants_show_after
              [("complete_many",
                [("local_nos", ints [local_no]);
                 ("completed", VBool true)])])
  | None => None
  end.

(** Latest/last todo quick detail *)
Definition rule_latest : option (list Parsed) :=
  if Py.contains "latest todo" t || Py.contains "my latest todo" t
     || Py.contains "last todo" t || Py.contains "my last todo" t
  then Some [("details", [("ordinal", VInt (-1))])]
  else None.

(** Show todo number 3 / show todo 3 *)
Definition rule_show_one : option (list Parsed) :=
  match search re_show_one t with
  | Some m_show_one =>
      Some [("details",
             [("local_nos", ints [Py.int (group_str 1 m_show_one)])])]
  | None => None
  end.

(** Show first 5 todos *)
Definition rule_first_n : option (list Parsed) :=
  match search re_first_n t with
  | Some m_first_n =>
      let n := Z.max 1 (Py.int (group_str 1 m_first_n)) in
      Some [("list",
             [("filter", VStr "all"); ("priority", VNone);
              ("sort_by", VStr "created"); ("sort_dir", VStr "asc");
              ("limit", VInt n)])]
  | None => None
  end.

(** Which todo has title/description? *)
Definition rule_which : option (list Parsed) :=
  if Py.contains_any ["which todo"; "which task"] t then
    let m :=
      match search_i re_which_title raw with
      | Some x => Some x
      | None => search_i re_which_desc raw
      end in
    match m with
    | Some x =>
        Some [("search", [("query", VStr (Py.strip (group_str 1 x)))])]
    | None =>
        match search_i re_which_has raw with
        | Some m2 =>
            Some [("search", [("query", VStr (Py.strip (group_str 1 m2)))])]
        | None =>
            Some [clarify "What title/description should I look for?"]
        end
    end
  else None.

(** Search / Find *)
Definition rule_search : option (list Parsed) :=
  if Py.startswith_any t ["find"; "search"]
     || Py.contains "do i have any todo" t
  then
    let q :=
      Py.strip (match search_i re_find raw with
                | Some m => Py.strip (group_str 1 m)
                | None => ""
                end) in
    let q :=
      if String.eqb q "" then
        match search_i re_do_i_have raw with
        | Some m2 => Py.strip (group_str 1 m2)
        | None => ""
        end
      else q in
    Some [("search", [("query", VStr q)])]
  else None.

(** Delete all / clear *)
Definition rule_delete_all : option (list Parsed) :=
  if Py.contains_any
       ["delete all"; "clear my todo"; "clear my list"; "remove everything";
        "delete everything"] t
  then Some [("delete_all", [])]
  else None.

(** Delete filtered *)
Definition rule_delete_filtered : option (list Parsed) :=
  if Py.contains "delete all completed" t || Py.contains "delete completed" t
  then Some [("delete_filtered", [("filter", VStr "completed")])]
  else if Py.contains "delete all pending" t || Py.contains "delete pending" t
  then Some [("delete_filtered", [("filter", VStr "pending")])]
  else None.

(** Count *)
Definition rule_count : option (list Parsed) :=
  if Py.contains_any ["how many"; "count"; "total"] t
     && Py.contains_any ["todo"; "todos"; "task"; "tasks"] t
  then
    if Py.contains "completed" t || Py.contains "done" t
    then Some [("count", [("filter", VStr "completed")])]
    else if Py.contains "pending" t || Py.contains "incomplete" t
    then Some [("count", [("filter", VStr "pending")])]
    else Some [("count", [("filter", VStr "all")])]
  else None.

(** Summary *)
Definition rule_summary : option (list Parsed) :=
  if Py.contains "summary" t
     && Py.contains_any ["todo"; "todos"; "task"; "tasks"] t
  then Some [("summary", [])]
  else None.

(** Details (extra) *)
Definition rule_details : option (list Parsed) :=
  if Py.startswith_any t
       ["show details"; "details of"; "what is todo"; "what is task"]
     || Py.contains "which todo is number" t
  then
    match _extract_ranges_and_lists t with
    | (_ :: _) as nums => Some [("details", [("local_nos", ints nums)])]
    | [] =>
        match truthy_int (_extract_ordinal_refs t) with
        | Some ordref => Some [("details", [("ordinal", VInt ordref)])]
        | None => Some [clarify "Which todo number do you want details for?"]
        end
    end
  else None.

Definition list_keywords : list string :=
  ["show"; "list"; "what do i have to do"; "my todo list"; "my todos";
   "todo list"; "do i have any tasks"; "what‚Äôs on my list";
   "what's on my list"; "anything pending"; "anything left"].

Definition write_verbs : list string :=
  ["add"; "create"; "make"; "delete"; "remove"; "update"; "patch"; "edit";
   "change"; "mark"; "toggle"; "complete"; "uncomplete"; "reopen"; "rename"].

(** List / View with filters *)
Definition rule_list : option (list Parsed) :=
  if Py.contains_any list_keywords t
     && negb (Py.startswith_any t write_verbs)
  then
    let flt :=
      if Py.contains "completed" t || Py.contains "done" t then "completed"
      else if Py.contains "pending" t || Py.contains "incomplete" t
      then "pending"
      else "all" in
    let priority :=
      if Py.contains "high priority" t || Py.contains "highest priority" t
      then VStr "high" else VNone in
    let sort_by :=
      if Py.contains "sort" t then
        if Py.contains "priority" t then VStr "priority"
        else if Py.contains "status" t then VStr "status"
        else VStr "created"
      else VNone in
    let sort_dir :=
      if Py.contains "sort" t then
        if Py.contains "descending" t || Py.contains "desc" t
        then VStr "desc" else VStr "asc"
      else VNone in
    Some [("list",
           [("filter", VStr flt); ("priority", priority);
            ("sort_by", sort_by); ("sort_dir", sort_dir);
            ("limit", VNone)])]
  else None.

(** The title an add message carries, [None] or empty when there is
    none: the successive [if not title] attempts of the add block. *)
Definition add_title : option string :=
  let title := stripped_group 1 (search_i re_add_title raw) in
  let title :=
    if falsy_str title then
      match search_i re_remind raw with
      | Some m => Some (Py.strip (group_str 1 m))
      | None => title
      end
    else title in
  let title :=
    if falsy_str title && Py.contains_any ["i need to"; "i have to"] t then
      match search_i re_need raw with
      | Some m => Some (Py.strip (group_str 1 m))
      | None => title
      end
    else title in
  if falsy_str title && Py.contains "add" t then
    match Py.after_first ":" raw with
    | Some rest => Some (Py.strip_chars quotes (Py.strip rest))
    | None =>
        match search_i re_add_bare raw with
        | Some m => Some (Py.strip_chars quotes (Py.strip (group_str 1 m)))
        | None => title
        end
    end
  else title.

(** Add / Create *)
Definition rule_add : option (list Parsed) :=
  if Py.startswith_any t ["add"; "create"; "make"]
     || Py.contains_any
          ["remind me to"; "i need to"; "i have to"; "put"; "add "] t
  then
    match _split_multi_items raw with
    | (_ :: _) as multi_items =>
        Some (with_show wants_show_after
                [("add_many", [("items", strs multi_items)])])
    | [] =>
        let title := add_title in
        let desc := stripped_group 1 (search_i re_add_desc raw) in
        Some (with_show wants_show_after
                [("add", [("title", VStr (or_empty title));
                          ("description", opt_str desc)])])
    end
  else None.

(** Status updates: mark / complete / reopen / toggle *)
Definition rule_mark : option (list Parsed) :=
  if Py.startswith_any t
       ["mark"; "complete"; "uncomplete"; "incomplete"; "reopen"; "toggle"]
     || Py.contains "mark all todos as completed" t
  then
    if Py.contains "mark all" t
       && (Py.contains "completed" t || Py.contains "done" t)
    then Some [("complete_all", [("completed", VBool true)])]
    else if Py.contains "mark all" t
            && (Py.contains "pending" t || Py.contains "incomplete" t
                || Py.contains "reopen" t)
    then Some [("complete_all", [("completed", VBool false)])]
    else
      match _extract_ranges_and_lists t with
      | [] =>
          match truthy_int (_extract_ordinal_refs t) with
          | Some ordref =>
              Some [("status_by_ordinal",
                     [("ordinal", VInt ordref);
                      ("mode",
                       VStr (if Py.startswith t "toggle" then "toggle"
                             else "set"));
                      ("completed", VNone)])]
          | None =>
              Some [clarify "Which todo do you want to mark done/undone?"]
          end
      | local_nos =>
          if Py.startswith t "toggle" then
            Some [("toggle_many", [("local_nos", ints local_nos)])]
          else if Py.contains "reopen" t || Py.contains "uncomplete" t
                  || Py.contains "incomplete" t
          then Some [("complete_many",
                      [("local_nos", ints local_nos);
                       ("completed", VBool false)])]
          else Some [("complete_many",
                      [("local_nos", ints local_nos);
                       ("completed", VBool true)])]
      end
  else None.

(** Delete *)
Definition rule_delete : option (list Parsed) :=
  if Py.startswith_any t ["delete"; "remove"] then
    match _extract_ranges_and_lists t with
    | (_ :: _) as nums =>
        Some (with_show wants_show_after
                [("delete_many", [("local_nos", ints nums)])])
    | [] =>
        match truthy_int (_extract_ordinal_refs t) with
        | Some ordref =>
            Some (with_show wants_show_after
                    [("delete_by_ordinal", [("ordinal", VInt ordref)])])
        | None =>
            match search_i re_delete_text raw with
            | Some m =>
                Some (with_show wants_show_after
                        [("delete_by_text",
                          [("query", VStr (Py.strip (group_str 1 m)))])])
            | None =>
                Some [clarify "Which todo number do you want to delete? Example: Delete todo 3"]
            end
        end
    end
  else None.

(** One pass of the loop over [segments] in the update block:
    [None] stands for [continue] without an action. *)
Definition update_segment (seg : string) : option Parsed :=
  let seg_t := Py.strip seg in
  if String.eqb seg_t "" then None
  else
    let seg_lower := Py.lower seg_t in
    match _extract_ranges_and_lists seg_lower with
    | [] => None
    | seg_nums =>
        if Py.contains "status" seg_lower || Py.contains "completed" seg_lower
           || Py.contains "done" seg_lower || Py.contains "reopen" seg_lower
        then
          let completed :=
            negb (Py.contains "reopen" seg_lower
                  || Py.contains "pending" seg_lower
                  || Py.contains "incomplete" seg_lower) in
          Some ("complete_many",
                [("local_nos", ints seg_nums); ("completed", VBool completed)])
        else
          let title := stripped_group 1 (search_i re_upd_title seg_t) in
          let desc := stripped_group 1 (search_i re_upd_desc seg_t) in
          let renamed :=
            match title with
            | None =>
                if Py.startswith (Py.strip seg_lower) "rename" then
                  match search_i re_rename seg_t with
                  | Some m =>
                      Some ([Py.int (group_str 1 m)],
                            Py.strip (group_str 2 m))
                  | None => None
                  end
                else None
            | Some _ => None
            end in
          let seg_nums :=
            match renamed with Some (ns, _) => ns | None => seg_nums end in
          let title :=
            match renamed with Some (_, ti) => Some ti | None => title end in
          Some ("patch_many",
                [("local_nos", ints seg_nums); ("title", opt_str title);
                 ("description", opt_str desc); ("completed", VNone)])
    end.

(** [seg_actions] after the loop. *)
Fixpoint update_segments (segments : list string) : list Parsed :=
  match segments with
  | [] => []
  | seg :: segments' =>
      match update_segment seg with
      | Some a => a :: update_segments segments'
      | None => update_segments segments'
      end
  end.

(** Update / Patch *)
Definition rule_update : option (list Parsed) :=
  if Py.startswith_any t ["update"; "patch"; "edit"; "change"; "rename"] then
    match search_i re_add_this_desc raw with
    | Some m_add_desc =>
        let desc_text := Py.strip (group_str 1 m_add_desc) in
        let local_no := Py.int (group_str 2 m_add_desc) in
        Some [("patch_many",
               [("local_nos", ints [local_no]); ("title", VNone);
                ("description", VStr desc_text); ("completed", VNone)])]
    | None =>
        match update_segments (split_i re_segment_sep raw) with
        | (_ :: _) as seg_actions => Some seg_actions
        | [] =>
            match _extract_ranges_and_lists t with
            | [] =>
                match truthy_int (_extract_ordinal_refs t) with
                | Some _ =>
                    Some [clarify "Which fields should I update for that todo? (title / description / status)"]
                | None =>
                    Some [clarify "Which todo do you want to update? Example: Update todo 3 title to 'Buy vegetables'"]
                end
            | local_nos =>
                let title := stripped_group 1 (search_i re_upd_title raw) in
                let desc := stripped_group 1 (search_i re_upd_desc raw) in
                match desc with
                | None =>
                    if Py.contains "more details" t then
                      Some [clarify ("What description should I set for todo(s) "
                                     ++ _human_list local_nos ++ "?")]
                    else
                      Some [("patch_many",
                             [("local_nos", ints local_nos);
                              ("title", opt_str title);
                              ("description", opt_str desc);
                              ("completed", VNone)])]
                | Some _ =>
                    Some [("patch_many",
                           [("local_nos", ints local_nos);
                            ("title", opt_str title);
                            ("description", opt_str desc);
                            ("completed", VNone)])]
                end
            end
        end
    end
  else None.

(** Group by status *)
Definition rule_group : option (list Parsed) :=
  if Py.contains "group" t && Py.contains "status" t
  then Some [("group_by_status", [])]
  else None.

(** Undo (common but not supported) *)
Definition rule_undo : option (list Parsed) :=
  if Py.contains "undo" t
  then Some [clarify "Undo is not implemented yet. Tell me what to revert (e.g., 'reopen todo 3' or 'restore title of todo 2')."]
  else None.

End Rules.

(** The blocks of [parse_intent_fast], in source order. *)
Definition rules : list rule :=
  [(fun _ t w => rule_status t w);
   (fun _ t w => rule_status2 t w);
   (fun _ t _ => rule_latest t);
   (fun _ t _ => rule_show_one t);
   (fun _ t _ => rule_first_n t);
   (fun raw t _ => rule_which raw t);
   (fun raw t _ => rule_search raw t);
   (fun _ t _ => rule_delete_all t);
   (fun _ t _ => rule_delete_filtered t);
   (fun _ t _ => rule_count t);
   (fun _ t _ => rule_summary t);
   (fun _ t _ => rule_details t);
   (fun _ t _ => rule_list t);
   (fun raw t w => rule_add raw t w);
   (fun _ t _ => rule_mark t);
   (fun raw t w => rule_delete raw t w);
   (fun raw t _ => rule_update raw t);
   (fun _ t _ => rule_group t);
   (fun _ t _ => rule_undo t)].

(** The first block that returns decides; [unknown] when none does. *)
Fixpoint first_match (rs : list rule) (raw t : string) (w : bool)
  : list Parsed :=
  match rs with
  | [] => [("unknown", [])]
  | r :: rs' =>
      match r raw t w with
      | Some acts => acts
      | None => first_match rs' raw t w
      end
  end.

(** [raw = re.sub(r"\s+", " ", text.strip())] *)
Definition normalize (text : string) : string := sub ws1 " " (Py.strip text).

(** [wants_show_after] *)
Definition wants_show (t : string) : bool :=
  match search re_show_after t with Some _ => true | None => false end.

(** [parse_intent_fast] *)
Definition parse_intent_fast (text : string) : list Parsed :=
  let raw := normalize text in
  let t := Py.lower raw in
  let wants_show_after := wants_show t in
  first_match rules raw t wants_show_after.

(* ================================================================= *)
(** ** Gemini fallback *)

(** A double quote, and a word in double quotes, for the JSON shapes
    of the prompt. *)
Definition Q : string := String Py.dq "".

Definition q (s : string) : string := Q ++ s ++ Q.

Definition NL : string := String Py.nl "".

(** [SYSTEM_INSTRUCTIONS], line by line. *)
Definition SYSTEM_INSTRUCTIONS : string :=
  Py.join NL
    [
     "You are a TODO assistant. Convert the user's message into ONE JSON object only (no markdown).";
     "IMPORTANT: The " ++ q "id" ++
       " values must be the user's LOCAL todo numbers (1..N), NOT database ids.";
     "";
     "You may output ONE of these shapes:";
     "";
     "1) Add single:";
     "{" ++ q "action" ++ ":" ++ q "add" ++ "," ++ q "title" ++ ":" ++
       q "..." ++ "," ++ q "description" ++ ":optional}";
     "";
     "2) Add many:";
     "{" ++ q "action" ++ ":" ++ q "add_many" ++ "," ++ q "items" ++ ":[{" ++
       q "title" ++ ":" ++ q "..." ++ "," ++ q "description" ++
       ":optional}, ...]}";
     "";
     "3) List:";
     "{" ++ q "action" ++ ":" ++ q "list" ++ "," ++ q "filter" ++ ":" ++
       q "all|completed|pending" ++ "," ++ q "priority" ++ ":" ++ q "high" ++
       "|null," ++ q "sort_by" ++ ":" ++ q "created|status|priority" ++
       "|null," ++ q "sort_dir" ++ ":" ++ q "asc|desc" ++ "|null}";
     "";
     "4) Count:";
     "{" ++ q "action" ++ ":" ++ q "count" ++ "," ++ q "filter" ++ ":" ++
       q "all|completed|pending" ++ "}";
     "";
     "5) Summary:";
     "{" ++ q "action" ++ ":" ++ q "summary" ++ "}";
     "";
     "6) Details:";
     "{" ++ q "action" ++ ":" ++ q "details" ++ "," ++ q "ids" ++ ":[1,2]}";
     "";
     "7) Update:";
     "{" ++ q "action" ++ ":" ++ q "update" ++ "," ++ q "ops" ++ ":[{" ++
       q "id" ++ ":3," ++ q "title" ++ ":optional," ++ q "description" ++
       ":optional," ++ q "completed" ++ ":optional}, ...]}";
     "";
     "8) Status bulk:";
     "{" ++ q "action" ++ ":" ++ q "complete_all" ++ "," ++ q "completed" ++
       ":true|false}";
     "";
     "9) Delete:";
     "{" ++ q "action" ++ ":" ++ q "delete" ++ "," ++ q "ids" ++ ":[1,2]}";
     "{" ++ q "action" ++ ":" ++ q "delete_all" ++ "}";
     "{" ++ q "action" ++ ":" ++ q "delete_filtered" ++ "," ++ q "filter" ++
       ":" ++ q "completed|pending" ++ "}";
     "";
     "10) Search:";
     "{" ++ q "action" ++ ":" ++ q "search" ++ "," ++ q "query" ++ ":" ++
       q "..." ++ "}";
     "";
     "Rules:";
     "- If unclear (e.g., " ++ q "update todo" ++ ", " ++
       q "delete that one" ++ ", " ++ q "mark it done" ++ "), output:";
     "  {" ++ q "action" ++ ":" ++ q "clarify" ++ "," ++ q "question" ++
       ":" ++ q "..." ++ "}";
     "Return JSON only."
    ].

(** Exceptions: the HTTP error of FastAPI, and any other Python
    exception by the name of its class.  [Unmodelled] is no exception:
    it marks a payload on which the behaviour of the program depends
    on [repr] or on the database driver and is outside the embedding;
    the parser never produces such a payload. *)
Inductive exn : Type :=
| HTTPException (status_code : Z) (detail : string)
| PyError (name : string)
| Unmodelled.

Inductive result (A : Type) : Type :=
| Ok (a : A)
| Raise (e : exn).

Arguments Ok {A} a.
Arguments Raise {A} e.

Definition bind {A B : Type} (c : result A) (k : A -> result B) : result B :=
  match c with
  | Ok a => k a
  | Raise e => Raise e
  end.

Notation "x <- c ;; k" := (bind c (fun x => k))
  (at level 61, c at next level, right associativity).

(** [app.core.config.Settings] *)
Record Settings : Type := {
  database_url : string;
  jwt_secret : string;
  jwt_expire_minutes : Z;
  gemini_api_key : string;
  gemini_model : string
}.

(** The collaborators outside the repository.
    - [generate_content api_key model_name prompt]: configuring the
      [genai] client, creating the model, the round trip of
      [generate_content] and the read of [resp.text]; it raises on a
      network or service failure.
    - [json_loads]: [json.loads], [None] when it raises.
    - [ilike v pattern]: the SQL operator [v ILIKE pattern]. *)
Record Env : Type := {
  generate_content : string -> string -> string -> result (option string);
  json_loads : string -> option value;
  ilike : string -> string -> bool
}.

(** Truth value of a Python object. *)
Definition truthy (v : value) : bool :=
  match v with
  | VNone => false
  | VBool b => b
  | VInt n => negb (n =? 0)%Z
  | VFloat f => negb (PrimFloat.eqb f 0%float)
  | VStr s => negb (String.eqb s "")
  | VList l => match l with [] => false | _ => true end
  | VDict d => match d with [] => false | _ => true end
  end.

(** [v or dflt] *)
Definition or_else (v dflt : value) : value := if truthy v then v else dflt.

(** The code fence of a markdown block: three backquotes. *)
Definition fence : string := "```".

(** The model name: the setting, or the default when it is empty. *)
Definition model_name (settings : Settings) : string :=
  if String.eqb (gemini_model settings) "" then "gemini-1.5-flash"
  else gemini_model settings.

(** The prompt sent for a message. *)
Definition prompt (user_text : string) : string :=
  SYSTEM_INSTRUCTIONS ++ NL ++ "User: " ++ user_text.

(** The answer of the model with its white space and markdown fences
    removed. *)
Definition clean_response (text : option string) : string :=
  let raw := Py.strip (match text with Some s => s | None => "" end) in
  Py.strip (Py.replace fence "" (Py.replace (fence ++ "json") "" raw)).

(** [gemini_to_action] *)
Definition gemini_to_action (env : Env) (settings : Settings)
           (user_text : string) : result value :=
  let api_key := gemini_api_key settings in
  if String.eqb api_key "" then
    Raise (HTTPException 500 "Gemini API key is missing (check settings/.env).")
  else
    text <- generate_content env api_key (model_name settings)
              (prompt user_text) ;;
    match json_loads env (clean_response text) with
    | Some ai => Ok ai
    | None => Ok (VDict [("action", VStr "unknown")])
    end.

(** [ai.get]: an [AttributeError] unless [ai] is a dict. *)
Definition as_dict (v : value) : result payload :=
  match v with
  | VDict d => Ok d
  | _ => Raise (PyError "AttributeError")
  end.

(** [for x in v]: lists give their elements, dicts their keys,
    strings their characters; anything else is not iterable. *)
Fixpoint chars (s : string) : list value :=
  match s with
  | EmptyString => []
  | String c s' => VStr (String c "") :: chars s'
  end.

Definition iter (v : value) : result (list value) :=
  match v with
  | VList l => Ok l
  | VDict d => Ok (map (fun kv => VStr (fst kv)) d)
  | VStr s => Ok (chars s)
  | _ => Raise (PyError "TypeError")
  end.

(** [[int(x) for x in ids if isinstance(x, int) and x > 0]]; a
    [bool] is an [int] in Python. *)
Fixpoint positive_ints (ids : list value) : list Z :=
  match ids with
  | [] => []
  | VInt n :: ids' =>
      if (0 <? n)%Z then n :: positive_ints ids' else positive_ints ids'
  | VBool true :: ids' => 1%Z :: positive_ints ids'
  | _ :: ids' => positive_ints ids'
  end.

(** The loop over [items] of the [add_many] shape. *)
Fixpoint ai_titles (items : list value) : result (list string) :=
  match items with
  | [] => Ok []
  | VDict d :: items' =>
      match or_else (get "title" d) (VStr "") with
      | VStr s =>
          rest <- ai_titles items' ;;
          Ok (if String.eqb (Py.strip s) "" then rest else Py.strip s :: rest)
      | _ => Raise (PyError "AttributeError")
      end
  | _ :: items' => ai_titles items'
  end.

(** [isinstance(tid, int)] *)
Definition is_int (v : value) : bool :=
  match v with
  | VInt _ | VBool _ => true
  | _ => false
  end.

(** The loop over [ops] of the [update] shape. *)
Fixpoint ai_ops (ops : list value) : list Parsed :=
  match ops with
  | [] => []
  | VDict op :: ops' =>
      let tid := get "id" op in
      if is_int tid then
        ("patch_many",
         [("local_nos", VList [tid]); ("title", get "title" op);
          ("description", get "description" op);
          ("completed", get "completed" op)]) :: ai_ops ops'
      else ai_ops ops'
  | _ :: ops' => ai_ops ops'
  end.

(** [normalize_ai] *)
Definition normalize_ai (ai : value) : result (list Parsed) :=
  ai <- as_dict ai ;;
  act <- match or_else (get "action" ai) (VStr "unknown") with
         | VStr s => Ok (Py.lower s)
         | _ => Raise (PyError "AttributeError")
         end ;;
  if String.eqb act "add" then
    Ok [("add", [("title", or_else (get "title" ai) (VStr ""));
                 ("description", get "description" ai)])]
  else if String.eqb act "add_many" then
    items <- iter (or_else (get "items" ai) (VList [])) ;;
    titles <- ai_titles items ;;
    match titles with
    | [] => Ok [clarify "What todos should I add?"]
    | _ => Ok [("add_many", [("items", strs titles)])]
    end
  else if String.eqb act "list" then
    Ok [("list",
         [("filter", get_default "filter" (VStr "all") ai);
          ("priority", get "priority" ai); ("sort_by", get "sort_by" ai);
          ("sort_dir", get "sort_dir" ai); ("limit", VNone)])]
  else if String.eqb act "count" then
    Ok [("count", [("filter", get_default "filter" (VStr "all") ai)])]
  else if String.eqb act "summary" then
    Ok [("summary", [])]
  else if String.eqb act "details" then
    match or_else (get "ids" ai) (VList []) with
    | VList ((_ :: _) as ids) =>
        Ok [("details", [("local_nos", ints (positive_ints ids))])]
    | _ => Ok [clarify "Which todo number do you want details for?"]
    end
  else if String.eqb act "update" then
    ops <- iter (or_else (get "ops" ai) (VList [])) ;;
    match ai_ops ops with
    | [] => Ok [clarify "Which todo do you want to update?"]
    | parsed => Ok parsed
    end
  else if String.eqb act "complete_all" then
    Ok [("complete_all",
         [("completed", VBool (truthy (get_default "completed" (VBool true) ai)))])]
  else if String.eqb act "delete" then
    ids <- iter (or_else (get "ids" ai) (VList [])) ;;
    match positive_ints ids with
    | [] => Ok [clarify "Which todo number do you want to delete?"]
    | ids2 => Ok [("delete_many", [("local_nos", ints ids2)])]
    end
  else if String.eqb act "delete_all" then
    Ok [("delete_all", [])]
  else if String.eqb act "delete_filtered" then
    Ok [("delete_filtered",
         [("filter", get_default "filter" (VStr "completed") ai)])]
  else if String.eqb act "search" then
    Ok [("search", [("query", or_else (get "query" ai) (VStr ""))])]
  else if String.eqb act "clarify" then
    Ok [("clarify",
         [("message",
           or_else (get "question" ai)
             (VStr "Can you clarify what you want to do?"))])]
  else Ok [("unknown", [])].

(* ================================================================= *)
(** ** The todo table and local numbering *)

(** [app.models.Todo]; the time stamps, which the chat routes never
    read, are left out. *)
Module Todo.
Record t : Type := mk {
  id : Z;
  user_id : Z;
  title : string;
  description : option string;
  completed : bool
}.
End Todo.

(** The chat log entry: user, role and content. *)
Record ChatMessage : Type := {
  msg_user_id : Z;
  role : string;
  content : string
}.

(** The database session: the todo table, the next primary key the
    database hands out, and the chat log (oldest first). *)
Record Session : Type := {
  todos : list Todo.t;
  next_id : Z;
  messages : list ChatMessage
}.

(** [ORDER BY key ASC] and [DESC], as an insertion sort; rows with
    equal keys stay in table order. *)
Fixpoint insert_by (key : Todo.t -> Z) (desc : bool) (x : Todo.t)
         (l : list Todo.t) : list Todo.t :=
  match l with
  | [] => [x]
  | y :: l' =>
      if (if desc then key y <=? key x else key x <=? key y)%Z
      then x :: l
      else y :: insert_by key desc x l'
  end.

Fixpoint order_by (key : Todo.t -> Z) (desc : bool) (l : list Todo.t)
  : list Todo.t :=
  match l with
  | [] => []
  | x :: l' => insert_by key desc x (order_by key desc l')
  end.

Definition Z_of_bool (b : bool) : Z := if b then 1%Z else 0%Z.

Definition owned_by (user_id : Z) (t : Todo.t) : bool :=
  (Todo.user_id t =? user_id)%Z.

(** [_get_user_todos] *)
Definition _get_user_todos (session : Session) (user_id : Z) : list Todo.t :=
  order_by Todo.id false (filter (owned_by user_id) (todos session)).

Definition len {A : Type} (l : list A) : Z := Z.of_nat (List.length l).

(** [l[i]] for [0 <= i < len(l)] *)
Definition item {A : Type} (l : list A) (i : Z) : option A :=
  nth_error l (Z.to_nat i).

(** [_resolve_local_to_db_id] *)
Definition _resolve_local_to_db_id (session : Session) (user_id : Z)
           (local_no : option Z) : option Z :=
  match local_no with
  | None => None
  | Some local_no =>
      if (local_no =? 0)%Z || (local_no <=? 0)%Z then None
      else
        let todos := _get_user_todos session user_id in
        if (len todos <? local_no)%Z then None
        else option_map Todo.id (item todos (local_no - 1))
  end.

(** The loop of [_resolve_many_local_to_db_ids] over the sorted
    numbers. *)
Fixpoint ids_at (todos : list Todo.t) (ns : list Z) : list Z :=
  match ns with
  | [] => []
  | n :: ns' =>
      if (1 <=? n)%Z && (n <=? len todos)%Z then
        match item todos (n - 1) with
        | Some t => Todo.id t :: ids_at todos ns'
        | None => ids_at todos ns'
        end
      else ids_at todos ns'
  end.

(** [_resolve_many_local_to_db_ids] *)
Definition _resolve_many_local_to_db_ids (session : Session) (user_id : Z)
           (local_nos : list Z) : list Z :=
  let todos := _get_user_todos session user_id in
  ids_at todos (sorted_set local_nos).

(** [_ordinal_to_local_no] *)
Definition _ordinal_to_local_no (session : Session) (user_id : Z)
           (ordinal : Z) : option Z :=
  let todos := _get_user_todos session user_id in
  match todos with
  | [] => None
  | _ =>
      if (ordinal <? 0)%Z then
        let idx := (len todos + ordinal)%Z in
        if (0 <=? idx)%Z && (idx <? len todos)%Z then Some (idx + 1)%Z
        else None
      else if (1 <=? ordinal)%Z && (ordinal <=? len todos)%Z then Some ordinal
      else None
  end.

(** [{t.id: i + 1 for i, t in enumerate(all_todos)}], as the list of
    its items in insertion order. *)
Fixpoint local_map_from (i : Z) (all_todos : list Todo.t) : list (Z * Z) :=
  match all_todos with
  | [] => []
  | t :: rest => (Todo.id t, i + 1)%Z :: local_map_from (i + 1) rest
  end.

Definition local_map (all_todos : list Todo.t) : list (Z * Z) :=
  local_map_from 0 all_todos.

(** [local_map.get(k)]: a later item of the comprehension overrides an
    earlier one with the same key. *)
Definition map_get (k : Z) (m : list (Z * Z)) : option Z :=
  fold_left (fun acc kv => if (fst kv =? k)%Z then Some (snd kv) else acc)
            m None.

(** The status glyphs and separators of the replies, as the source
    file spells them. *)
Definition CHECK : string := "‚úÖ".
Definition HOURGLASS : string := "‚è≥".
Definition DASH : string := "‚Äî".
Definition PIN : string := "üìå".
Definition BIN : string := "üóëÔ∏è".

(** One line of [format_todos_for_user]; [Todo] has no [priority]
    attribute, so the priority tag is always empty. *)
Definition format_line (lm : list (Z * Z)) (t : Todo.t) : string :=
  let mark := if Todo.completed t then CHECK else HOURGLASS in
  let desc :=
    match Todo.description t with
    | Some d => if String.eqb d "" then "" else " " ++ DASH ++ " " ++ d
    | None => ""
    end in
  let pr := "" in
  let no :=
    match map_get (Todo.id t) lm with
    | Some n => Py.str n
    | None => "?"
    end in
  mark ++ " Todo " ++ no ++ pr ++ ": " ++ Todo.title t ++ desc.

(** [format_todos_for_user] *)
Definition format_todos_for_user (session : Session) (user_id : Z)
           (todos : list Todo.t) : string :=
  match todos with
  | [] => "No todos found."
  | _ =>
      let all_todos := _get_user_todos session user_id in
      let lm := local_map all_todos in
      Py.join NL (map (format_line lm) todos)
  end.

(** [_summary_text] *)
Definition _summary_text (session : Session) (user_id : Z) : string :=
  let todos := _get_user_todos session user_id in
  let total := len todos in
  let completed := len (filter Todo.completed todos) in
  let pending := (total - completed)%Z in
  "Summary:" ++ NL
  ++ "- Total: " ++ Py.str total ++ NL
  ++ "- Completed: " ++ Py.str completed ++ NL
  ++ "- Pending: " ++ Py.str pending ++ NL ++ NL
  ++ format_todos_for_user session user_id todos.

(* ================================================================= *)
(** ** The action loop of [send_message] *)

(** [session.get(Todo, db_id)] *)
Definition session_get (session : Session) (db_id : Z) : option Todo.t :=
  find (fun t => (Todo.id t =? db_id)%Z) (todos session).

Definition with_todos (session : Session) (rows : list Todo.t) : Session :=
  {| todos := rows; next_id := next_id session;
     messages := messages session |}.

(** [session.add(todo); session.commit()] for a row of the table *)
Definition session_update (session : Session) (todo : Todo.t) : Session :=
  with_todos session
    (map (fun r => if (Todo.id r =? Todo.id todo)%Z then todo else r)
         (todos session)).

(** [session.delete(todo); session.commit()] *)
Definition session_delete (session : Session) (todo : Todo.t) : Session :=
  with_todos session
    (filter (fun r => negb (Todo.id r =? Todo.id todo)%Z) (todos session)).

(** [session.add(Todo(...)); session.commit(); session.refresh(todo)]:
    the new row takes the next primary key. *)
Definition session_insert (session : Session) (user_id : Z) (title : string)
           (description : option string) : Session * Todo.t :=
  let todo := Todo.mk (next_id session) user_id title description false in
  ({| todos := (todos session ++ [todo])%list;
      next_id := (next_id session + 1)%Z;
      messages := messages session |}, todo).

(** [session.add(ChatMessage(...)); session.commit()] *)
Definition session_log (session : Session) (user_id : Z) (role content : string)
  : Session :=
  {| todos := todos session; next_id := next_id session;
     messages := (messages session
                  ++ [{| msg_user_id := user_id; role := role;
                         content := content |}])%list |}.

(** [(v or "").strip()] *)
Definition stripped (v : value) : result string :=
  match or_else v (VStr "") with
  | VStr s => Ok (Py.strip s)
  | _ => Raise (PyError "AttributeError")
  end.

(** [str(v)] *)
Definition py_str (v : value) : result string :=
  match v with
  | VStr s => Ok s
  | VInt n => Ok (Py.str n)
  | VBool b => Ok (if b then "True" else "False")
  | VNone => Ok "None"
  | _ => Raise Unmodelled
  end.

(** A value stored in a text column. *)
Definition db_text (v : value) : result (option string) :=
  match v with
  | VNone => Ok None
  | VStr s => Ok (Some s)
  | _ => Raise Unmodelled
  end.

(** A list of local numbers. *)
Fixpoint int_items (l : list value) : result (list Z) :=
  match l with
  | [] => Ok []
  | VInt n :: l' => ns <- int_items l' ;; Ok (n :: ns)
  | _ => Raise Unmodelled
  end.

Definition int_list (v : value) : result (list Z) :=
  match v with
  | VList l => int_items l
  | _ => Raise Unmodelled
  end.

(** [v == s] for a string [s] *)
Definition is_str (v : value) (s : string) : bool :=
  match v with
  | VStr s' => String.eqb s' s
  | _ => false
  end.

(** [v] as an [int] when [isinstance(v, int)] *)
Definition as_int (v : value) : option Z :=
  match v with
  | VInt n => Some n
  | VBool b => Some (Z_of_bool b)
  | _ => None
  end.

(** The rows matching [title ILIKE %q% OR description ILIKE %q%],
    by ascending id. *)
Definition search_todos (env : Env) (session : Session) (user_id : Z)
           (qtext : string) : list Todo.t :=
  let pattern := "%" ++ qtext ++ "%" in
  order_by Todo.id false
    (filter (fun t =>
               owned_by user_id t
               && (ilike env (Todo.title t) pattern
                   || match Todo.description t with
                      | Some d => ilike env d pattern
                      | None => false
                      end))
            (todos session)).

(** [_apply_list_filters]; the model has no [priority] column, so the
    priority filter never applies. *)
Definition _apply_list_filters (q : list Todo.t) (flt priority : value)
  : list Todo.t :=
  if is_str flt "completed" then filter Todo.completed q
  else if is_str flt "pending" then filter (fun t => negb (Todo.completed t)) q
  else q.

(** [_apply_sort] *)
Definition _apply_sort (q : list Todo.t) (sort_by sort_dir : value)
  : result (list Todo.t) :=
  direction <- match or_else sort_dir (VStr "asc") with
               | VStr s => Ok (Py.lower s)
               | _ => Raise (PyError "AttributeError")
               end ;;
  let col :=
    if is_str sort_by "status" then (fun t => Z_of_bool (Todo.completed t))
    else Todo.id in
  Ok (order_by col (String.eqb direction "desc") q).

Section Actions.

Variables (env : Env) (user_id : Z).

(** What one pass of the loop yields: the session after it and the
    reply fragments it appended. *)
Definition outcome : Type := result (Session * list value).

Definition say (session : Session) (msg : string) : outcome :=
  Ok (session, [VStr msg]).

(** Add single *)
Definition action_add (session : Session) (payload : payload) : outcome :=
  title <- stripped (get "title" payload) ;;
  let desc := get "description" payload in
  if String.eqb title "" then
    say session "Please provide a title. Example: Add buy groceries"
  else
    desc <- db_text desc ;;
    let (session, todo) := session_insert session user_id title desc in
    let local_no := len (_get_user_todos session user_id) in
    let msg :=
      CHECK ++ " Added Todo " ++ Py.str local_no ++ NL ++ "Title: "
      ++ Todo.title todo in
    let msg :=
      match Todo.description todo with
      | Some d =>
          if String.eqb d "" then msg else msg ++ NL ++ "Description: " ++ d
      | None => msg
      end in
    say session msg.

(** The loop over [items] of add many. *)
Fixpoint add_items (session : Session) (items : list value)
         (added_nums : list Z) : result (Session * list Z) :=
  match items with
  | [] => Ok (session, added_nums)
  | it :: items' =>
      s <- py_str it ;;
      let title := Py.strip s in
      if String.eqb title "" then add_items session items' added_nums
      else
        let (session, _) := session_insert session user_id title None in
        add_items session items'
          (added_nums ++ [len (_get_user_todos session user_id)])%list
  end.

(** Add many *)
Definition action_add_many (session : Session) (payload : payload)
  : outcome :=
  match or_else (get "items" payload) (VList []) with
  | VList ((_ :: _) as items) =>
      r <- add_items session items [] ;;
      let (session, added_nums) := r in
      match added_nums with
      | [] => say session "I could not find valid todo titles to add."
      | _ =>
          say session (CHECK ++ " Added " ++ Py.str (len added_nums)
                       ++ " todos: " ++ _human_list added_nums)
      end
  | _ => say session "What todos should I add?"
  end.

(** List *)
Definition action_list (session : Session) (payload : payload) : outcome :=
  let flt := get_default "filter" (VStr "all") payload in
  let priority := get "priority" payload in
  let sort_by := get "sort_by" payload in
  let sort_dir := get "sort_dir" payload in
  let limit := get "limit" payload in
  let q := filter (owned_by user_id) (todos session) in
  let q := _apply_list_filters q flt priority in
  todos <- (if truthy sort_by then _apply_sort q sort_by sort_dir
            else Ok (order_by Todo.id false q)) ;;
  let todos :=
    match as_int limit with
    | Some n => if (0 <? n)%Z then firstn (Z.to_nat n) todos else todos
    | None => todos
    end in
  say session (format_todos_for_user session user_id todos).

(** Group by status *)
Definition action_group_by_status (session : Session) : outcome :=
  let todos := _get_user_todos session user_id in
  let done := filter Todo.completed todos in
  let pending := filter (fun t => negb (Todo.completed t)) todos in
  Ok (session,
      [VStr ("Pending:" ++ NL
             ++ match pending with
                | [] => "No pending todos."
                | _ => format_todos_for_user session user_id pending
                end);
       VStr ("Completed:" ++ NL
             ++ match done with
                | [] => "No completed todos."
                | _ => format_todos_for_user session user_id done
                end)]).

(** Count *)
Definition action_count (session : Session) (payload : payload) : outcome :=
  let flt := get_default "filter" (VStr "all") payload in
  let todos := _get_user_todos session user_id in
  if is_str flt "completed" then
    say session (PIN ++ " Completed todos: "
                 ++ Py.str (len (filter Todo.completed todos)))
  else if is_str flt "pending" then
    say session (PIN ++ " Pending todos: "
                 ++ Py.str (len (filter (fun t => negb (Todo.completed t))
                                        todos)))
  else say session (PIN ++ " Total todos: " ++ Py.str (len todos)).

(** [for db_id in db_ids: todo = session.get(Todo, db_id)], keeping
    the rows that exist and belong to the user. *)
Fixpoint fetch (session : Session) (db_ids : list Z) : list Todo.t :=
  match db_ids with
  | [] => []
  | db_id :: db_ids' =>
      match session_get session db_id with
      | Some todo =>
          if owned_by user_id todo then todo :: fetch session db_ids'
          else fetch session db_ids'
      | None => fetch session db_ids'
      end
  end.

(** Details *)
Definition action_details (session : Session) (payload : payload)
  : outcome :=
  let local_nos := get "local_nos" payload in
  let ordinal := get "ordinal" payload in
  let local_nos :=
    match as_int ordinal with
    | Some o =>
        match _ordinal_to_local_no session user_id o with
        | None | Some 0%Z => None
        | Some local => Some (ints [local])
        end
    | None => Some local_nos
    end in
  match local_nos with
  | None => say session "I could not find that todo."
  | Some local_nos =>
      if negb (truthy local_nos) then
        say session "Which todo number do you want details for?"
      else
        ns <- int_list local_nos ;;
        match _resolve_many_local_to_db_ids session user_id ns with
        | [] => say session "No matching todos found."
        | db_ids =>
            say session
              (format_todos_for_user session user_id (fetch session db_ids))
        end
  end.

(** Search *)
Definition action_search (session : Session) (payload : payload)
  : outcome :=
  qtext <- stripped (get "query" payload) ;;
  if String.eqb qtext "" then
    say session "What should I search for? Example: Search todos containing 'meeting'"
  else
    match search_todos env session user_id qtext with
    | [] => say session ("No todos matched: " ++ qtext)
    | todos =>
        say session ("Search results for '" ++ qtext ++ "':" ++ NL
                     ++ format_todos_for_user session user_id todos)
    end.

(** The loop of patch many over [db_ids]: the session after the
    updates and the rows updated. *)
Fixpoint patch_rows (session : Session) (db_ids : list Z)
         (title desc completed : value) (updated : list Todo.t)
  : result (Session * list Todo.t) :=
  match db_ids with
  | [] => Ok (session, updated)
  | db_id :: db_ids' =>
      match session_get session db_id with
      | Some todo =>
          if owned_by user_id todo then
            new_title <-
              match title with
              | VNone => Ok (Todo.title todo)
              | _ =>
                  s <- py_str title ;;
                  Ok (if String.eqb (Py.strip s) "" then Todo.title todo
                      else Py.strip s)
              end ;;
            new_desc <-
              match desc with
              | VNone => Ok (Todo.description todo)
              | _ =>
                  s <- py_str desc ;;
                  Ok (if String.eqb (Py.strip s) "" then None
                      else Some (Py.strip s))
              end ;;
            let new_completed :=
              match completed with
              | VNone => Todo.completed todo
              | _ => truthy completed
              end in
            let todo' :=
              Todo.mk (Todo.id todo) (Todo.user_id todo) new_title new_desc
                      new_completed in
            patch_rows (session_update session todo') db_ids' title desc
                       completed (updated ++ [todo'])%list
          else patch_rows session db_ids' title desc completed updated
      | None => patch_rows session db_ids' title desc completed updated
      end
  end.

(** [title is None and desc is None and completed is None] *)
Definition is_none (v : value) : bool :=
  match v with VNone => true | _ => false end.

(** Patch many *)
Definition action_patch_many (session : Session) (payload : payload)
  : outcome :=
  let local_nos := or_else (get "local_nos" payload) (VList []) in
  if negb (truthy local_nos) then
    say session "Which todo do you want to update? Example: Update todo 3 title to 'Buy vegetables'"
  else
    let title := get "title" payload in
    let desc := get "description" payload in
    let completed := get "completed" payload in
    ns <- int_list local_nos ;;
    if is_none title && is_none desc && is_none completed then
      say session ("What should I update for todo(s) " ++ _human_list ns
                   ++ "? (title / description / status)")
    else
      match _resolve_many_local_to_db_ids session user_id ns with
      | [] => say session "No matching todos found."
      | db_ids =>
          r <- patch_rows session db_ids title desc completed [] ;;
          let (session, updated) := r in
          match updated with
          | [] => say session "No todos were updated."
          | _ =>
              say session (CHECK ++ " Updated:" ++ NL
                           ++ format_todos_for_user session user_id updated)
          end
      end.

(** The loops of complete many and toggle many: [f] gives the new
    status of a row. *)
Fixpoint set_status (f : Todo.t -> bool) (session : Session)
         (db_ids : list Z) (changed : list Todo.t)
  : Session * list Todo.t :=
  match db_ids with
  | [] => (session, changed)
  | db_id :: db_ids' =>
      match session_get session db_id with
      | Some todo =>
          if owned_by user_id todo then
            let todo' :=
              Todo.mk (Todo.id todo) (Todo.user_id todo) (Todo.title todo)
                      (Todo.description todo) (f todo) in
            set_status f (session_update session todo') db_ids'
                       (changed ++ [todo'])%list
          else set_status f session db_ids' changed
      | None => set_status f session db_ids' changed
      end
  end.

(** Complete many *)
Definition action_complete_many (session : Session) (payload : payload)
  : outcome :=
  let local_nos := or_else (get "local_nos" payload) (VList []) in
  if negb (truthy local_nos) then
    say session "Which todo do you want to mark done/undone?"
  else
    ns <- int_list local_nos ;;
    match _resolve_many_local_to_db_ids session user_id ns with
    | [] => say session "No matching todos found."
    | db_ids =>
        let new_val := truthy (get_default "completed" (VBool true) payload) in
        let (session, changed) :=
          set_status (fun _ => new_val) session db_ids [] in
        say session (CHECK ++ " Updated status:" ++ NL
                     ++ format_todos_for_user session user_id changed)
    end.

(** Toggle many *)
Definition action_toggle_many (session : Session) (payload : payload)
  : outcome :=
  let local_nos := or_else (get "local_nos" payload) (VList []) in
  if negb (truthy local_nos) then
    say session "Which todo do you want to toggle?"
  else
    ns <- int_list local_nos ;;
    match _resolve_many_local_to_db_ids session user_id ns with
    | [] => say session "No matching todos found."
    | db_ids =>
        let (session, changed) :=
          set_status (fun t => negb (Todo.completed t)) session db_ids [] in
        say session (CHECK ++ " Toggled status:" ++ NL
                     ++ format_todos_for_user session user_id changed)
    end.

(** Complete all *)
Definition action_complete_all (session : Session) (payload : payload)
  : outcome :=
  let desired := truthy (get_default "completed" (VBool true) payload) in
  let session :=
    with_todos session
      (map (fun t =>
              if owned_by user_id t then
                Todo.mk (Todo.id t) (Todo.user_id t) (Todo.title t)
                        (Todo.description t) desired
              else t)
           (todos session)) in
  say session (CHECK ++ " Marked all todos as "
               ++ (if desired then "completed" else "pending") ++ ".").

(** The loop of delete many over [db_ids]: the session after the
    deletions and the local numbers deleted. *)
Fixpoint delete_rows (lm : list (Z * Z)) (session : Session)
         (db_ids : list Z) (deleted_local : list Z) : Session * list Z :=
  match db_ids with
  | [] => (session, deleted_local)
  | db_id :: db_ids' =>
      match session_get session db_id with
      | Some todo =>
          if owned_by user_id todo then
            let n :=
              match map_get (Todo.id todo) lm with
              | Some n => n
              | None => (-1)%Z
              end in
            delete_rows lm (session_delete session todo) db_ids'
                        (deleted_local ++ [n])%list
          else delete_rows lm session db_ids' deleted_local
      | None => delete_rows lm session db_ids' deleted_local
      end
  end.

(** Delete many *)
Definition action_delete_many (session : Session) (payload : payload)
  : outcome :=
  let local_nos := or_else (get "local_nos" payload) (VList []) in
  if negb (truthy local_nos) then
    say session "Which todo number do you want to delete? Example: Delete todo 3"
  else
    ns <- int_list local_nos ;;
    let all_todos := _get_user_todos session user_id in
    let lm := local_map all_todos in
    match _resolve_many_local_to_db_ids session user_id ns with
    | [] => say session "No matching todos found."
    | db_ids =>
        let (session, deleted_local) := delete_rows lm session db_ids [] in
        let deleted_local := filter (fun x => (0 <? x)%Z) deleted_local in
        match deleted_local with
        | [] => say session "No todos were deleted."
        | _ =>
            say session (BIN ++ " Deleted todo(s): "
                         ++ _human_list deleted_local)
        end
    end.

(** Delete by ordinal *)
Definition action_delete_by_ordinal (session : Session) (payload : payload)
  : outcome :=
  let ordinal := get "ordinal" payload in
  let local :=
    match as_int ordinal with
    | Some o => _ordinal_to_local_no session user_id o
    | None => None
    end in
  match local with
  | None | Some 0%Z => say session "I could not find that todo."
  | Some local =>
      let db_id := _resolve_local_to_db_id session user_id (Some local) in
      let todo :=
        match db_id with
        | None | Some 0%Z => None
        | Some db_id => session_get session db_id
        end in
      match todo with
      | Some todo =>
          if owned_by user_id todo then
            say (session_delete session todo)
                (BIN ++ " Deleted Todo " ++ Py.str local ++ ".")
          else say session "Todo not found."
      | None => say session "Todo not found."
      end
  end.

(** Delete by text *)
Definition action_delete_by_text (session : Session) (payload : payload)
  : outcome :=
  qtext <- stripped (get "query" payload) ;;
  if String.eqb qtext "" then
    say session "Which todo should I delete? Example: Delete the grocery todo"
  else
    match search_todos env session user_id qtext with
    | [] => say session ("No todos matched: " ++ qtext)
    | todos =>
        let all_todos := _get_user_todos session user_id in
        let lm := local_map all_todos in
        let deleted_local :=
          map (fun td => match map_get (Todo.id td) lm with
                         | Some n => n
                         | None => (-1)%Z
                         end) todos in
        let session := fold_left session_delete todos session in
        let deleted_local := filter (fun x => (0 <? x)%Z) deleted_local in
        say session (BIN ++ " Deleted todo(s): " ++ _human_list deleted_local)
    end.

(** Delete filtered *)
Definition action_delete_filtered (session : Session) (payload : payload)
  : outcome :=
  let flt := get_default "filter" (VStr "completed") payload in
  let q := filter (owned_by user_id) (todos session) in
  let todos :=
    if is_str flt "completed" then filter Todo.completed q
    else if is_str flt "pending"
    then filter (fun t => negb (Todo.completed t)) q
    else q in
  name <- py_str flt ;;
  match todos with
  | [] => say session ("No " ++ name ++ " todos to delete.")
  | _ =>
      say (fold_left session_delete todos session)
          (BIN ++ " Deleted all " ++ name ++ " todos ("
           ++ Py.str (len todos) ++ ").")
  end.

(** Delete all *)
Definition action_delete_all (session : Session) : outcome :=
  say (with_todos session
         (filter (fun t => negb (owned_by user_id t)) (todos session)))
      (BIN ++ " Deleted all todos.").

(** The help text of the unknown action. *)
Definition help_text : string :=
  Py.join NL
    ["I can help with todos. Try:";
     "- Todo 1 is completed / Todo 1 is incomplete";
     "- I've completed todo 3";
     "- Add a todo: buy groceries";
     "- Add 3 todos: buy milk, buy eggs, buy bread";
     "- Show my todos / Show completed / Show pending";
     "- Show todo 3 / Show todo number 3";
     "- Show first 5 todos / Show my latest todo";
     "- Which todo has title groceries?";
     "- Add this description: buy xyz to todo 3";
     "- Update todo 3 title to 'Buy vegetables'";
     "- Mark todo 3 as completed / Reopen todo 8 / Toggle 2";
     "- Delete 2 / Delete todo 2 / Delete todos 1 to 4";
     "- Delete all completed / Delete all todos";
     "- Find todo related to gym";
     "- Delete todo 2 and show remaining todos"].

(** The body of [for action, payload in actions]: the branch for
    [action] runs; an action no branch knows leaves no reply. *)
Definition apply_action (session : Session) (a : Parsed) : outcome :=
  let (action, payload) := a in
  if String.eqb action "add" then action_add session payload
  else if String.eqb action "add_many" then action_add_many session payload
  else if String.eqb action "list" then action_list session payload
  else if String.eqb action "group_by_status"
  then action_group_by_status session
  else if String.eqb action "count" then action_count session payload
  else if String.eqb action "summary"
  then say session (_summary_text session user_id)
  else if String.eqb action "details" then action_details session payload
  else if String.eqb action "search" then action_search session payload
  else if String.eqb action "patch_many"
  then action_patch_many session payload
  else if String.eqb action "complete_many"
  then action_complete_many session payload
  else if String.eqb action "toggle_many"
  then action_toggle_many session payload
  else if String.eqb action "complete_all"
  then action_complete_all session payload
  else if String.eqb action "delete_many"
  then action_delete_many session payload
  else if String.eqb action "delete_by_ordinal"
  then action_delete_by_ordinal session payload
  else if String.eqb action "delete_by_text"
  then action_delete_by_text session payload
  else if String.eqb action "delete_filtered"
  then action_delete_filtered session payload
  else if String.eqb action "delete_all" then action_delete_all session
  else if String.eqb action "clarify" then
    Ok (session,
        [or_else (get "message" payload)
                 (VStr "Can you clarify what you want to do?")])
  else if String.eqb action "unknown" then say session help_text
  else Ok (session, []).

(** The whole loop: each action runs on the session the previous
    one left. *)
Fixpoint apply_actions (session : Session) (actions : list Parsed)
  : outcome :=
  match actions with
  | [] => Ok (session, [])
  | a :: actions' =>
      r <- apply_action session a ;;
      let (session, replies) := r in
      r' <- apply_actions session actions' ;;
      let (session, replies') := r' in
      Ok (session, (replies ++ replies')%list)
  end.

End Actions.

(** [[r for r in replies if r.strip()]] *)
Fixpoint nonblank_replies (replies : list value) : result (list string) :=
  match replies with
  | [] => Ok []
  | VStr r :: replies' =>
      rs <- nonblank_replies replies' ;;
      Ok (if String.eqb (Py.strip r) "" then rs else r :: rs)
  | _ => Raise (PyError "AttributeError")
  end.

(** [len(actions) == 1 and actions[0][0] == "unknown"] *)
Definition sole_unknown (actions : list Parsed) : bool :=
  match actions with
  | [(action, _)] => String.eqb action "unknown"
  | _ => false
  end.

(** The [try] block of the fallback with its [except Exception]. *)
Definition fallback (env : Env) (settings : Settings) (message : string)
  : list Parsed :=
  match (ai <- gemini_to_action env settings message ;; normalize_ai ai) with
  | Ok actions => actions
  | Raise _ => [("unknown", [])]
  end.

(** Steps 1 and 2 of [send_message]: the fast parser, and the Gemini
    fallback only if it answered unknown. *)
Definition classify (env : Env) (settings : Settings) (message : string)
  : list Parsed :=
  let actions := parse_intent_fast message in
  if sole_unknown actions then fallback env settings message else actions.

(** The statements of [send_message] before its [return]: the
    message of the user is stored, the actions run, and the reply
    they leave is stored as the message of the assistant.  The result
    is the session after the last commit and the reply. *)
Definition store_reply (env : Env) (settings : Settings) (session : Session)
           (user_id : Z) (message : string) : result (Session * string) :=
  let session := session_log session user_id "user" message in
  let actions := classify env settings message in
  r <- apply_actions env user_id session actions ;;
  let (session, replies) := r in
  rs <- nonblank_replies replies ;;
  let reply :=
    match Py.join (NL ++ NL) rs with
    | EmptyString => "Done."
    | reply => reply
    end in
  Ok (session_log session user_id "assistant" reply, reply).

(** [app.schemas.chat.ChatOut]: a model with the one field [reply],
    a string without a default. *)
Module ChatOut.
Record t : Type := mk {
  reply : string
}.
End ChatOut.

(** The constructor of [ChatOut], called with keywords: the model
    takes its field from the keyword of the same name and ignores a
    keyword that names no field; a field that is missing, or [None],
    is a [ValidationError]. *)
Definition new_ChatOut (kwargs : payload) : result ChatOut.t :=
  match get "reply" kwargs with
  | VStr s => Ok (ChatOut.mk s)
  | VNone => Raise (PyError "ValidationError")
  | _ => Raise Unmodelled
  end.

(** [send_message]: the statements above, then
    [return ChatOut(message=reply)]. *)
Definition send_message (env : Env) (settings : Settings) (session : Session)
           (user_id : Z) (message : string)
  : result (Session * ChatOut.t) :=
  r <- store_reply env settings session user_id message ;;
  let (session, reply) := r in
  out <- new_ChatOut [("message", VStr reply)] ;;
  Ok (session, out).

(* ================================================================= *)
(** ** Vocabulary of the statements *)

(** The action names of a parse result. *)
Definition kinds (acts : list Parsed) : list string := map fst acts.

(** The action names every block but the delete-filtered one can
    return; [unknown] is not among them. *)
Definition block_kinds : list string :=
  ["complete_many"; "details"; "list"; "search"; "clarify"; "delete_all";
   "count"; "summary"; "add"; "add_many"; "complete_all";
   "status_by_ordinal"; "toggle_many"; "delete_many"; "delete_by_ordinal";
   "delete_by_text"; "patch_many"; "group_by_status"].

Definition block_kind (a : Parsed) : bool :=
  existsb (String.eqb (fst a)) block_kinds.

(** A non-empty result made of such actions. *)
Definition block_result (acts : list Parsed) : bool :=
  match acts with
  | [] => false
  | _ => forallb block_kind acts
  end.

(** The blocks tried before the delete-all block. *)
Definition rules_before_delete_all : list rule := firstn 7 rules.

(** The blocks up to and including delete-all, and the ones after. *)
Definition rules_through_delete_all : list rule := firstn 8 rules.

Definition rules_after_delete_all : list rule := skipn 8 rules.

(** The cascade without the list block (the thirteenth). *)
Definition rules_without_list : list rule :=
  (firstn 12 rules ++ skipn 13 rules)%list.

(** What [re.sub] with the white-space pattern and a blank computes,
    written out: every run of white space becomes one blank. *)
Definition starts_blank (s : string) : bool :=
  match s with
  | String c _ => Ascii.eqb c " "
  | EmptyString => false
  end.

Fixpoint collapse (s : string) : string :=
  match s with
  | EmptyString => EmptyString
  | String c s' =>
      if Py.is_space c then
        if starts_blank (collapse s') then collapse s'
        else String " " (collapse s')
      else String c (collapse s')
  end.

(** No white space in a string. *)
Definition nospace (s : string) : bool :=
  match Py.lstrip_by (fun c => negb (Py.is_space c)) s with
  | EmptyString => true
  | _ => false
  end.

(** The output [re.sub] builds from a scan, for the replacement [" "]. *)
Definition blanks (r : list (string * mres) * string) : string :=
  fold_right (fun pm acc => fst pm ++ " " ++ acc) (snd r) (fst r).

(** A service that is down, a deployment without a key, and a
    session with three todos of user 1 and one of user 2, used as
    concrete inputs. *)
Definition env_down : Env :=
  {| generate_content := fun _ _ _ => Raise (PyError "ConnectionError");
     json_loads := fun _ => None;
     ilike := fun v pattern => Py.contains v pattern |}.

Definition settings_no_key : Settings :=
  {| database_url := "sqlite://"; jwt_secret := "change-me";
     jwt_expire_minutes := 60; gemini_api_key := "";
     gemini_model := "gemini-1.5-flash" |}.

Definition settings_with_key : Settings :=
  {| database_url := "sqlite://"; jwt_secret := "change-me";
     jwt_expire_minutes := 60; gemini_api_key := "k";
     gemini_model := "gemini-1.5-flash" |}.

Definition session3 : Session :=
  {| todos := [Todo.mk 5 1 "water plants" None false;
               Todo.mk 2 1 "buy milk" (Some "two litres") true;
               Todo.mk 3 2 "of another user" None false;
               Todo.mk 9 1 "call bob" None false];
     next_id := 10;
     messages := [] |}.

(** The reply to an add action without a title. *)
Definition ask_title : string :=
  "Please provide a title. Example: Add buy groceries".

(** How many todos of the user are older than the one stored under
    [db_id]: they have a smaller id. *)
Definition older (session : Session) (user_id db_id : Z) : Z :=
  len (filter (fun r => owned_by user_id r && (Todo.id r <? db_id)%Z)
              (todos session)).

(** Ascending order of ids, loose and strict. *)
Definition id_le (a b : Todo.t) : Prop := (Todo.id a <= Todo.id b)%Z.

Definition id_lt (a b : Todo.t) : Prop := (Todo.id a < Todo.id b)%Z.

(** A delete-many and a details action on one local number. *)
Definition delete_one (k : Z) : Parsed :=
  ("delete_many", [("local_nos", ints [k])]).

Definition details_one (k : Z) : Parsed :=
  ("details", [("local_nos", ints [k])]).

(** The reply of a delete-many that deleted local number [k]. *)
Definition deleted_reply (k : Z) : value :=
  VStr (BIN ++ " Deleted todo(s): " ++ Py.str k).

(* ================================================================= *)
(** ** The REST routes of [todos.py] *)

(** [app.schemas.todo.TodoCreate] and [TodoUpdate], as the routes
    receive them once the framework has validated the request. *)
Module TodoCreate.
Record t : Type := mk {
  title : string;
  description : option string
}.
End TodoCreate.

Module TodoUpdate.
Record t : Type := mk {
  title : option string;
  description : option string;
  completed : option bool
}.
End TodoUpdate.

(** [HTTPException(status_code=404, detail="Todo not found")] *)
Definition not_found : exn := HTTPException 404 "Todo not found".

(** [list_todos]: the todos of the user, newest first. *)
Definition list_todos (session : Session) (user_id : Z) : list Todo.t :=
  order_by Todo.id true (filter (owned_by user_id) (todos session)).

(** [create_todo] *)
Definition create_todo (session : Session) (user_id : Z)
           (data : TodoCreate.t) : Session * Todo.t :=
  session_insert session user_id (TodoCreate.title data)
                 (TodoCreate.description data).

(** The guard the three item routes share:
    [todo = session.get(Todo, todo_id)], then 404 when
    [not todo or todo.user_id != user.id]. *)
Definition own_todo (session : Session) (user_id todo_id : Z)
  : result Todo.t :=
  match session_get session todo_id with
  | Some todo => if owned_by user_id todo then Ok todo else Raise not_found
  | None => Raise not_found
  end.

(** [get_todo] *)
Definition get_todo (session : Session) (user_id todo_id : Z)
  : result Todo.t :=
  own_todo session user_id todo_id.

(** [update_todo]: the fields given in the request replace the stored
    ones. *)
Definition update_todo (session : Session) (user_id todo_id : Z)
           (data : TodoUpdate.t) : result (Session * Todo.t) :=
  todo <- own_todo session user_id todo_id ;;
  let title :=
    match TodoUpdate.title data with
    | Some s => s
    | None => Todo.title todo
    end in
  let description :=
    match TodoUpdate.description data with
    | Some d => Some d
    | None => Todo.description todo
    end in
  let completed :=
    match TodoUpdate.completed data with
    | Some b => b
    | None => Todo.completed todo
    end in
  let todo :=
    Todo.mk (Todo.id todo) (Todo.user_id todo) title description completed in
  Ok (session_update session todo, todo).

(** [delete_todo] *)
Definition delete_todo (session : Session) (user_id todo_id : Z)
  : result Session :=
  todo <- own_todo session user_id todo_id ;;
  Ok (session_delete session todo).

(** A table as the database keeps it: the primary key is unique and
    the keys handed out so far lie below the next one. *)
Definition well_formed (session : Session) : Prop :=
  NoDup (map Todo.id (todos session))
  /\ Forall (fun t => (Todo.id t < next_id session)%Z) (todos session).

(** Descending order of ids. *)
Definition id_gt (a b : Todo.t) : Prop := (Todo.id b < Todo.id a)%Z.

(** The rows of the other users. *)
Definition others (user_id : Z) (session : Session) : list Todo.t :=
  filter (fun t => negb (owned_by user_id t)) (todos session).

(** What every step of the action loop keeps, for the user it runs
    for: a well-formed table stays well formed, the rows of the other
    users and the chat log are not touched. *)
Definition safe (user_id : Z) (s s' : Session) : Prop :=
  well_formed s ->
  well_formed s' /\ others user_id s' = others user_id s
  /\ messages s' = messages s.

(** Every row stored under the id of [t] is a row of the user. *)
Definition own_key (user_id : Z) (s : Session) (t : Todo.t) : Prop :=
  forall r, In r (todos s) -> Todo.id r = Todo.id t ->
            owned_by user_id r = true.

(** A string with a character that is not white space. *)
Fixpoint has_ink (s : string) : bool :=
  match s with
  | EmptyString => false
  | String c s' => negb (Py.is_space c) || has_ink s'
  end.

(** The field types the action loop handles without raising: a text
    field holds a string or [None], a list field holds integers (or
    strings) only. *)
Definition is_text (v : value) : bool :=
  match v with VNone | VStr _ => true | _ => false end.

Definition is_int_value (v : value) : bool :=
  match v with VInt _ => true | _ => false end.

Definition is_str_value (v : value) : bool :=
  match v with VStr _ => true | _ => false end.

Definition is_ints (v : value) : bool :=
  match v with
  | VNone => true
  | VList l => forallb is_int_value l
  | _ => false
  end.

Definition is_strs (v : value) : bool :=
  match v with
  | VNone => true
  | VList l => forallb is_str_value l
  | _ => false
  end.

(** An action whose payload has these types in the fields the loop
    reads. *)
Definition shaped (a : Parsed) : bool :=
  let p := snd a in
  is_text (get "title" p) && is_text (get "description" p)
  && is_strs (get "items" p) && is_text (get "sort_dir" p)
  && is_ints (get "local_nos" p) && is_text (get "query" p)
  && is_text (get "message" p) && is_text (get "filter" p).


(** The local numbers of a request that name a todo of the list
    [all_todos], in the order the resolver visits them. *)
Definition in_range (all_todos : list Todo.t) (n : Z) : bool :=
  ((1 <=? n) && (n <=? len all_todos))%Z.

Definition hits (all_todos : list Todo.t) (local_nos : list Z) : list Z :=
  filter (in_range all_todos) (sorted_set local_nos).

(** [n] names the row [t] of [all_todos]. *)
Definition names (all_todos : list Todo.t) (n : Z) (t : Todo.t) : Prop :=
  (1 <= n)%Z /\ item all_todos (n - 1) = Some t.

(** [db_id in db_ids] *)
Definition id_in (db_ids : list Z) (t : Todo.t) : bool :=
  existsb (Z.eqb (Todo.id t)) db_ids.

(** A row with its status set by [f], as the status loops store it. *)
Definition with_status (f : Todo.t -> bool) (t : Todo.t) : Todo.t :=
  Todo.mk (Todo.id t) (Todo.user_id t) (Todo.title t) (Todo.description t)
          (f t).

(** [n in local_nos] *)
Definition listed (local_nos : list Z) (n : Z) : bool :=
  existsb (Z.eqb n) local_nos.

(** A toggle-many action on the local numbers [ns]. *)
Definition toggle (ns : list Z) : Parsed :=
  ("toggle_many", [("local_nos", ints ns)]).

(** [not bool(todo.completed)] *)
Definition flipped (t : Todo.t) : bool := negb (Todo.completed t).

(** The rows a delete-filtered action selects: the completed ones,
    the pending ones, or, for any other filter, all of them. *)
Definition selected (flt : string) (t : Todo.t) : bool :=
  if String.eqb flt "completed" then Todo.completed t
  else if String.eqb flt "pending" then negb (Todo.completed t)
  else true.

(** [True], [False] or [None] *)
Definition opt_bool (o : option bool) : value :=
  match o with Some b => VBool b | None => VNone end.

(** A row after a patch with the given fields, [None] for a field
    that is not given. *)
Definition patched (title desc : option string) (completed : option bool)
           (t : Todo.t) : Todo.t :=
  Todo.mk (Todo.id t) (Todo.user_id t)
          (match title with
           | Some s => if String.eqb (Py.strip s) "" then Todo.title t
                       else Py.strip s
           | None => Todo.title t
           end)
          (match desc with
           | Some d => if String.eqb (Py.strip d) "" then None
                       else Some (Py.strip d)
           | None => Todo.description t
           end)
          (match completed with
           | Some b => b
           | None => Todo.completed t
           end).

(** The action names [normalize_ai] can return. *)
Definition ai_kinds : list string :=
  ["add"; "add_many"; "list"; "count"; "summary"; "details"; "patch_many";
   "complete_all"; "delete_many"; "delete_all"; "delete_filtered"; "search";
   "clarify"; "unknown"].

Definition ai_kind (a : Parsed) : bool :=
  existsb (String.eqb (fst a)) ai_kinds.

(** [title ILIKE %q% OR description ILIKE %q%] for a row. *)
Definition matches (env : Env) (qtext : string) (t : Todo.t) : bool :=
  ilike env (Todo.title t) ("%" ++ qtext ++ "%")
  || match Todo.description t with
     | Some d => ilike env d ("%" ++ qtext ++ "%")
     | None => false
     end.

(** A database whose [ILIKE] on a pattern [%q%] is the search for [q]
    without regard to case, used as a concrete input. *)
Definition env_substring : Env :=
  {| generate_content := generate_content env_down;
     json_loads := json_loads env_down;
     ilike := fun v pattern =>
                Py.contains (Py.lower (Py.strip_chars "%" pattern))
                            (Py.lower v) |}.

(** A text in normal form: words of characters that are not white
    space, separated by single blanks. *)
Inductive tidy : string -> Prop :=
| tidy_nil : tidy ""
| tidy_one (c : ascii) : Py.is_space c = false -> tidy (String c "")
| tidy_ink (c : ascii) (s : string) :
    Py.is_space c = false -> tidy s -> s <> "" -> tidy (String c s)
| tidy_gap (c : ascii) (s : string) :
    Py.is_space c = false -> tidy s -> s <> "" ->
    tidy (String c (String " " s)).

(** A service whose answer parses to an [add] with a number for a
    title, used as a concrete input. *)
Definition env_number_title : Env :=
  {| generate_content := fun _ _ _ => Ok (Some "{}");
     json_loads := fun _ =>
                     Some (VDict [("action", VStr "add");
                                  ("title", VInt 7)]);
     ilike := ilike env_down |}.

(** The titles an add-many keeps: trimmed, without the blank ones. *)
Definition kept_titles (titles : list string) : list string :=
  filter (fun t => negb (String.eqb t "")) (map Py.strip titles).

(** The rows an add-many stores for them, from the key [next] on. *)
Fixpoint new_rows (user_id next : Z) (titles : list string) : list Todo.t :=
  match titles with
  | [] => []
  | t :: titles' =>
      Todo.mk next user_id t None false :: new_rows user_id (next + 1) titles'
  end.

(** The actions that only read the table. *)
Definition query_kinds : list string :=
  ["list"; "group_by_status"; "count"; "summary"; "details"; "search";
   "clarify"; "unknown"].

(** A service whose answer parses to the JSON value [ai], used as a
    concrete input. *)
Definition env_answer (ai : value) : Env :=
  {| generate_content := fun _ _ _ => Ok (Some "{}");
     json_loads := fun _ => Some ai;
     ilike := ilike env_down |}.

(** The blocks tried before the add block (the fourteenth). *)
Definition rules_before_add : list rule := firstn 13 rules.

(** The reply to an add-many whose items are all blank. *)
Definition no_valid_titles : string :=
  "I could not find valid todo titles to add.".











(* ================================================================= *)
(** * Properties *)

(* ----------------------------------------------------------------- *)
(** ** Sorted sets and ranges *)

Local Open Scope Z_scope.

Lemma insert_uniq_In (x y : Z) (l : list Z) :
  In x (insert_uniq y l) <-> x = y \/ In x l.
Proof.
  induction l as [|z l IH]; simpl.
  - intuition.
  - destruct (Z.ltb_spec y z) as [Hlt|Hge]; simpl; [intuition|].
    destruct (Z.eqb_spec y z) as [->|Hne]; simpl; intuition.
Qed.

Lemma sorted_set_In (x : Z) (l : list Z) : In x (sorted_set l) <-> In x l.
Proof.
  induction l as [|y l IH]; simpl; [tauto|].
  rewrite insert_uniq_In, IH. intuition.
Qed.

Lemma insert_uniq_sorted (x : Z) (l : list Z) :
  StronglySorted Z.lt l -> StronglySorted Z.lt (insert_uniq x l).
Proof.
  induction 1 as [|y l Hs IH Hall]; simpl.
  - repeat constructor.
  - destruct (Z.ltb_spec x y) as [Hlt|Hge].
    + constructor; [constructor; assumption|].
      constructor; [assumption|].
      eapply Forall_impl; [|exact Hall]. intros; lia.
    + destruct (Z.eqb_spec x y) as [->|Hne].
      * constructor; assumption.
      * constructor; [assumption|].
        apply Forall_forall. intros z Hz.
        apply insert_uniq_In in Hz. destruct Hz as [->|Hz]; [lia|].
        rewrite Forall_forall in Hall. auto.
Qed.

Lemma sorted_set_sorted (l : list Z) : StronglySorted Z.lt (sorted_set l).
Proof.
  induction l; simpl; [constructor | apply insert_uniq_sorted; assumption].
Qed.



(** Case analysis on every integer comparison of the goal. *)
Ltac cmp_cases :=
  repeat match goal with
         | |- context [(?a <=? ?b)%Z] => destruct (Z.leb_spec a b)
         | |- context [(?a <? ?b)%Z] => destruct (Z.ltb_spec a b)
         | |- context [(?a =? ?b)%Z] => destruct (Z.eqb_spec a b)
         end;
  simpl; try reflexivity; try lia; try (f_equal; lia).

(* ----------------------------------------------------------------- *)
(** ** Ordinals (C5) *)

(** C5.  With [N] the number of todos of the user: a negative ordinal
    [o] resolves to [N + o + 1] when that lies in [1..N] and to nothing
    otherwise; a positive ordinal [o] resolves to itself when
    [1 <= o <= N] and to nothing otherwise; so the ordinal [-1]
    resolves to [N] when [N > 0] and to nothing when [N = 0]. *)
Theorem ordinal_to_local_no_spec (session : Session) (user_id o : Z) :
  let N := len (_get_user_todos session user_id) in
  0 <= N
  /\ (o < 0 ->
      _ordinal_to_local_no session user_id o
      = if (1 <=? N + o + 1) && (N + o + 1 <=? N) then Some (N + o + 1)
        else None)
  /\ (0 < o ->
      _ordinal_to_local_no session user_id o
      = if (1 <=? o) && (o <=? N) then Some o else None)
  /\ _ordinal_to_local_no session user_id (-1)
     = if 0 <? N then Some N else None.
Proof.
  intros N. subst N. unfold _ordinal_to_local_no.
  destruct (_get_user_todos session user_id) as [|x l].
  - change (len (@nil Todo.t)) with 0.
    repeat split; try lia; intros; cmp_cases.
  - set (N := len (x :: l)).
    assert (HN : 0 < N) by (unfold N, len; simpl; lia).
    clearbody N.
    repeat split; try lia; intros; cmp_cases.
Qed.

(** C5 at the session [session3], where user 1 has three todos. *)
Lemma ordinal_to_local_no_witness :
  _ordinal_to_local_no session3 1 (-2) = Some 2
  /\ _ordinal_to_local_no session3 1 3 = Some 3
  /\ _ordinal_to_local_no session3 1 4 = None.
Proof.
  pose proof (ordinal_to_local_no_spec session3 1 (-2)) as H1.
  pose proof (ordinal_to_local_no_spec session3 1 3) as H2.
  pose proof (ordinal_to_local_no_spec session3 1 4) as H3.
  cbv zeta in H1, H2, H3.
  destruct H1 as [_ [H1 _]], H2 as [_ [_ [H2 _]]], H3 as [_ [_ [H3 _]]].
  split; [|split].
  - rewrite H1 by lia. reflexivity.
  - rewrite H2 by lia. reflexivity.
  - rewrite H3 by lia. reflexivity.
Defined.

(* ----------------------------------------------------------------- *)
(** ** A chained delete (C7) *)

(** C7.  [Delete todo 2 and show remaining todos] parses to
    [delete_many] of local number 2 followed by a [list] of all todos:
    the chaining pattern matches the lower-cased message, and the
    delete block returns both actions. *)
Theorem parse_delete_and_show :
  let text := "Delete todo 2 and show remaining todos" in
  let raw := normalize text in
  let t := Py.lower raw in
  parse_intent_fast text
  = [("delete_many", [("local_nos", VList [VInt 2])]);
     ("list", [("filter", VStr "all"); ("priority", VNone);
               ("sort_by", VNone); ("sort_dir", VNone); ("limit", VNone)])]
  /\ wants_show t = true
  /\ rule_delete raw t true = Some (parse_intent_fast text)
  /\ rule_delete raw t false
     = Some [("delete_many", [("local_nos", VList [VInt 2])])].
Proof.
  repeat split; vm_compute; reflexivity.
Qed.

(* ----------------------------------------------------------------- *)
(** ** What the blocks of the parser return *)

Ltac break_in H :=
  match type of H with
  | context [match ?x with _ => _ end] =>
      let E := fresh "E" in destruct x eqn:E
  end.

(** Runs through the branches of a block [H : block ... = Some acts]
    and checks each returned list. *)
Ltac block_tac H :=
  cbv beta zeta in H;
  repeat (break_in H; cbv beta iota zeta in H);
  try discriminate H;
  injection H as <-;
  try match goal with
      | |- context [with_show ?w _] => destruct w
      end;
  reflexivity.

Lemma rule_status_result t w acts :
  rule_status t w = Some acts -> block_result acts = true.
Proof. intros H. unfold rule_status in H. block_tac H. Qed.

Lemma rule_status2_result t w acts :
  rule_status2 t w = Some acts -> block_result acts = true.
Proof. intros H. unfold rule_status2 in H. block_tac H. Qed.

Lemma rule_latest_result t acts :
  rule_latest t = Some acts -> block_result acts = true.
Proof. intros H. unfold rule_latest in H. block_tac H. Qed.

Lemma rule_show_one_result t acts :
  rule_show_one t = Some acts -> block_result acts = true.
Proof. intros H. unfold rule_show_one in H. block_tac H. Qed.

Lemma rule_first_n_result t acts :
  rule_first_n t = Some acts -> block_result acts = true.
Proof. intros H. unfold rule_first_n in H. block_tac H. Qed.

Lemma rule_which_result raw t acts :
  rule_which raw t = Some acts -> block_result acts = true.
Proof. intros H. unfold rule_which in H. block_tac H. Qed.

Lemma rule_search_result raw t acts :
  rule_search raw t = Some acts -> block_result acts = true.
Proof. intros H. unfold rule_search in H. block_tac H. Qed.

Lemma rule_delete_all_result t acts :
  rule_delete_all t = Some acts -> block_result acts = true.
Proof. intros H. unfold rule_delete_all in H. block_tac H. Qed.

Lemma rule_count_result t acts :
  rule_count t = Some acts -> block_result acts = true.
Proof. intros H. unfold rule_count in H. block_tac H. Qed.

Lemma rule_summary_result t acts :
  rule_summary t = Some acts -> block_result acts = true.
Proof. intros H. unfold rule_summary in H. block_tac H. Qed.

Lemma rule_details_result t acts :
  rule_details t = Some acts -> block_result acts = true.
Proof. intros H. unfold rule_details in H. block_tac H. Qed.

Lemma rule_list_result t acts :
  rule_list t = Some acts -> block_result acts = true.
Proof. intros H. unfold rule_list in H. block_tac H. Qed.

Lemma rule_add_result raw t w acts :
  rule_add raw t w = Some acts -> block_result acts = true.
Proof. intros H. unfold rule_add in H. block_tac H. Qed.

Lemma rule_mark_result t acts :
  rule_mark t = Some acts -> block_result acts = true.
Proof. intros H. unfold rule_mark in H. block_tac H. Qed.

Lemma rule_delete_result raw t w acts :
  rule_delete raw t w = Some acts -> block_result acts = true.
Proof. intros H. unfold rule_delete in H. block_tac H. Qed.

Lemma update_segment_kind seg a :
  update_segment seg = Some a -> block_kind a = true.
Proof.
  intros H. unfold update_segment in H.
  cbv beta zeta in H.
  repeat (break_in H; cbv beta iota zeta in H);
    try discriminate H; injection H as <-; reflexivity.
Qed.

Lemma update_segments_kinds segs :
  forallb block_kind (update_segments segs) = true.
Proof.
  induction segs as [|seg segs IH]; simpl; [reflexivity|].
  destruct (update_segment seg) as [a|] eqn:E; [|exact IH].
  simpl. rewrite (update_segment_kind _ _ E). exact IH.
Qed.

Lemma rule_update_result raw t acts :
  rule_update raw t = Some acts -> block_result acts = true.
Proof.
  intros H. unfold rule_update in H.
  destruct (Py.startswith_any t _); [|discriminate H].
  destruct (search_i re_add_this_desc raw); [block_tac H|].
  destruct (update_segments _) as [|a l] eqn:E.
  - block_tac H.
  - injection H as <-. unfold block_result. rewrite <- E.
    apply update_segments_kinds.
Qed.

Lemma rule_group_result t acts :
  rule_group t = Some acts -> block_result acts = true.
Proof. intros H. unfold rule_group in H. block_tac H. Qed.

Lemma rule_undo_result t acts :
  rule_undo t = Some acts -> block_result acts = true.
Proof. intros H. unfold rule_undo in H. block_tac H. Qed.

(** The delete-filtered block returns one [delete_filtered] action,
    and only for a text holding [delete completed] or
    [delete pending]. *)
Lemma rule_delete_filtered_result t acts :
  rule_delete_filtered t = Some acts ->
  (acts = [("delete_filtered", [("filter", VStr "completed")])]
   \/ acts = [("delete_filtered", [("filter", VStr "pending")])])
  /\ (Py.contains "delete all completed" t = true
      \/ Py.contains "delete completed" t = true
      \/ Py.contains "delete all pending" t = true
      \/ Py.contains "delete pending" t = true).
Proof.
  unfold rule_delete_filtered. intros H.
  destruct (Py.contains "delete all completed" t) eqn:E1;
    [injection H as <-; auto|].
  destruct (Py.contains "delete completed" t) eqn:E2;
    [injection H as <-; auto|].
  destruct (Py.contains "delete all pending" t) eqn:E3;
    [injection H as <-; auto 6|].
  destruct (Py.contains "delete pending" t) eqn:E4;
    [injection H as <-; auto 6|].
  discriminate H.
Qed.

(* ----------------------------------------------------------------- *)
(** ** The cascade (C9) *)

Lemma first_match_cases (rs : list rule) (raw t : string) (w : bool) :
  (exists r acts,
      In r rs /\ r raw t w = Some acts /\ first_match rs raw t w = acts)
  \/ ((forall r, In r rs -> r raw t w = None)
      /\ first_match rs raw t w = [("unknown", [])]).
Proof.
  induction rs as [|r rs IH]; simpl.
  - right. split; [intros r []|reflexivity].
  - destruct (r raw t w) as [acts|] eqn:E.
    + left. exists r, acts. auto.
    + destruct IH as [[r' [acts [Hin [Hr Hf]]]]|[Hnone Hf]].
      * left. exists r', acts. auto.
      * right. split; [|exact Hf].
        intros r' [<-|Hin]; [exact E|apply Hnone; exact Hin].
Qed.

(** What any block returns. *)
Lemma rules_result (r : rule) (raw t : string) (w : bool) (acts : list Parsed) :
  In r rules -> r raw t w = Some acts ->
  block_result acts = true
  \/ acts = [("delete_filtered", [("filter", VStr "completed")])]
  \/ acts = [("delete_filtered", [("filter", VStr "pending")])].
Proof.
  unfold rules. simpl. intros Hin H.
  repeat match type of Hin with
         | _ \/ _ => destruct Hin as [<-|Hin]
         end;
    try contradiction;
    try (left;
         first [ exact (rule_status_result _ _ _ H)
               | exact (rule_status2_result _ _ _ H)
               | exact (rule_latest_result _ _ H)
               | exact (rule_show_one_result _ _ H)
               | exact (rule_first_n_result _ _ H)
               | exact (rule_which_result _ _ _ H)
               | exact (rule_search_result _ _ _ H)
               | exact (rule_delete_all_result _ _ H)
               | exact (rule_count_result _ _ H)
               | exact (rule_summary_result _ _ H)
               | exact (rule_details_result _ _ H)
               | exact (rule_list_result _ _ H)
               | exact (rule_add_result _ _ _ _ H)
               | exact (rule_mark_result _ _ H)
               | exact (rule_delete_result _ _ _ _ H)
               | exact (rule_update_result _ _ _ H)
               | exact (rule_group_result _ _ H)
               | exact (rule_undo_result _ _ H) ]).
  right. exact (proj1 (rule_delete_filtered_result _ _ H)).
Qed.

Lemma block_result_nonempty (acts : list Parsed) :
  block_result acts = true -> acts <> [].
Proof. destruct acts; [discriminate|discriminate]. Qed.

Lemma block_result_kinds (acts : list Parsed) (k : string) :
  block_result acts = true -> In k (kinds acts) -> In k block_kinds.
Proof.
  intros H Hk. unfold kinds in Hk. apply in_map_iff in Hk.
  destruct Hk as [a [<- Ha]].
  assert (Hall : forallb block_kind acts = true)
    by (destruct acts; [discriminate H|exact H]).
  rewrite forallb_forall in Hall. specialize (Hall a Ha).
  unfold block_kind in Hall. apply existsb_exists in Hall.
  destruct Hall as [k' [Hin Heq]]. apply String.eqb_eq in Heq.
  rewrite Heq. exact Hin.
Qed.

Lemma rules_result_not_unknown (r : rule) (raw t : string) (w : bool)
      (acts : list Parsed) :
  In r rules -> r raw t w = Some acts ->
  acts <> [] /\ ~ In "unknown" (kinds acts).
Proof.
  intros Hin H. destruct (rules_result r raw t w acts Hin H) as [Hb|[ -> | -> ]].
  - split; [apply block_result_nonempty; exact Hb|].
    intros Hk. apply (block_result_kinds _ _ Hb) in Hk.
    simpl in Hk.
    repeat match type of Hk with
           | _ \/ _ => destruct Hk as [Hk|Hk]; [discriminate Hk|]
           end.
    exact Hk.
  - split; [discriminate|]. simpl. intros [Hk|[]]. discriminate Hk.
  - split; [discriminate|]. simpl. intros [Hk|[]]. discriminate Hk.
Qed.



(* ----------------------------------------------------------------- *)
(** ** Substrings and prefixes *)

Local Open Scope string_scope.

Lemma startswith_trans (s p q : string) :
  Py.startswith s p = true -> Py.startswith p q = true ->
  Py.startswith s q = true.
Proof.
  revert s p. induction q as [|c q IH]; intros s p Hsp Hpq; [reflexivity|].
  destruct p as [|b p]; [discriminate Hpq|].
  destruct s as [|a s]; [discriminate Hsp|].
  simpl in *. apply andb_true_iff in Hsp, Hpq.
  destruct Hsp as [Hba Hsp], Hpq as [Hcb Hpq].
  apply Ascii.eqb_eq in Hba, Hcb. subst.
  rewrite Ascii.eqb_refl. simpl. eapply IH; eassumption.
Qed.

(** A text that holds a needle holds every prefix of the needle. *)
Lemma contains_prefix (hay n1 n2 : string) :
  Py.startswith n2 n1 = true -> Py.contains n2 hay = true ->
  Py.contains n1 hay = true.
Proof.
  intros Hp. induction hay as [|c hay IH]; simpl; intros H.
  - apply orb_true_iff in H. destruct H as [H|H]; [|discriminate H].
    rewrite (startswith_trans _ _ _ H Hp). reflexivity.
  - apply orb_true_iff in H. destruct H as [H|H].
    + rewrite (startswith_trans _ _ _ H Hp). reflexivity.
    + rewrite (IH H). apply orb_true_r.
Qed.

Lemma first_match_app_none (rs1 rs2 : list rule) (raw t : string) (w : bool) :
  Forall (fun r => r raw t w = None) rs1 ->
  first_match (rs1 ++ rs2) raw t w = first_match rs2 raw t w.
Proof.
  induction 1 as [|r rs1 Hr _ IH]; simpl; [reflexivity|].
  rewrite Hr. exact IH.
Qed.

Lemma first_match_app (rs1 rs2 : list rule) (raw t : string) (w : bool) :
  (exists r, In r rs1
             /\ r raw t w = Some (first_match (rs1 ++ rs2) raw t w))
  \/ (Forall (fun r => r raw t w = None) rs1
      /\ first_match (rs1 ++ rs2) raw t w = first_match rs2 raw t w).
Proof.
  induction rs1 as [|r rs1 IH]; simpl.
  - right. split; [constructor|reflexivity].
  - destruct (r raw t w) as [acts|] eqn:E.
    + left. exists r. auto.
    + destruct IH as [[r' [Hin Hr']]|[Hall Hf]].
      * left. exists r'. auto.
      * right. split; [constructor; assumption|exact Hf].
Qed.

Lemma rules_split_8 :
  rules = (rules_through_delete_all ++ rules_after_delete_all)%list.
Proof. symmetry. apply firstn_skipn. Qed.

(** The blocks up to delete-all return plain results. *)
Lemma early_rules_result (r : rule) (raw t : string) (w : bool)
      (acts : list Parsed) :
  In r rules_through_delete_all -> r raw t w = Some acts ->
  block_result acts = true.
Proof.
  intros Hin H. destruct (rules_result r raw t w acts) as [Hb|Hdf].
  - rewrite rules_split_8. apply in_or_app. left. exact Hin.
  - exact H.
  - exact Hb.
  - exfalso. cbv [rules_through_delete_all rules firstn] in Hin. simpl in Hin.
    repeat match type of Hin with
           | _ \/ _ => destruct Hin as [<-|Hin]
           end;
      try contradiction;
      first [ apply rule_status_result in H
            | apply rule_status2_result in H
            | apply rule_latest_result in H
            | apply rule_show_one_result in H
            | apply rule_first_n_result in H
            | apply rule_which_result in H
            | apply rule_search_result in H
            | apply rule_delete_all_result in H ];
      destruct Hdf as [-> | ->]; discriminate H.
Qed.

(** A [delete_filtered] action can only come from the
    delete-filtered block. *)
Lemma late_rules_result (r : rule) (raw t : string) (w : bool)
      (acts : list Parsed) :
  In r rules_after_delete_all -> r raw t w = Some acts ->
  In "delete_filtered" (kinds acts) ->
  Py.contains "delete all completed" t = true
  \/ Py.contains "delete completed" t = true
  \/ Py.contains "delete all pending" t = true
  \/ Py.contains "delete pending" t = true.
Proof.
  intros Hin H Hk.
  cbv [rules_after_delete_all rules skipn] in Hin. simpl in Hin.
  destruct Hin as [<-|Hin];
    [exact (proj2 (rule_delete_filtered_result _ _ H))|].
  exfalso.
  assert (Hb : block_result acts = true).
  { repeat match type of Hin with
           | _ \/ _ => destruct Hin as [<-|Hin]
           end;
      try contradiction;
      first [ exact (rule_count_result _ _ H)
            | exact (rule_summary_result _ _ H)
            | exact (rule_details_result _ _ H)
            | exact (rule_list_result _ _ H)
            | exact (rule_add_result _ _ _ _ H)
            | exact (rule_mark_result _ _ H)
            | exact (rule_delete_result _ _ _ _ H)
            | exact (rule_update_result _ _ _ H)
            | exact (rule_group_result _ _ H)
            | exact (rule_undo_result _ _ H) ]. }
  apply (block_result_kinds _ _ Hb) in Hk. simpl in Hk.
  repeat match type of Hk with
         | _ \/ _ => destruct Hk as [Hk|Hk]; [discriminate Hk|]
         end.
  exact Hk.
Qed.

Lemma rule_delete_all_none (t : string) :
  rule_delete_all t = None -> Py.contains "delete all" t = false.
Proof.
  unfold rule_delete_all, Py.contains_any. simpl.
  destruct (Py.contains "delete all" t); [discriminate|reflexivity].
Qed.

Lemma rule_delete_all_some (t : string) :
  Py.contains "delete all" t = true ->
  rule_delete_all t = Some [("delete_all", [])].
Proof.
  unfold rule_delete_all, Py.contains_any. simpl. intros ->. reflexivity.
Qed.

Lemma no_delete_all (t : string) :
  Py.contains "delete all" t = false ->
  Py.contains "delete all completed" t = false
  /\ Py.contains "delete all pending" t = false.
Proof.
  intros H. split.
  - destruct (Py.contains "delete all completed" t) eqn:E; [|reflexivity].
    rewrite (contains_prefix t "delete all" "delete all completed") in H;
      [discriminate H|reflexivity|exact E].
  - destruct (Py.contains "delete all pending" t) eqn:E; [|reflexivity].
    rewrite (contains_prefix t "delete all" "delete all pending") in H;
      [discriminate H|reflexivity|exact E].
Qed.

(* ----------------------------------------------------------------- *)
(** ** Delete all before delete filtered (C10) *)

(** C10, the claim as stated fails: a message that holds [delete all]
    but is caught by an earlier block (here the status block) does not
    parse to [delete_all]. *)
Lemma delete_all_not_first :
  let text := "todo 3 is done, delete all completed" in
  Py.contains "delete all" (Py.lower text) = true
  /\ parse_intent_fast text
     = [("complete_many",
         [("local_nos", VList [VInt 3%Z]); ("completed", VBool true)])]
  /\ parse_intent_fast text <> [("delete_all", [])].
Proof.
  repeat split; try (vm_compute; reflexivity).
  vm_compute. discriminate.
Qed.

(** C10, amended.  When the lower-cased text holds [delete all] and
    none of the seven blocks before the delete-all block returns, the
    parser returns exactly [delete_all], also for [delete all
    completed] and [delete all pending].  Whenever the delete-all
    block falls through, the text holds neither [delete all
    completed] nor [delete all pending], so these two tests of the
    delete-filtered block never decide.  A [delete_filtered] action in
    the result implies that the text holds [delete completed] or
    [delete pending] and does not hold [delete all]. *)
Theorem delete_all_shadows_filtered (text : string) :
  let raw := normalize text in
  let t := Py.lower raw in
  let w := wants_show t in
  (Py.contains "delete all" t = true ->
   Forall (fun r : rule => r raw t w = None) rules_before_delete_all ->
   parse_intent_fast text = [("delete_all", [])])
  /\ (rule_delete_all t = None ->
      Py.contains "delete all completed" t = false
      /\ Py.contains "delete all pending" t = false)
  /\ (In "delete_filtered" (kinds (parse_intent_fast text)) ->
      Py.contains "delete all" t = false
      /\ (Py.contains "delete completed" t = true
          \/ Py.contains "delete pending" t = true)).
Proof.
  intros raw t w. split; [|split].
  - intros Hc Hnone. unfold parse_intent_fast. fold raw t w.
    rewrite <- (firstn_skipn 7 rules).
    rewrite (first_match_app_none _ _ raw t w Hnone).
    cbv [rules skipn]. cbn [first_match].
    rewrite (rule_delete_all_some t Hc). reflexivity.
  - intros H. apply no_delete_all. apply rule_delete_all_none. exact H.
  - intros Hk. unfold parse_intent_fast in Hk. fold raw t w in Hk.
    rewrite rules_split_8 in Hk.
    destruct (first_match_app rules_through_delete_all rules_after_delete_all
                raw t w) as [[r [Hin Hr]]|[Hall Hf]].
    + exfalso. pose proof (early_rules_result r raw t w _ Hin Hr) as Hb.
      apply (block_result_kinds _ _ Hb) in Hk. simpl in Hk.
      repeat match type of Hk with
             | _ \/ _ => destruct Hk as [Hk|Hk]; [discriminate Hk|]
             end.
      exact Hk.
    + assert (Hda : rule_delete_all t = None).
      { rewrite Forall_forall in Hall.
        apply (Hall (fun _ t _ => rule_delete_all t)).
        cbv [rules_through_delete_all rules firstn]. simpl. auto 10. }
      pose proof (rule_delete_all_none t Hda) as Hno.
      destruct (no_delete_all t Hno) as [Hc Hp].
      split; [exact Hno|].
      rewrite Hf in Hk.
      destruct (first_match_cases rules_after_delete_all raw t w)
        as [[r [acts [Hin [Hr Hfm]]]]|[_ Hfm]].
      * rewrite Hfm in Hk.
        destruct (late_rules_result r raw t w acts Hin Hr Hk)
          as [H|[H|[H|H]]]; try congruence; auto.
      * rewrite Hfm in Hk. simpl in Hk. destruct Hk as [Hk|[]].
        discriminate Hk.
Qed.

(** The amended C10 at a message: [delete all completed] parses to
    [delete_all]. *)
Lemma delete_all_shadows_filtered_witness :
  parse_intent_fast "delete all completed" = [("delete_all", [])].
Proof.
  apply (proj1 (delete_all_shadows_filtered "delete all completed")).
  - vm_compute. reflexivity.
  - cbv [rules_before_delete_all rules firstn].
    repeat constructor; vm_compute; reflexivity.
Defined.

(* ----------------------------------------------------------------- *)
(** ** White-space normalisation

    [re.sub] with the white-space pattern computes [collapse]. *)

Lemma append_nil_r (s : string) : s ++ "" = s.
Proof. induction s; simpl; congruence. Qed.

Lemma append_assoc (a b c : string) : (a ++ b) ++ c = a ++ b ++ c.
Proof. induction a; simpl; congruence. Qed.

Lemma length_append (a b : string) :
  String.length (a ++ b) = (String.length a + String.length b)%nat.
Proof. induction a; simpl; congruence. Qed.

Lemma take_append (a b : string) : Py.take (String.length a) (a ++ b) = a.
Proof. induction a; simpl; [destruct b; reflexivity|congruence]. Qed.

Lemma lstrip_length (p : ascii -> bool) (s : string) :
  (String.length (Py.lstrip_by p s) <= String.length s)%nat.
Proof.
  induction s as [|c s IH]; simpl; [lia|].
  destruct (p c); simpl; lia.
Qed.

Lemma nospace_cons (c : ascii) (s : string) :
  nospace (String c s) = negb (Py.is_space c) && nospace s.
Proof. unfold nospace. simpl. destruct (Py.is_space c); reflexivity. Qed.

Lemma collapse_nospace (s : string) : nospace s = true -> collapse s = s.
Proof.
  induction s as [|c s IH]; [reflexivity|].
  rewrite nospace_cons. intros H. apply andb_true_iff in H.
  destruct H as [Hc Hs]. simpl.
  destruct (Py.is_space c); [discriminate Hc|].
  rewrite (IH Hs). reflexivity.
Qed.

Lemma collapse_append_nospace (a b : string) :
  nospace a = true -> collapse (a ++ b) = a ++ collapse b.
Proof.
  induction a as [|c a IH]; [reflexivity|].
  rewrite nospace_cons. intros H. apply andb_true_iff in H.
  destruct H as [Hc Ha]. simpl.
  destruct (Py.is_space c); [discriminate Hc|].
  rewrite (IH Ha). reflexivity.
Qed.

Lemma starts_blank_nonspace (c : ascii) (s : string) :
  Py.is_space c = false -> starts_blank (String c s) = false.
Proof.
  intros H. simpl. destruct (Ascii.eqb_spec c " ") as [->|]; [|reflexivity].
  discriminate H.
Qed.

(** A run of white space collapses to one blank. *)
Lemma collapse_space (c : ascii) (s : string) :
  Py.is_space c = true ->
  collapse (String c s) = String " " (collapse (Py.lstrip_by Py.is_space s)).
Proof.
  intros Hc. revert c Hc. induction s as [|d s IH]; intros c Hc.
  - simpl. rewrite Hc. reflexivity.
  - change (collapse (String c (String d s)))
      with (if Py.is_space c
            then if starts_blank (collapse (String d s))
                 then collapse (String d s)
                 else String " " (collapse (String d s))
            else String c (collapse (String d s))).
    rewrite Hc. simpl Py.lstrip_by.
    destruct (Py.is_space d) eqn:Hd.
    + rewrite (IH d Hd). simpl. reflexivity.
    + assert (E : collapse (String d s) = String d (collapse s))
        by (simpl; rewrite Hd; reflexivity).
      rewrite E, (starts_blank_nonspace d _ Hd). reflexivity.
Qed.

Section WhiteSpace.

Context {R : Type}.
Variable K : pos -> option R.
Hypothesis K_total : forall q, K q <> None.

(** Once one white-space character is taken, the greedy repetition
    takes the whole run. *)
Lemma m_rep_run (s : string) (prev : option ascii) (cnt : nat) :
  (1 <= cnt)%nat ->
  exists q,
    m_rep CSpace true 1 prev s cnt K
    = K (mkpos q (Py.lstrip_by Py.is_space s)).
Proof.
  revert prev cnt. induction s as [|c s IH]; intros prev cnt Hcnt.
  - exists prev. simpl. destruct cnt; [lia|reflexivity].
  - simpl. destruct (Py.is_space c) eqn:Hc.
    + destruct (IH (Some c) (S cnt)) as [q Hq]; [lia|].
      exists q. rewrite Hq.
      destruct (K (mkpos q (Py.lstrip_by Py.is_space s))) eqn:E;
        [reflexivity|].
      exfalso. exact (K_total _ E).
    + exists prev. destruct cnt; [lia|reflexivity].
Qed.

Lemma m_rep_start (s : string) (prev : option ascii) :
  match s with
  | String c s' =>
      if Py.is_space c then
        exists q,
          m_rep CSpace true 1 prev s 0 K
          = K (mkpos q (Py.lstrip_by Py.is_space s'))
      else m_rep CSpace true 1 prev s 0 K = None
  | EmptyString => m_rep CSpace true 1 prev s 0 K = None
  end.
Proof.
  destruct s as [|c s']; [reflexivity|].
  destruct (Py.is_space c) eqn:Hc.
  - destruct (m_rep_run s' (Some c) 1) as [q Hq]; [lia|].
    exists q. simpl. rewrite Hc, Hq.
    destruct (K (mkpos q (Py.lstrip_by Py.is_space s'))) eqn:E;
      [reflexivity|].
    exfalso. exact (K_total _ E).
  - simpl. rewrite Hc. reflexivity.
Qed.

End WhiteSpace.

(** The leftmost run of white space: [search] finds nothing in a text
    without white space, and otherwise the match starts at the first
    white-space character and ends after the run. *)
Lemma search_ws1 (s : string) (prev : option ascii) :
  match search_from false ws1 prev s with
  | None => nospace s = true
  | Some x =>
      exists a c b,
        s = a ++ String c b /\ nospace a = true /\ Py.is_space c = true
        /\ rest (m_start x) = String c b
        /\ rest (m_end x) = Py.lstrip_by Py.is_space b
  end.
Proof.
  unfold ws1. revert prev. induction s as [|c s IH]; intros prev.
  - reflexivity.
  - cbn [search_from]. unfold match_at. cbn [m before rest].
    assert (Hm := m_rep_start
                    (fun p' => Some (mkres (mkpos prev (String c s)) p' []))
                    (fun q H => eq_ind (Some _) (fun o => match o with
                                                       | Some _ => True
                                                       | None => False
                                                       end) I None H)
                    (String c s) prev).
    cbv beta iota in Hm.
    destruct (Py.is_space c) eqn:Hc; cbv beta iota in Hm.
    + destruct Hm as [q Hq]. rewrite Hq.
      exists "", c, s. repeat split; assumption.
    + rewrite Hm. specialize (IH (Some c)).
      destruct (search_from false _ (Some c) s) as [x|].
      * destruct IH as [a [d [b [-> [Ha [Hd [Hs He]]]]]]].
        exists (String c a), d, b. repeat split; try assumption.
        rewrite nospace_cons, Hc, Ha. reflexivity.
      * rewrite nospace_cons, Hc, IH. reflexivity.
Qed.

(** The scan with the white-space pattern, read as the output of
    [re.sub], is [collapse]. *)
Lemma scan_ws1 (fuel : nat) (s : string) (prev : option ascii)
      (carry : string) :
  (String.length s < fuel)%nat ->
  blanks (scan fuel false ws1 (mkpos prev s) carry) = carry ++ collapse s.
Proof.
  revert s prev carry.
  induction fuel as [|fuel IH]; intros s prev carry Hlen; [lia|].
  cbn [scan before rest].
  pose proof (search_ws1 s prev) as Hs.
  destruct (search_from false ws1 prev s) as [x|].
  - destruct Hs as [a [c [b [-> [Ha [Hc [Hst Hen]]]]]]].
    unfold between. cbn [rest]. rewrite Hst, Hen.
    assert (E : (String.length (a ++ String c b) - String.length (String c b)
                 = String.length a)%nat)
      by (rewrite length_append; lia).
    rewrite E, take_append.
    pose proof (lstrip_length Py.is_space b) as Hle.
    assert (Hlt : (String.length (Py.lstrip_by Py.is_space b)
                   <? String.length (String c b))%nat = true)
      by (apply Nat.ltb_lt; simpl; lia).
    rewrite Hlt.
    destruct (m_end x) as [qb qr] eqn:Eq. cbn [rest] in Hen. subst qr.
    specialize (IH (Py.lstrip_by Py.is_space b) qb "").
    rewrite length_append in Hlen. simpl in Hlen.
    destruct (scan fuel false ws1 (mkpos qb (Py.lstrip_by Py.is_space b)) "")
      as [ms tl] eqn:Es.
    unfold blanks in *. cbn [fst snd fold_right] in *.
    rewrite IH by lia.
    rewrite collapse_append_nospace by exact Ha.
    rewrite (collapse_space c b Hc).
    rewrite !append_assoc. reflexivity.
  - unfold blanks. cbn [fst snd fold_right].
    rewrite (collapse_nospace s Hs). reflexivity.
Qed.

(** The white-space normalisation of the parser, written out. *)
Lemma normalize_collapse (text : string) :
  normalize text = collapse (Py.strip text).
Proof.
  unfold normalize, sub, scan_all.
  pose proof (scan_ws1 (S (String.length (Py.strip text))) (Py.strip text)
                None "" (Nat.lt_succ_diag_r _)) as H.
  destruct (scan _ false ws1 _ _) as [ms tl].
  exact H.
Qed.

(* ----------------------------------------------------------------- *)
(** ** Ranges and lists (C6) *)
















(* ----------------------------------------------------------------- *)
(** ** Write verbs and the list block (C8) *)

Lemma is_space_to_lower (c : ascii) :
  Py.is_space (Py.to_lower c) = Py.is_space c.
Proof. destruct c as [[] [] [] [] [] [] [] []]; reflexivity. Qed.

Lemma rstrip_nonspace (c : ascii) (s : string) :
  Py.is_space c = false ->
  Py.rstrip_by Py.is_space (String c s)
  = String c (Py.rstrip_by Py.is_space s).
Proof.
  intros Hc. simpl. destruct (Py.rstrip_by Py.is_space s); [|reflexivity].
  rewrite Hc. reflexivity.
Qed.

(** A prefix without white space survives [rstrip], [collapse] and
    [lower]. *)
Lemma prefix_kept (v : string) :
  nospace v = true ->
  forall s,
    Py.startswith (Py.lower s) v = true ->
    Py.startswith (Py.lower (collapse (Py.rstrip_by Py.is_space s))) v = true.
Proof.
  induction v as [|a v IH]; intros Hv s H; [reflexivity|].
  rewrite nospace_cons in Hv. apply andb_true_iff in Hv.
  destruct Hv as [Ha Hv].
  destruct s as [|c s]; [discriminate H|].
  simpl in H. apply andb_true_iff in H. destruct H as [Hac H].
  apply Ascii.eqb_eq in Hac. subst a.
  rewrite is_space_to_lower in Ha. apply negb_true_iff in Ha.
  rewrite (rstrip_nonspace c s Ha). simpl. rewrite Ha. simpl.
  rewrite Ascii.eqb_refl. simpl. apply IH; assumption.
Qed.

Lemma normalize_keeps_prefix (v s : string) :
  nospace v = true ->
  Py.startswith (Py.lower s) v = true ->
  Py.startswith (Py.lower (normalize s)) v = true.
Proof.
  intros Hv H. rewrite normalize_collapse. unfold Py.strip, Py.strip_by.
  destruct v as [|a v]; [reflexivity|].
  destruct s as [|c s]; [discriminate H|].
  assert (Hc : Py.is_space c = false).
  { rewrite nospace_cons in Hv. apply andb_true_iff in Hv.
    destruct Hv as [Ha _]. simpl in H. apply andb_true_iff in H.
    destruct H as [Hac _]. apply Ascii.eqb_eq in Hac. subst a.
    rewrite is_space_to_lower in Ha. apply negb_true_iff in Ha. exact Ha. }
  simpl Py.lstrip_by. rewrite Hc. apply prefix_kept; assumption.
Qed.

Lemma first_match_skip (rs1 rs2 : list rule) (r : rule) (raw t : string)
      (w : bool) :
  r raw t w = None ->
  first_match (rs1 ++ r :: rs2) raw t w = first_match (rs1 ++ rs2) raw t w.
Proof.
  intros Hr. induction rs1 as [|r1 rs1 IH]; simpl.
  - rewrite Hr. reflexivity.
  - destruct (r1 raw t w); [reflexivity|exact IH].
Qed.

(** C8.  A message whose lower-cased text starts with a write verb
    still starts with it after white-space normalisation; for such a
    message the list block does not return, whatever list keyword the
    text holds, and the parser answers as the cascade without the list
    block does.  [add a todo] parses to an [add] action, and so does
    [Add a todo list item], which holds the list keyword
    [todo list]. *)
Theorem write_verb_blocks_list (text : string) :
  let raw := normalize text in
  let t := Py.lower raw in
  let w := wants_show t in
  (Py.startswith_any (Py.lower text) write_verbs = true ->
   Py.startswith_any t write_verbs = true)
  /\ (Py.startswith_any t write_verbs = true ->
      rule_list t = None
      /\ parse_intent_fast text = first_match rules_without_list raw t w)
  /\ parse_intent_fast "add a todo"
     = [("add", [("title", VStr "a todo"); ("description", VNone)])]
  /\ Py.contains_any list_keywords (Py.lower "Add a todo list item") = true
  /\ parse_intent_fast "Add a todo list item"
     = [("add", [("title", VStr "a todo list item"); ("description", VNone)])].
Proof.
  intros raw t w.
  assert (Hlist : Py.startswith_any t write_verbs = true -> rule_list t = None).
  { intros H. unfold rule_list. rewrite H, andb_false_r. reflexivity. }
  split; [|split; [|repeat split; vm_compute; reflexivity]].
  - unfold Py.startswith_any. intros H.
    apply existsb_exists in H. destruct H as [v [Hin Hv]].
    apply existsb_exists. exists v. split; [exact Hin|].
    apply normalize_keeps_prefix; [|exact Hv].
    assert (Hall : forallb nospace write_verbs = true) by reflexivity.
    rewrite forallb_forall in Hall. apply Hall. exact Hin.
  - intros H. split; [exact (Hlist H)|].
    unfold parse_intent_fast. fold raw t w.
    change rules
      with (firstn 12 rules ++ (fun _ t _ => rule_list t) :: skipn 13 rules)%list.
    apply first_match_skip. exact (Hlist H).
Qed.

(** C8 at [Add a todo list item]. *)
Lemma write_verb_blocks_list_witness :
  rule_list (Py.lower (normalize "Add a todo list item")) = None.
Proof.
  apply (proj1 (proj2 (write_verb_blocks_list "Add a todo list item"))).
  apply (proj1 (write_verb_blocks_list "Add a todo list item")).
  vm_compute. reflexivity.
Defined.

(* ----------------------------------------------------------------- *)
(** ** The fallback (C3, C1) *)

Lemma sole_unknown_iff (actions : list Parsed) :
  sole_unknown actions = true <-> exists p, actions = [("unknown", p)].
Proof.
  split.
  - destruct actions as [|[a p] [|b l]]; try discriminate.
    simpl. intros H. apply String.eqb_eq in H. subst a. exists p. reflexivity.
  - intros [p ->]. reflexivity.
Qed.

(** The parser answers unknown only with the empty payload. *)
Lemma parse_unknown_payload (text : string) (p : payload) :
  parse_intent_fast text = [("unknown", p)] -> p = [].
Proof.
  unfold parse_intent_fast.
  destruct (first_match_cases rules (normalize text)
              (Py.lower (normalize text))
              (wants_show (Py.lower (normalize text))))
    as [[r [acts [Hin [Hr Hf]]]]|[_ Hf]]; rewrite Hf; intros H.
  - exfalso.
    apply (proj2 (rules_result_not_unknown _ _ _ _ _ Hin Hr)).
    rewrite H. simpl. auto.
  - injection H as <-. reflexivity.
Qed.

Lemma fallback_cases (env : Env) (settings : Settings) (message : string) :
  match gemini_to_action env settings message with
  | Raise _ => fallback env settings message = [("unknown", [])]
  | Ok ai =>
      match normalize_ai ai with
      | Raise _ => fallback env settings message = [("unknown", [])]
      | Ok actions => fallback env settings message = actions
      end
  end.
Proof.
  unfold fallback, bind.
  destruct (gemini_to_action env settings message) as [ai|e]; [|reflexivity].
  destruct (normalize_ai ai); reflexivity.
Qed.

Lemma strip_help_text : String.eqb (Py.strip help_text) "" = false.
Proof. vm_compute. reflexivity. Qed.

Lemma help_text_cons : exists c s, help_text = String c s.
Proof. vm_compute. eexists. eexists. reflexivity. Qed.

(** The last statement of [send_message]: when the statements before
    it finish, building the response raises. *)
Lemma send_message_return (env : Env) (settings : Settings)
      (session session' : Session) (user_id : Z) (message reply : string) :
  store_reply env settings session user_id message = Ok (session', reply) ->
  send_message env settings session user_id message
  = Raise (PyError "ValidationError").
Proof. intros H. unfold send_message. rewrite H. reflexivity. Qed.

Lemma send_message_raise (env : Env) (settings : Settings)
      (session : Session) (user_id : Z) (message : string) (e : exn) :
  store_reply env settings session user_id message = Raise e ->
  send_message env settings session user_id message = Raise e.
Proof. intros H. unfold send_message. rewrite H. reflexivity. Qed.

(** The reply to a message classified as unknown is the help text. *)
Lemma store_reply_unknown (env : Env) (settings : Settings)
      (session : Session) (user_id : Z) (message : string) :
  classify env settings message = [("unknown", [])] ->
  store_reply env settings session user_id message
  = Ok (session_log (session_log session user_id "user" message) user_id
                    "assistant" help_text,
        help_text).
Proof.
  intros H. unfold store_reply. rewrite H.
  cbn [apply_actions apply_action bind].
  change (String.eqb "unknown" "add") with false.
  cbv beta iota.
  cbn [String.eqb Ascii.eqb Bool.eqb say nonblank_replies bind app].
  rewrite strip_help_text. cbn [Py.join].
  destruct help_text_cons as [c [s ->]]. reflexivity.
Qed.

(** C3, what the code does.  The fallback runs exactly when the fast
    parser returned the single action [unknown]: then the answer of
    [classify] is the fallback's, otherwise it is the parser's
    whatever the service does.  When the service call raises, when the
    answer is not JSON, when it is JSON but not an object, or when
    normalising it raises, the fallback gives the single action
    [unknown]; when the answer is JSON that [normalize_ai] accepts,
    the fallback gives the actions of the answer.  After a fallback
    that gave [unknown] the help text is stored as the reply, and
    [send_message] raises at its last statement.  But the [try] ends
    before the loop: an answer [search] whose query is neither a
    string nor falsy is accepted by [normalize_ai], and the loop
    raises [AttributeError] on it out of [send_message]. *)
Theorem fallback_only_on_unknown (env : Env) (settings : Settings)
        (message : string) :
  (sole_unknown (parse_intent_fast message) = true
   <-> parse_intent_fast message = [("unknown", [])])
  /\ (parse_intent_fast message = [("unknown", [])] ->
      classify env settings message = fallback env settings message)
  /\ (parse_intent_fast message <> [("unknown", [])] ->
      classify env settings message = parse_intent_fast message)
  /\ (forall e,
         generate_content env (gemini_api_key settings) (model_name settings)
                          (prompt message) = Raise e ->
         fallback env settings message = [("unknown", [])])
  /\ (forall text,
         generate_content env (gemini_api_key settings) (model_name settings)
                          (prompt message) = Ok text ->
         json_loads env (clean_response text) = None ->
         fallback env settings message = [("unknown", [])])
  /\ (forall text ai,
         generate_content env (gemini_api_key settings) (model_name settings)
                          (prompt message) = Ok text ->
         json_loads env (clean_response text) = Some ai ->
         (forall d, ai <> VDict d) ->
         fallback env settings message = [("unknown", [])])
  /\ (forall ai e,
         gemini_to_action env settings message = Ok ai ->
         normalize_ai ai = Raise e ->
         fallback env settings message = [("unknown", [])])
  /\ (forall text ai actions,
         gemini_api_key settings <> "" ->
         generate_content env (gemini_api_key settings) (model_name settings)
                          (prompt message) = Ok text ->
         json_loads env (clean_response text) = Some ai ->
         normalize_ai ai = Ok actions ->
         fallback env settings message = actions)
  /\ (forall session user_id,
         parse_intent_fast message = [("unknown", [])] ->
         fallback env settings message = [("unknown", [])] ->
         store_reply env settings session user_id message
         = Ok (session_log (session_log session user_id "user" message)
                           user_id "assistant" help_text,
               help_text)
         /\ send_message env settings session user_id message
            = Raise (PyError "ValidationError"))
  /\ (forall session user_id d,
         parse_intent_fast message = [("unknown", [])] ->
         gemini_to_action env settings message = Ok (VDict d) ->
         get "action" d = VStr "search" ->
         truthy (get "query" d) = true ->
         is_str_value (get "query" d) = false ->
         send_message env settings session user_id message
         = Raise (PyError "AttributeError")).
Proof.
  assert (Hiff : sole_unknown (parse_intent_fast message) = true
                 <-> parse_intent_fast message = [("unknown", [])]).
  { rewrite sole_unknown_iff. split.
    - intros [p Hp]. rewrite Hp. f_equal. f_equal.
      exact (parse_unknown_payload _ _ Hp).
    - intros H. exists []. exact H. }
  split; [exact Hiff|].
  split; [intros H; unfold classify; rewrite H; reflexivity|].
  split.
  { intros H. unfold classify.
    destruct (sole_unknown (parse_intent_fast message)) eqn:E; [|reflexivity].
    exfalso. apply H. apply Hiff. reflexivity. }
  pose proof (fallback_cases env settings message) as Hc.
  assert (Hlate :
    (forall session user_id,
        parse_intent_fast message = [("unknown", [])] ->
        fallback env settings message = [("unknown", [])] ->
        store_reply env settings session user_id message
        = Ok (session_log (session_log session user_id "user" message)
                          user_id "assistant" help_text,
              help_text)
        /\ send_message env settings session user_id message
           = Raise (PyError "ValidationError"))
    /\ (forall session user_id d,
           parse_intent_fast message = [("unknown", [])] ->
           gemini_to_action env settings message = Ok (VDict d) ->
           get "action" d = VStr "search" ->
           truthy (get "query" d) = true ->
           is_str_value (get "query" d) = false ->
           send_message env settings session user_id message
           = Raise (PyError "AttributeError"))).
  { split.
    - intros session user_id Hp Hf.
      assert (Hs : store_reply env settings session user_id message
                   = Ok (session_log
                           (session_log session user_id "user" message)
                           user_id "assistant" help_text,
                         help_text)).
      { apply store_reply_unknown. unfold classify. rewrite Hp. exact Hf. }
      split; [exact Hs|exact (send_message_return _ _ _ _ _ _ _ Hs)].
    - intros session user_id d Hp Hg Ha Ht Hs.
      apply send_message_raise.
      assert (Hcl : classify env settings message
                    = [("search", [("query", get "query" d)])]).
      { unfold classify. cbv zeta. rewrite Hp.
        cbn [sole_unknown String.eqb Ascii.eqb Bool.eqb].
        unfold fallback. rewrite Hg. cbn [bind].
        unfold normalize_ai, as_dict, or_else. cbn [bind].
        rewrite Ha, Ht.
        cbn [truthy String.eqb Ascii.eqb Bool.eqb negb Py.lower
             Py.to_lower bind].
        reflexivity. }
      unfold store_reply. cbv zeta. rewrite Hcl.
      cbn [apply_actions]. unfold apply_action.
      cbn [String.eqb Ascii.eqb Bool.eqb].
      unfold action_search, stripped, or_else.
      cbn [get String.eqb Ascii.eqb Bool.eqb]. rewrite Ht.
      destruct (get "query" d); try discriminate Hs; reflexivity. }
  unfold gemini_to_action in Hc.
  destruct (String.eqb_spec (gemini_api_key settings) "") as [Ekey|Ekey].
  - split; [intros; exact Hc|]. split; [intros; exact Hc|].
    split; [intros; exact Hc|]. split; [intros; exact Hc|].
    split; [intros; contradiction|]. exact Hlate.
  - split; [intros e He; rewrite He in Hc; exact Hc|].
    split.
    { intros text He Hj. rewrite He in Hc. simpl in Hc. rewrite Hj in Hc.
      exact Hc. }
    split.
    { intros text ai He Hj Hnd. rewrite He in Hc. simpl in Hc.
      rewrite Hj in Hc.
      destruct ai; try exact Hc. exfalso. exact (Hnd d eq_refl). }
    split.
    { intros ai e Hg Hn. unfold gemini_to_action in Hg.
      destruct (String.eqb_spec (gemini_api_key settings) "");
        [contradiction|].
      rewrite Hg in Hc. rewrite Hn in Hc. exact Hc. }
    split; [|exact Hlate].
    intros text ai actions _ He Hj Hn. rewrite He in Hc. simpl in Hc.
    rewrite Hj, Hn in Hc. exact Hc.
Qed.

(** C3 at a message no block knows: with the service down the
    fallback gives [unknown]; an answer the code knows is used; an
    answer [search] with the query 5 makes [send_message] raise. *)
Lemma fallback_only_on_unknown_witness :
  classify env_down settings_with_key "hello there" = [("unknown", [])]
  /\ fallback (env_answer (VDict [("action", VStr "delete_all")]))
              settings_with_key "hello there"
     = [("delete_all", [])]
  /\ send_message (env_answer (VDict [("action", VStr "search");
                                      ("query", VInt 5)]))
                  settings_with_key session3 1 "hello there"
     = Raise (PyError "AttributeError").
Proof.
  split; [|split].
  - pose proof (fallback_only_on_unknown env_down settings_with_key
                  "hello there") as [_ [Hfb [_ [Hdown _]]]].
    rewrite Hfb by (vm_compute; reflexivity).
    apply (Hdown (PyError "ConnectionError")). reflexivity.
  - pose proof (fallback_only_on_unknown
                  (env_answer (VDict [("action", VStr "delete_all")]))
                  settings_with_key "hello there")
      as [_ [_ [_ [_ [_ [_ [_ [Huse _]]]]]]]].
    apply (Huse (Some "{}") (VDict [("action", VStr "delete_all")]));
      [discriminate|reflexivity|reflexivity|reflexivity].
  - pose proof (fallback_only_on_unknown
                  (env_answer (VDict [("action", VStr "search");
                                      ("query", VInt 5)]))
                  settings_with_key "hello there")
      as [_ [_ [_ [_ [_ [_ [_ [_ [_ Hbad]]]]]]]]].
    apply (Hbad session3 1 [("action", VStr "search"); ("query", VInt 5)]);
      vm_compute; reflexivity.
Defined.

(** C1, what the code does.  Without an API key [gemini_to_action]
    raises the HTTP error 500, but the [except Exception] of
    [send_message] catches it: the fallback yields the single action
    [unknown], and for a message the fast parser does not know the
    help text is stored as the reply of the assistant.  The error of
    the missing key never reaches the caller: what [send_message]
    raises is the [ValidationError] of its last statement, as for any
    message whose reply is stored. *)
Theorem missing_key_swallowed (env : Env) (settings : Settings)
        (session : Session) (user_id : Z) (message : string) :
  gemini_api_key settings = "" ->
  parse_intent_fast message = [("unknown", [])] ->
  gemini_to_action env settings message
  = Raise (HTTPException 500 "Gemini API key is missing (check settings/.env).")
  /\ fallback env settings message = [("unknown", [])]
  /\ store_reply env settings session user_id message
     = Ok (session_log (session_log session user_id "user" message) user_id
                       "assistant" help_text,
           help_text)
  /\ send_message env settings session user_id message
     = Raise (PyError "ValidationError").
Proof.
  intros Hkey Hparse.
  assert (Hg : gemini_to_action env settings message
               = Raise (HTTPException 500
                          "Gemini API key is missing (check settings/.env).")).
  { unfold gemini_to_action. rewrite Hkey. reflexivity. }
  assert (Hf : fallback env settings message = [("unknown", [])]).
  { unfold fallback. rewrite Hg. reflexivity. }
  assert (Hs : store_reply env settings session user_id message
               = Ok (session_log
                       (session_log session user_id "user" message) user_id
                       "assistant" help_text,
                     help_text)).
  { apply store_reply_unknown. unfold classify. rewrite Hparse. exact Hf. }
  split; [exact Hg|]. split; [exact Hf|]. split; [exact Hs|].
  exact (send_message_return _ _ _ _ _ _ _ Hs).
Qed.

(** C1 at a deployment without a key and the message [hello there]. *)
Lemma missing_key_swallowed_witness :
  store_reply env_down settings_no_key session3 1 "hello there"
  = Ok (session_log (session_log session3 1 "user" "hello there") 1
                    "assistant" help_text,
        help_text)
  /\ send_message env_down settings_no_key session3 1 "hello there"
     = Raise (PyError "ValidationError").
Proof.
  apply (missing_key_swallowed env_down settings_no_key session3 1
           "hello there").
  - reflexivity.
  - vm_compute. reflexivity.
Defined.

(* ----------------------------------------------------------------- *)
(** ** An add without a title (C4) *)

(** C4, the claim as stated fails: the bare message [add] parses to
    an [add] action with an empty title, not to a [clarify] action. *)
Lemma add_without_title_not_clarify :
  parse_intent_fast "add"
  = [("add", [("title", VStr ""); ("description", VNone)])]
  /\ ~ In "clarify" (kinds (parse_intent_fast "add")).
Proof.
  split; [vm_compute; reflexivity|].
  vm_compute. intros [H|[]]. discriminate H.
Qed.

Lemma or_empty_falsy (o : option string) :
  falsy_str o = true -> or_empty o = "".
Proof.
  destruct o as [s|]; simpl; [|reflexivity].
  intros H. apply String.eqb_eq in H. exact H.
Qed.

Lemma add_items_blank (user_id : Z) (items : list string) :
  Forall (fun it => Py.strip it = "") items ->
  forall s nums, add_items user_id s (map VStr items) nums = Ok (s, nums).
Proof.
  induction 1 as [|it items Hit _ IH]; intros s nums; [reflexivity|].
  cbn [map add_items py_str bind]. rewrite Hit. apply IH.
Qed.

(** C4, amended.  Take a message that reaches the add block (no
    earlier block returns, the add block does): the parse is what the
    add block returns.  When no title can be extracted from it, the
    parse holds no [clarify] action: for a message without an item
    list it is an [add] action with an empty title, for a message
    with an item list whose items are all blank it is an [add_many]
    action with these items, followed in both cases by a [list]
    action when the message chains one.  The action loop answers the
    first with a request for a title and the second with the reply
    that no valid title was found, and leaves the session as it is.
    So the reply stored for the message [add] is the request for a
    title. *)
Theorem add_without_title_asks (env : Env) (settings : Settings)
        (session : Session) (user_id : Z) :
  (forall text acts,
      let raw := normalize text in
      let t := Py.lower raw in
      let w := wants_show t in
      Forall (fun r : rule => r raw t w = None) rules_before_add ->
      rule_add raw t w = Some acts ->
      parse_intent_fast text = acts
      /\ (_split_multi_items raw = [] ->
          falsy_str (add_title raw t) = true ->
          acts = with_show w
                   [("add",
                     [("title", VStr "");
                      ("description",
                       opt_str (stripped_group 1
                                  (search_i re_add_desc raw)))])]
          /\ ~ In "clarify" (kinds acts)
          /\ exists replies,
               apply_actions env user_id session acts
               = Ok (session, VStr ask_title :: replies))
      /\ (forall items,
             _split_multi_items raw = items -> items <> [] ->
             Forall (fun it => Py.strip it = "") items ->
             acts = with_show w [("add_many", [("items", strs items)])]
             /\ ~ In "clarify" (kinds acts)
             /\ exists replies,
                  apply_actions env user_id session acts
                  = Ok (session, VStr no_valid_titles :: replies)))
  /\ (forall payload,
         stripped (get "title" payload) = Ok "" ->
         apply_action env user_id session ("add", payload)
         = Ok (session, [VStr ask_title]))
  /\ store_reply env settings session user_id "add"
     = Ok (session_log (session_log session user_id "user" "add") user_id
                       "assistant" ask_title,
           ask_title).
Proof.
  assert (Hact : forall s payload,
             stripped (get "title" payload) = Ok "" ->
             apply_action env user_id s ("add", payload)
             = Ok (s, [VStr ask_title])).
  { intros s payload H. unfold apply_action.
    change (String.eqb "add" "add") with true. cbv iota.
    unfold action_add. rewrite H. reflexivity. }
  assert (Hshow : forall (w : bool) a r,
             apply_action env user_id session a = Ok (session, [r]) ->
             exists replies,
               apply_actions env user_id session (with_show w [a])
               = Ok (session, r :: replies)).
  { intros w a r Ha. destruct w; cbn [with_show app apply_actions].
    - rewrite Ha. cbn [bind].
      change (apply_action env user_id session show_all)
        with (Ok (session,
                  [VStr (format_todos_for_user session user_id
                           (_get_user_todos session user_id))])).
      cbn [bind app]. eexists. reflexivity.
    - rewrite Ha. cbn [bind app]. eexists. reflexivity. }
  split; [|split].
  - intros text acts raw t w Hnone H. split; [|split].
    + unfold parse_intent_fast. fold raw t w.
      rewrite <- (firstn_skipn 13 rules).
      rewrite (first_match_app_none _ _ raw t w Hnone).
      cbv [rules skipn]. cbn [first_match]. rewrite H. reflexivity.
    + intros Hmulti Hfalsy. unfold rule_add in H. rewrite Hmulti in H.
      destruct (_ || _); [|discriminate H].
      injection H as <-. rewrite (or_empty_falsy _ Hfalsy).
      split; [reflexivity|]. split.
      * destruct (wants_show t); simpl;
          intros Hk; repeat (destruct Hk as [Hk|Hk]; [discriminate Hk|]);
          exact Hk.
      * apply Hshow. apply Hact. reflexivity.
    + intros items Hmulti Hne Hblank. unfold rule_add in H.
      rewrite Hmulti in H.
      destruct (_ || _); [|discriminate H].
      destruct items as [|it items']; [contradiction Hne; reflexivity|].
      injection H as <-. split; [reflexivity|]. split.
      * destruct (wants_show t); simpl;
          intros Hk; repeat (destruct Hk as [Hk|Hk]; [discriminate Hk|]);
          exact Hk.
      * apply Hshow. unfold apply_action.
        cbn [String.eqb Ascii.eqb Bool.eqb].
        unfold action_add_many, or_else, strs.
        cbn [get String.eqb Ascii.eqb Bool.eqb map truthy].
        change (VStr it :: map VStr items') with (map VStr (it :: items')).
        rewrite (add_items_blank user_id (it :: items') Hblank).
        reflexivity.
  - intros payload. apply Hact.
  - assert (Hp : classify env settings "add"
                 = [("add", [("title", VStr ""); ("description", VNone)])]).
    { unfold classify.
      replace (parse_intent_fast "add")
        with [("add", [("title", VStr ""); ("description", VNone)])]
        by (vm_compute; reflexivity).
      reflexivity. }
    unfold store_reply. rewrite Hp. cbn [apply_actions bind].
    rewrite Hact by reflexivity. reflexivity.
Qed.

(** C4, amended, at the messages [add] and [add: '] and the session
    [session3]: no todo is created. *)
Lemma add_without_title_asks_witness :
  (parse_intent_fast "add"
   = [("add", [("title", VStr ""); ("description", VNone)])]
   /\ exists replies,
        apply_actions env_down 1 session3
          [("add", [("title", VStr ""); ("description", VNone)])]
        = Ok (session3, VStr ask_title :: replies))
  /\ (parse_intent_fast "add: '" = [("add_many", [("items", strs [""])])]
      /\ exists replies,
           apply_actions env_down 1 session3
             [("add_many", [("items", strs [""])])]
           = Ok (session3, VStr no_valid_titles :: replies)).
Proof.
  pose proof (proj1 (add_without_title_asks env_down settings_no_key
                       session3 1)) as H.
  split.
  - destruct (H "add" [("add", [("title", VStr ""); ("description", VNone)])])
      as [Hp [Ha _]].
    + cbv [rules_before_add rules firstn].
      repeat constructor; vm_compute; reflexivity.
    + vm_compute. reflexivity.
    + split; [exact Hp|].
      destruct Ha as [_ [_ Hr]]; [vm_compute; reflexivity ..|].
      exact Hr.
  - destruct (H "add: '" [("add_many", [("items", strs [""])])])
      as [Hp [_ Hb]].
    + cbv [rules_before_add rules firstn].
      repeat constructor; vm_compute; reflexivity.
    + vm_compute. reflexivity.
    + split; [exact Hp|].
      destruct (Hb [""]) as [_ [_ Hr]].
      * vm_compute. reflexivity.
      * discriminate.
      * repeat constructor.
      * exact Hr.
Defined.

(* ----------------------------------------------------------------- *)
(** ** Sorting by id *)

Local Open Scope Z_scope.

Lemma insert_by_perm key d (x : Todo.t) (l : list Todo.t) :
  Permutation (insert_by key d x l) (x :: l).
Proof.
  induction l as [|y l IH]; simpl; [reflexivity|].
  destruct (if d then _ else _); [reflexivity|].
  rewrite IH. apply perm_swap.
Qed.

Lemma order_by_perm key d (l : list Todo.t) :
  Permutation (order_by key d l) l.
Proof.
  induction l as [|x l IH]; simpl; [reflexivity|].
  rewrite insert_by_perm. constructor. exact IH.
Qed.

Lemma insert_by_sorted (x : Todo.t) (l : list Todo.t) :
  StronglySorted id_le l -> StronglySorted id_le (insert_by Todo.id false x l).
Proof.
  induction 1 as [|y l Hs IH Hall]; simpl.
  - repeat constructor.
  - destruct (Z.leb_spec (Todo.id x) (Todo.id y)) as [Hle|Hgt].
    + constructor; [constructor; assumption|].
      constructor; [exact Hle|].
      eapply Forall_impl; [|exact Hall]. unfold id_le. intros; lia.
    + constructor; [exact IH|].
      apply Forall_forall. intros z Hz.
      apply (Permutation_in _ (insert_by_perm Todo.id false x l)) in Hz.
      destruct Hz as [<-|Hz]; [unfold id_le; lia|].
      rewrite Forall_forall in Hall. auto.
Qed.

Lemma order_by_sorted (l : list Todo.t) :
  StronglySorted id_le (order_by Todo.id false l).
Proof.
  induction l; simpl; [constructor|apply insert_by_sorted; assumption].
Qed.

(** Inserting below every element puts the row in front. *)
Lemma insert_by_front (x : Todo.t) (l : list Todo.t) :
  Forall (id_le x) l -> insert_by Todo.id false x l = x :: l.
Proof.
  destruct 1 as [|y l Hy _]; simpl; [reflexivity|].
  destruct (Z.leb_spec (Todo.id x) (Todo.id y)); [reflexivity|].
  unfold id_le in Hy. lia.
Qed.

Lemma Forall_filter (A : Type) (P : A -> Prop) (f : A -> bool) (l : list A) :
  Forall P l -> Forall P (filter f l).
Proof.
  induction 1; simpl; [constructor|].
  destruct (f x); [constructor|]; assumption.
Qed.

Lemma filter_insert_by (p : Todo.t -> bool) (x : Todo.t) (l : list Todo.t) :
  StronglySorted id_le l ->
  filter p (insert_by Todo.id false x l)
  = if p x then insert_by Todo.id false x (filter p l) else filter p l.
Proof.
  induction 1 as [|y l Hs IH Hall]; simpl.
  - destruct (p x); reflexivity.
  - destruct (Z.leb_spec (Todo.id x) (Todo.id y)) as [Hle|Hgt]; simpl.
    + destruct (p x) eqn:Hx; [|reflexivity].
      destruct (p y) eqn:Hy; simpl.
      * destruct (Z.leb_spec (Todo.id x) (Todo.id y)); [reflexivity|lia].
      * symmetry. apply insert_by_front. apply Forall_filter.
        eapply Forall_impl; [|exact Hall]. unfold id_le. intros; lia.
    + rewrite IH. destruct (p y) eqn:Hy, (p x) eqn:Hx; simpl;
        try reflexivity.
      destruct (Z.leb_spec (Todo.id x) (Todo.id y)); [lia|reflexivity].
Qed.

(** Sorting and filtering commute. *)
Lemma filter_order_by (p : Todo.t -> bool) (l : list Todo.t) :
  filter p (order_by Todo.id false l) = order_by Todo.id false (filter p l).
Proof.
  induction l as [|x l IH]; simpl; [reflexivity|].
  rewrite filter_insert_by by apply order_by_sorted.
  rewrite IH. destruct (p x); reflexivity.
Qed.

Lemma filter_comm (A : Type) (f g : A -> bool) (l : list A) :
  filter f (filter g l) = filter g (filter f l).
Proof.
  induction l as [|x l IH]; simpl; [reflexivity|].
  destruct (f x) eqn:Hf, (g x) eqn:Hg; simpl; rewrite ?Hf, ?Hg, IH;
    reflexivity.
Qed.

Lemma NoDup_map_filter (f : Todo.t -> bool) (l : list Todo.t) :
  NoDup (map Todo.id l) -> NoDup (map Todo.id (filter f l)).
Proof.
  induction l as [|x l IH]; simpl; intros H; [constructor|].
  inversion H as [|? ? Hnot Hnd]; subst.
  destruct (f x); simpl; [|auto].
  constructor; [|auto].
  intros Hin. apply Hnot. apply in_map_iff in Hin.
  destruct Hin as [y [Hy Hin]]. apply filter_In in Hin.
  apply in_map_iff. exists y. tauto.
Qed.

Lemma sorted_strict (l : list Todo.t) :
  StronglySorted id_le l -> NoDup (map Todo.id l) -> StronglySorted id_lt l.
Proof.
  induction 1 as [|x l Hs IH Hall]; simpl; intros Hnd; [constructor|].
  inversion Hnd as [|? ? Hnot Hnd']; subst.
  constructor; [auto|].
  apply Forall_forall. intros y Hy.
  rewrite Forall_forall in Hall. specialize (Hall y Hy).
  unfold id_le in Hall. unfold id_lt.
  assert (Todo.id x <> Todo.id y).
  { intros E. apply Hnot. rewrite E. apply in_map. exact Hy. }
  lia.
Qed.

(** The todos of a user, oldest first. *)
Lemma user_todos_In (session : Session) (user_id : Z) (t : Todo.t) :
  In t (_get_user_todos session user_id)
  <-> In t (todos session) /\ owned_by user_id t = true.
Proof.
  unfold _get_user_todos. rewrite <- filter_In. split.
  - apply Permutation_in. apply order_by_perm.
  - apply Permutation_in. symmetry. apply order_by_perm.
Qed.

Lemma user_todos_NoDup (session : Session) (user_id : Z) :
  NoDup (map Todo.id (todos session)) ->
  NoDup (map Todo.id (_get_user_todos session user_id)).
Proof.
  intros H. unfold _get_user_todos.
  eapply Permutation_NoDup.
  - apply Permutation_map. symmetry. apply order_by_perm.
  - apply NoDup_map_filter. exact H.
Qed.

Lemma user_todos_sorted (session : Session) (user_id : Z) :
  NoDup (map Todo.id (todos session)) ->
  StronglySorted id_lt (_get_user_todos session user_id).
Proof.
  intros H. apply sorted_strict.
  - apply order_by_sorted.
  - apply user_todos_NoDup. exact H.
Qed.

(* ----------------------------------------------------------------- *)
(** ** Positions in the sorted list *)

Lemma filter_none (A : Type) (f : A -> bool) (l : list A) :
  Forall (fun x => f x = false) l -> filter f l = [].
Proof.
  induction 1 as [|x l Hx _ IH]; simpl; [reflexivity|].
  rewrite Hx. exact IH.
Qed.

Lemma filter_all (A : Type) (f : A -> bool) (l : list A) :
  Forall (fun x => f x = true) l -> filter f l = l.
Proof.
  induction 1 as [|x l Hx _ IH]; simpl; [reflexivity|].
  rewrite Hx, IH. reflexivity.
Qed.

Lemma filter_andb (A : Type) (f g : A -> bool) (l : list A) :
  filter (fun x => f x && g x) l = filter g (filter f l).
Proof.
  induction l as [|x l IH]; simpl; [reflexivity|].
  destruct (f x); simpl; [|exact IH].
  destruct (g x); rewrite IH; reflexivity.
Qed.

Lemma filter_length_perm (A : Type) (f : A -> bool) (l l' : list A) :
  Permutation l l' -> List.length (filter f l) = List.length (filter f l').
Proof.
  induction 1 as [|x l l' _ IH|x y l|l l' l'' _ IH1 _ IH2]; simpl.
  - reflexivity.
  - destruct (f x); simpl; congruence.
  - destruct (f x), (f y); reflexivity.
  - congruence.
Qed.

(** In a list sorted by strictly ascending id, the row at index [i]
    has exactly [i] rows with a smaller id. *)
Lemma sorted_index_count (l : list Todo.t) (i : nat) (t : Todo.t) :
  StronglySorted id_lt l -> nth_error l i = Some t ->
  List.length (filter (fun r => Todo.id r <? Todo.id t) l) = i.
Proof.
  intros Hs. revert i. induction Hs as [|x l Hs IH Hall]; intros i Hi.
  - destruct i; discriminate Hi.
  - destruct i as [|i]; simpl in Hi.
    + injection Hi as ->. simpl. rewrite Z.ltb_irrefl.
      rewrite filter_none; [reflexivity|].
      eapply Forall_impl; [|exact Hall]. unfold id_lt. intros r Hr.
      apply Z.ltb_ge. lia.
    + simpl.
      assert (Hx : (Todo.id x <? Todo.id t) = true).
      { apply Z.ltb_lt. rewrite Forall_forall in Hall.
        apply (Hall t). eapply nth_error_In. exact Hi. }
      rewrite Hx. simpl. f_equal. apply IH. exact Hi.
Qed.

Lemma older_count (session : Session) (user_id db_id : Z) :
  older session user_id db_id
  = len (filter (fun r => Todo.id r <? db_id)
                (_get_user_todos session user_id)).
Proof.
  unfold older, len, _get_user_todos. f_equal.
  rewrite (filter_andb _ (owned_by user_id)).
  apply filter_length_perm. symmetry. apply order_by_perm.
Qed.

(** The resolver of one local number reads the sorted list at index
    [local_no - 1]. *)
Lemma resolve_local_item (session : Session) (user_id n : Z) :
  _resolve_local_to_db_id session user_id (Some n)
  = if 1 <=? n
    then option_map Todo.id (item (_get_user_todos session user_id) (n - 1))
    else None.
Proof.
  unfold _resolve_local_to_db_id, item, len.
  set (U := _get_user_todos session user_id).
  destruct (Z.eqb_spec n 0) as [->|Hn0]; [reflexivity|].
  destruct (Z.leb_spec n 0), (Z.leb_spec 1 n); try lia; simpl;
    [reflexivity|].
  destruct (Z.ltb_spec (Z.of_nat (List.length U)) n); [|reflexivity].
  assert (E : nth_error U (Z.to_nat (n - 1)) = None)
    by (apply nth_error_None; lia).
  rewrite E. reflexivity.
Qed.

Lemma resolve_many_one (session : Session) (user_id k : Z) (t : Todo.t) :
  1 <= k ->
  item (_get_user_todos session user_id) (k - 1) = Some t ->
  _resolve_many_local_to_db_ids session user_id [k] = [Todo.id t].
Proof.
  intros Hk Hi. unfold _resolve_many_local_to_db_ids. simpl.
  assert (Hlen : k <= len (_get_user_todos session user_id)).
  { unfold item in Hi.
    assert (Hlt : (Z.to_nat (k - 1)
                   < List.length (_get_user_todos session user_id))%nat)
      by (apply nth_error_Some; rewrite Hi; discriminate).
    unfold len. lia. }
  destruct (Z.leb_spec 1 k); [|lia].
  destruct (Z.leb_spec k (len (_get_user_todos session user_id))); [|lia].
  simpl. rewrite Hi. reflexivity.
Qed.

(** Deleting the row at index [i] of a list with distinct ids. *)
Lemma filter_remove_index (l : list Todo.t) (i : nat) (t : Todo.t) :
  NoDup (map Todo.id l) -> nth_error l i = Some t ->
  filter (fun r => negb (Todo.id r =? Todo.id t)) l
  = (firstn i l ++ skipn (S i) l)%list.
Proof.
  revert i. induction l as [|x l IH]; intros i Hnd Hi.
  - destruct i; discriminate Hi.
  - inversion Hnd as [|? ? Hnot Hnd']; subst.
    destruct i as [|i]; simpl in Hi.
    + injection Hi as ->. simpl. rewrite Z.eqb_refl. simpl.
      apply filter_all. apply Forall_forall. intros r Hr.
      apply negb_true_iff. apply Z.eqb_neq. intros E.
      apply Hnot. rewrite <- E. apply in_map. exact Hr.
    + simpl.
      assert (Hx : (Todo.id x =? Todo.id t) = false).
      { apply Z.eqb_neq. intros E. apply Hnot. rewrite E.
        apply in_map. eapply nth_error_In. exact Hi. }
      rewrite Hx. simpl. f_equal. apply IH; assumption.
Qed.

Lemma nth_error_remove_index (A : Type) (l : list A) (i : nat) :
  nth_error (firstn i l ++ skipn (S i) l) i = nth_error l (S i).
Proof.
  revert i. induction l as [|x l IH]; intros i.
  - destruct i; reflexivity.
  - destruct i as [|i]; [reflexivity|]. simpl. apply IH.
Qed.

Lemma find_by_id (l : list Todo.t) (t : Todo.t) :
  NoDup (map Todo.id l) -> In t l ->
  find (fun r => Todo.id r =? Todo.id t) l = Some t.
Proof.
  induction l as [|x l IH]; intros Hnd Hin; [destruct Hin|].
  inversion Hnd as [|? ? Hnot Hnd']; subst. simpl.
  destruct Hin as [->|Hin]; [rewrite Z.eqb_refl; reflexivity|].
  assert (Hx : (Todo.id x =? Todo.id t) = false).
  { apply Z.eqb_neq. intros E. apply Hnot. rewrite E. apply in_map.
    exact Hin. }
  rewrite Hx. apply IH; assumption.
Qed.

Lemma local_map_keys (j : Z) (l : list Todo.t) :
  map fst (local_map_from j l) = map Todo.id l.
Proof.
  revert j. induction l as [|x l IH]; intros j; simpl; [reflexivity|].
  rewrite IH. reflexivity.
Qed.

Lemma map_get_absent (k : Z) (m : list (Z * Z)) (acc : option Z) :
  ~ In k (map fst m) ->
  fold_left (fun acc kv => if fst kv =? k then Some (snd kv) else acc) m acc
  = acc.
Proof.
  revert acc. induction m as [|[k' v] m IH]; intros acc Hk; [reflexivity|].
  simpl in *. destruct (Z.eqb_spec k' k) as [->|Hne]; [tauto|].
  apply IH. tauto.
Qed.

(** The local-number map gives the row at index [i] the number
    [i + 1]. *)
Lemma map_get_local_map (l : list Todo.t) (i : nat) (t : Todo.t) :
  NoDup (map Todo.id l) -> nth_error l i = Some t ->
  map_get (Todo.id t) (local_map l) = Some (Z.of_nat i + 1).
Proof.
  unfold map_get, local_map.
  assert (G : forall j acc,
             NoDup (map Todo.id l) -> nth_error l i = Some t ->
             fold_left
               (fun acc kv => if fst kv =? Todo.id t then Some (snd kv) else acc)
               (local_map_from j l) acc
             = Some (j + Z.of_nat i + 1)).
  { revert i. induction l as [|x l IH]; intros i j acc Hnd Hi.
    - destruct i; discriminate Hi.
    - inversion Hnd as [|? ? Hnot Hnd']; subst.
      destruct i as [|i]; simpl in Hi.
      + injection Hi as ->. cbn [local_map_from fold_left fst snd].
        rewrite Z.eqb_refl. rewrite map_get_absent.
        * f_equal. lia.
        * rewrite local_map_keys. exact Hnot.
      + cbn [local_map_from fold_left fst snd].
        rewrite (IH i (j + 1)) by assumption. f_equal. lia. }
  intros Hnd Hi. rewrite (G 0 None Hnd Hi). f_equal.
Qed.

(** The todos of the user after one of them is deleted. *)
Lemma user_todos_delete (session : Session) (user_id : Z) (t : Todo.t) :
  _get_user_todos (session_delete session t) user_id
  = filter (fun r => negb (Todo.id r =? Todo.id t))
           (_get_user_todos session user_id).
Proof.
  unfold _get_user_todos, session_delete, with_todos. cbn [todos].
  rewrite filter_comm. symmetry. apply filter_order_by.
Qed.

(* ----------------------------------------------------------------- *)
(** ** Local numbers across one batch (C2) *)

Lemma session_delete_NoDup (session : Session) (t : Todo.t) :
  NoDup (map Todo.id (todos session)) ->
  NoDup (map Todo.id (todos (session_delete session t))).
Proof. intros H. apply NoDup_map_filter. exact H. Qed.

(** After the row at local number [k] is deleted, local number [k]
    is the row that had local number [k + 1]. *)
Lemma item_after_delete (session : Session) (user_id k : Z) (t : Todo.t) :
  NoDup (map Todo.id (todos session)) -> 1 <= k ->
  item (_get_user_todos session user_id) (k - 1) = Some t ->
  item (_get_user_todos (session_delete session t) user_id) (k - 1)
  = item (_get_user_todos session user_id) k.
Proof.
  intros Hnd Hk Hi. rewrite user_todos_delete. unfold item in *.
  rewrite (filter_remove_index _ _ _ (user_todos_NoDup _ user_id Hnd) Hi).
  rewrite nth_error_remove_index. f_equal. lia.
Qed.

Lemma delete_many_one (env : Env) (session : Session) (user_id k : Z)
      (t : Todo.t) :
  NoDup (map Todo.id (todos session)) -> 1 <= k ->
  item (_get_user_todos session user_id) (k - 1) = Some t ->
  apply_action env user_id session (delete_one k)
  = Ok (session_delete session t, [deleted_reply k]).
Proof.
  intros Hnd Hk Hi.
  assert (Hin : In t (_get_user_todos session user_id))
    by (eapply nth_error_In; exact Hi).
  apply user_todos_In in Hin. destruct Hin as [Hin Hown].
  change (apply_action env user_id session (delete_one k))
    with (action_delete_many user_id session [("local_nos", ints [k])]).
  unfold action_delete_many.
  change (or_else (get "local_nos" [("local_nos", ints [k])]) (VList []))
    with (VList [VInt k]).
  cbn [truthy negb int_list int_items bind].
  rewrite (resolve_many_one _ _ _ _ Hk Hi).
  cbn [delete_rows]. unfold session_get.
  rewrite (find_by_id _ _ Hnd Hin), Hown.
  unfold item in Hi.
  rewrite (map_get_local_map _ _ _ (user_todos_NoDup _ user_id Hnd) Hi).
  replace (Z.of_nat (Z.to_nat (k - 1)) + 1) with k by lia.
  cbn [app filter].
  assert (Hpos : (0 <? k) = true) by (apply Z.ltb_lt; lia).
  rewrite Hpos. unfold _human_list. cbn [sorted_set fold_right insert_uniq].
  reflexivity.
Qed.

Lemma details_one_reply (env : Env) (session : Session) (user_id k : Z)
      (t : Todo.t) :
  NoDup (map Todo.id (todos session)) -> 1 <= k ->
  item (_get_user_todos session user_id) (k - 1) = Some t ->
  apply_action env user_id session (details_one k)
  = Ok (session, [VStr (format_todos_for_user session user_id [t])]).
Proof.
  intros Hnd Hk Hi.
  assert (Hin : In t (_get_user_todos session user_id))
    by (eapply nth_error_In; exact Hi).
  apply user_todos_In in Hin. destruct Hin as [Hin Hown].
  change (apply_action env user_id session (details_one k))
    with (action_details user_id session [("local_nos", ints [k])]).
  unfold action_details.
  change (get "local_nos" [("local_nos", ints [k])]) with (VList [VInt k]).
  change (get "ordinal" [("local_nos", ints [k])]) with VNone.
  cbn [as_int truthy negb int_list int_items bind].
  rewrite (resolve_many_one _ _ _ _ Hk Hi).
  cbn [fetch]. unfold session_get.
  rewrite (find_by_id _ _ Hnd Hin), Hown. reflexivity.
Qed.

Lemma list_all_reply (env : Env) (session : Session) (user_id : Z) :
  apply_action env user_id session show_all
  = Ok (session,
        [VStr (format_todos_for_user session user_id
                 (_get_user_todos session user_id))]).
Proof. reflexivity. Qed.

(** The resolver of many numbers is the resolver of one number run
    over the sorted set of the numbers. *)
Lemma resolve_many_each (session : Session) (user_id : Z) (ns : list Z) :
  _resolve_many_local_to_db_ids session user_id ns
  = flat_map (fun n =>
                match _resolve_local_to_db_id session user_id (Some n) with
                | Some db_id => [db_id]
                | None => []
                end)
             (sorted_set ns).
Proof.
  unfold _resolve_many_local_to_db_ids.
  induction (sorted_set ns) as [|n l IH]; [reflexivity|].
  cbn [ids_at flat_map]. rewrite resolve_local_item, IH.
  destruct (Z.leb_spec 1 n) as [Hn|Hn]; [|reflexivity]. cbn [andb].
  destruct (Z.leb_spec n (len (_get_user_todos session user_id)))
    as [Hle|Hgt].
  - destruct (item _ (n - 1)); reflexivity.
  - assert (E : item (_get_user_todos session user_id) (n - 1) = None)
      by (apply nth_error_None; unfold len in Hgt; lia).
    rewrite E. reflexivity.
Qed.

(** C2.  In a table with distinct ids: local number [n] resolves to
    the storage id of the todo of the user that has exactly [n - 1]
    older todos of the same user, and to nothing else; the resolver of
    many numbers resolves each number of the sorted set in this way.
    The rest of a batch runs on the session its first action left, so
    each action resolves its numbers on the current list: after
    [delete_many] of local number [k], both the resolvers and a
    [details] or [list] action of the same batch see the todo that had
    local number [k + 1] at local number [k], and the deleted todo is
    gone from the list. *)
Theorem local_numbering (env : Env) (session : Session) (user_id : Z) :
  NoDup (map Todo.id (todos session)) ->
  (forall n db_id,
      _resolve_local_to_db_id session user_id (Some n) = Some db_id
      <-> (exists t, In t (todos session) /\ owned_by user_id t = true
                     /\ Todo.id t = db_id)
          /\ older session user_id db_id = n - 1)
  /\ (forall ns,
         _resolve_many_local_to_db_ids session user_id ns
         = flat_map (fun n =>
                       match _resolve_local_to_db_id session user_id (Some n)
                       with
                       | Some db_id => [db_id]
                       | None => []
                       end)
                    (sorted_set ns))
  /\ (forall a rest session1 replies1,
         apply_action env user_id session a = Ok (session1, replies1) ->
         apply_actions env user_id session (a :: rest)
         = (r <- apply_actions env user_id session1 rest ;;
            Ok (fst r, (replies1 ++ snd r)%list)))
  /\ (forall k t t',
         1 <= k ->
         item (_get_user_todos session user_id) (k - 1) = Some t ->
         item (_get_user_todos session user_id) k = Some t' ->
         let session' := session_delete session t in
         apply_action env user_id session (delete_one k)
         = Ok (session', [deleted_reply k])
         /\ _resolve_local_to_db_id session user_id (Some (k + 1))
            = Some (Todo.id t')
         /\ _resolve_local_to_db_id session' user_id (Some k)
            = Some (Todo.id t')
         /\ _resolve_many_local_to_db_ids session' user_id [k] = [Todo.id t']
         /\ apply_actions env user_id session [delete_one k; details_one k]
            = Ok (session',
                  [deleted_reply k;
                   VStr (format_todos_for_user session' user_id [t'])])
         /\ apply_actions env user_id session [delete_one k; show_all]
            = Ok (session',
                  [deleted_reply k;
                   VStr (format_todos_for_user session' user_id
                           (_get_user_todos session' user_id))])
         /\ ~ In t (_get_user_todos session' user_id)).
Proof.
  intros Hnd. split; [|split; [|split]].
  - intros n db_id. rewrite resolve_local_item, older_count.
    pose proof (user_todos_sorted session user_id Hnd) as Hs.
    unfold item. split.
    + destruct (Z.leb_spec 1 n) as [Hn|]; [|discriminate].
      destruct (nth_error _ (Z.to_nat (n - 1))) as [t|] eqn:Hi;
        [|discriminate].
      simpl. intros H. injection H as <-.
      assert (Hin : In t (_get_user_todos session user_id))
        by (eapply nth_error_In; exact Hi).
      split.
      * exists t. apply user_todos_In in Hin. tauto.
      * unfold len. rewrite (sorted_index_count _ _ _ Hs Hi). lia.
    + intros [[t [Hin [Hown <-]]] Hold].
      assert (HinU : In t (_get_user_todos session user_id))
        by (apply user_todos_In; tauto).
      apply In_nth_error in HinU. destruct HinU as [i Hi].
      unfold len in Hold. rewrite (sorted_index_count _ _ _ Hs Hi) in Hold.
      destruct (Z.leb_spec 1 n); [|lia].
      replace (Z.to_nat (n - 1)) with i by lia.
      rewrite Hi. reflexivity.
  - intros ns. apply resolve_many_each.
  - intros a rest session1 replies1 Ha. cbn [apply_actions bind].
    rewrite Ha. cbn [bind].
    destruct (apply_actions env user_id session1 rest) as [[s2 r2]|e];
      reflexivity.
  - intros k t t' Hk Hi Hi' session'.
    pose proof (session_delete_NoDup session t Hnd) as Hnd'.
    pose proof (item_after_delete session user_id k t Hnd Hk Hi) as Hshift.
    fold session' in Hnd', Hshift. rewrite Hi' in Hshift.
    pose proof (delete_many_one env session user_id k t Hnd Hk Hi) as Hdel.
    fold session' in Hdel.
    repeat split.
    + exact Hdel.
    + rewrite resolve_local_item. destruct (Z.leb_spec 1 (k + 1)); [|lia].
      replace (k + 1 - 1) with k by lia. rewrite Hi'. reflexivity.
    + rewrite resolve_local_item. destruct (Z.leb_spec 1 k); [|lia].
      rewrite Hshift. reflexivity.
    + apply resolve_many_one; assumption.
    + cbn [apply_actions bind]. rewrite Hdel. cbn [bind].
      rewrite (details_one_reply env session' user_id k t' Hnd' Hk Hshift).
      reflexivity.
    + cbn [apply_actions bind]. rewrite Hdel. cbn [bind].
      rewrite list_all_reply. reflexivity.
    + unfold session'. rewrite user_todos_delete. intros Hin.
      apply filter_In in Hin. destruct Hin as [_ Hne].
      rewrite Z.eqb_refl in Hne. discriminate Hne.
Qed.

(** C2 at the session [session3]: user 1 has the todos stored under
    2, 5 and 9; after local number 2 (id 5) is deleted, local number
    2 is the todo stored under 9, which was local number 3. *)
Lemma local_numbering_witness :
  _resolve_local_to_db_id session3 1 (Some 3) = Some 9
  /\ _resolve_local_to_db_id
       (session_delete session3 (Todo.mk 5 1 "water plants" None false)) 1
       (Some 2)
     = Some 9.
Proof.
  assert (Hnd : NoDup (map Todo.id (todos session3))).
  { simpl. repeat constructor; simpl; intuition discriminate. }
  pose proof (proj2 (proj2 (proj2 (local_numbering env_down session3 1 Hnd)))
                2
                (Todo.mk 5 1 "water plants" None false)
                (Todo.mk 9 1 "call bob" None false)
                ltac:(lia) eq_refl eq_refl) as H.
  split; [exact (proj1 (proj2 H))|exact (proj1 (proj2 (proj2 H)))].
Defined.

(* ================================================================= *)
(** * Further properties of the code *)

(* ----------------------------------------------------------------- *)
(** ** Rows and keys *)

Lemma session_get_In (session : Session) (db_id : Z) (t : Todo.t) :
  session_get session db_id = Some t ->
  In t (todos session) /\ Todo.id t = db_id.
Proof.
  unfold session_get. intros H. apply find_some in H.
  destruct H as [Hin Heq]. apply Z.eqb_eq in Heq. auto.
Qed.

Lemma session_get_row (session : Session) (t : Todo.t) :
  NoDup (map Todo.id (todos session)) -> In t (todos session) ->
  session_get session (Todo.id t) = Some t.
Proof. intros Hnd Hin. apply find_by_id; assumption. Qed.

Lemma session_get_absent (session : Session) (db_id : Z) :
  (forall t, In t (todos session) -> Todo.id t <> db_id) ->
  session_get session db_id = None.
Proof.
  intros H. unfold session_get.
  destruct (find _ (todos session)) as [t|] eqn:E; [|reflexivity].
  apply find_some in E. destruct E as [Hin Heq]. apply Z.eqb_eq in Heq.
  exfalso. exact (H t Hin Heq).
Qed.

Lemma find_app_last (l : list Todo.t) (t : Todo.t) :
  (forall r, In r l -> Todo.id r <> Todo.id t) ->
  find (fun r => Todo.id r =? Todo.id t) (l ++ [t]) = Some t.
Proof.
  induction l as [|x l IH]; intros H; simpl.
  - rewrite Z.eqb_refl. reflexivity.
  - destruct (Z.eqb_spec (Todo.id x) (Todo.id t)) as [E|_].
    + exfalso. apply (H x); [left; reflexivity|exact E].
    + apply IH. intros r Hr. apply H. right. exact Hr.
Qed.


Lemma session_update_ids (session : Session) (t' : Todo.t) :
  map Todo.id (todos (session_update session t'))
  = map Todo.id (todos session).
Proof.
  unfold session_update, with_todos. cbn [todos].
  induction (todos session) as [|x l IH]; [reflexivity|].
  simpl. rewrite IH.
  destruct (Z.eqb_spec (Todo.id x) (Todo.id t')) as [E|_];
    [rewrite E|]; reflexivity.
Qed.

(* ----------------------------------------------------------------- *)
(** ** Ascending and descending order *)

Lemma insert_by_sorted_desc (x : Todo.t) (l : list Todo.t) :
  StronglySorted (fun a b => id_le b a) l ->
  StronglySorted (fun a b => id_le b a) (insert_by Todo.id true x l).
Proof.
  induction 1 as [|y l Hs IH Hall]; simpl.
  - repeat constructor.
  - destruct (Z.leb_spec (Todo.id y) (Todo.id x)) as [Hle|Hgt].
    + constructor; [constructor; assumption|].
      constructor; [exact Hle|].
      eapply Forall_impl; [|exact Hall]. unfold id_le. intros; lia.
    + constructor; [exact IH|].
      apply Forall_forall. intros z Hz.
      apply (Permutation_in _ (insert_by_perm Todo.id true x l)) in Hz.
      destruct Hz as [<-|Hz]; [unfold id_le; lia|].
      rewrite Forall_forall in Hall. auto.
Qed.

Lemma order_by_sorted_desc (l : list Todo.t) :
  StronglySorted (fun a b => id_le b a) (order_by Todo.id true l).
Proof.
  induction l; simpl; [constructor|apply insert_by_sorted_desc; assumption].
Qed.

Lemma sorted_strict_desc (l : list Todo.t) :
  StronglySorted (fun a b => id_le b a) l -> NoDup (map Todo.id l) ->
  StronglySorted id_gt l.
Proof.
  induction 1 as [|x l Hs IH Hall]; simpl; intros Hnd; [constructor|].
  inversion Hnd as [|? ? Hnot Hnd']; subst.
  constructor; [auto|].
  apply Forall_forall. intros y Hy.
  rewrite Forall_forall in Hall. specialize (Hall y Hy).
  unfold id_le in Hall. unfold id_gt.
  assert (Todo.id x <> Todo.id y).
  { intros E. apply Hnot. rewrite E. apply in_map. exact Hy. }
  lia.
Qed.

Lemma StronglySorted_app (A : Type) (R : A -> A -> Prop) (l1 l2 : list A) :
  StronglySorted R l1 -> StronglySorted R l2 ->
  (forall a b, In a l1 -> In b l2 -> R a b) ->
  StronglySorted R (l1 ++ l2).
Proof.
  induction 1 as [|x l1 Hs IH Hall]; intros H2 Hc; simpl; [exact H2|].
  constructor.
  - apply IH; [exact H2|]. intros a b Ha Hb. apply Hc; [right|]; assumption.
  - apply Forall_app. split; [exact Hall|].
    apply Forall_forall. intros b Hb. apply Hc; [left; reflexivity|exact Hb].
Qed.

Lemma StronglySorted_rev (A : Type) (R : A -> A -> Prop) (l : list A) :
  StronglySorted R l -> StronglySorted (fun a b => R b a) (rev l).
Proof.
  induction 1 as [|x l Hs IH Hall]; simpl; [constructor|].
  apply StronglySorted_app; [exact IH|repeat constructor|].
  intros a b Ha [<-|[]]. apply in_rev in Ha.
  rewrite Forall_forall in Hall. auto.
Qed.

(** A list has at most one arrangement that a strict order sorts. *)
Lemma sorted_perm_unique (A : Type) (R : A -> A -> Prop) (l1 l2 : list A) :
  (forall a b, R a b -> R b a -> False) ->
  StronglySorted R l1 -> StronglySorted R l2 -> Permutation l1 l2 ->
  l1 = l2.
Proof.
  intros Hasym H1. revert l2.
  induction H1 as [|x l1 Hs1 IH Hall1]; intros l2 H2 Hp.
  - apply Permutation_nil in Hp. auto.
  - destruct H2 as [|y l2 Hs2 Hall2].
    + apply Permutation_sym, Permutation_nil in Hp. discriminate Hp.
    + assert (E : x = y).
      { assert (Hx : In x (y :: l2))
          by (apply (Permutation_in _ Hp); left; reflexivity).
        assert (Hy : In y (x :: l1))
          by (apply (Permutation_in _ (Permutation_sym Hp)); left;
              reflexivity).
        destruct Hx as [Hx|Hx]; [auto|].
        destruct Hy as [Hy|Hy]; [auto|].
        rewrite Forall_forall in Hall1, Hall2.
        exfalso. exact (Hasym x y (Hall1 y Hy) (Hall2 x Hx)). }
      subst y. f_equal. apply IH; [exact Hs2|].
      eapply Permutation_cons_inv. exact Hp.
Qed.

(** With distinct ids, sorting newest first is the reverse of sorting
    oldest first. *)
Lemma order_by_desc_rev (l : list Todo.t) :
  NoDup (map Todo.id l) ->
  order_by Todo.id true l = rev (order_by Todo.id false l).
Proof.
  intros Hnd. apply (sorted_perm_unique _ id_gt).
  - unfold id_gt. intros a b; lia.
  - apply sorted_strict_desc; [apply order_by_sorted_desc|].
    eapply Permutation_NoDup; [|exact Hnd].
    apply Permutation_map. symmetry. apply order_by_perm.
  - apply (StronglySorted_rev _ id_lt). apply sorted_strict.
    + apply order_by_sorted.
    + eapply Permutation_NoDup; [|exact Hnd].
      apply Permutation_map. symmetry. apply order_by_perm.
  - rewrite order_by_perm. rewrite <- Permutation_rev.
    symmetry. apply order_by_perm.
Qed.

(** A row newer than all others sorts last, oldest first, and first,
    newest first. *)
Lemma insert_by_app_last (y x : Todo.t) (m : list Todo.t) :
  Todo.id y <= Todo.id x ->
  insert_by Todo.id false y (m ++ [x])
  = (insert_by Todo.id false y m ++ [x])%list.
Proof.
  intros Hyx. induction m as [|z m IH]; simpl.
  - destruct (Z.leb_spec (Todo.id y) (Todo.id x)); [reflexivity|lia].
  - destruct (Z.leb_spec (Todo.id y) (Todo.id z)); [reflexivity|].
    simpl. rewrite IH. reflexivity.
Qed.

Lemma order_by_app_last (l : list Todo.t) (x : Todo.t) :
  Forall (fun r => Todo.id r < Todo.id x) l ->
  order_by Todo.id false (l ++ [x])
  = (order_by Todo.id false l ++ [x])%list.
Proof.
  induction 1 as [|y l Hy _ IH]; [reflexivity|].
  simpl. rewrite IH. apply insert_by_app_last. lia.
Qed.

Lemma filter_app_last (f : Todo.t -> bool) (l : list Todo.t) (x : Todo.t) :
  f x = true -> filter f (l ++ [x]) = (filter f l ++ [x])%list.
Proof. intros H. rewrite filter_app. simpl. rewrite H. reflexivity. Qed.

(* ----------------------------------------------------------------- *)
(** ** The REST routes *)

Lemma list_todos_rev_aux (session : Session) (user_id : Z) :
  NoDup (map Todo.id (todos session)) ->
  list_todos session user_id = rev (_get_user_todos session user_id).
Proof.
  intros Hnd. unfold list_todos, _get_user_todos. apply order_by_desc_rev.
  apply NoDup_map_filter. exact Hnd.
Qed.

(** X1.  With distinct ids, [list_todos] returns the todos of the
    user in the reverse of the order the chat numbers them in: the
    row at index [i] of the REST list has the chat local number
    [count - i]. *)
Theorem list_todos_reverse (session : Session) (user_id : Z) :
  NoDup (map Todo.id (todos session)) ->
  list_todos session user_id = rev (_get_user_todos session user_id)
  /\ (forall i t,
         nth_error (list_todos session user_id) i = Some t ->
         _resolve_local_to_db_id session user_id
           (Some (len (list_todos session user_id) - Z.of_nat i))
         = Some (Todo.id t)).
Proof.
  intros Hnd.
  pose proof (list_todos_rev_aux session user_id Hnd) as E.
  split; [exact E|].
  intros i t Hi. rewrite E in Hi |- *.
  set (U := _get_user_todos session user_id) in *.
  assert (Hlt : (i < List.length (rev U))%nat)
    by (apply nth_error_Some; rewrite Hi; discriminate).
  rewrite length_rev in Hlt.
  rewrite resolve_local_item. fold U. unfold len. rewrite length_rev.
  destruct (Z.leb_spec 1 (Z.of_nat (List.length U) - Z.of_nat i)); [|lia].
  unfold item.
  replace (Z.to_nat (Z.of_nat (List.length U) - Z.of_nat i - 1))
    with (List.length U - S i)%nat by lia.
  rewrite nth_error_rev in Hi.
  destruct (Nat.ltb_spec i (List.length U)); [|lia].
  rewrite Hi. reflexivity.
Qed.

Lemma same_id_same_row (l : list Todo.t) (a b : Todo.t) :
  NoDup (map Todo.id l) -> In a l -> In b l -> Todo.id a = Todo.id b ->
  a = b.
Proof.
  induction l as [|x l IH]; intros Hnd Ha Hb E; [destruct Ha|].
  inversion Hnd as [|? ? Hnot Hnd']; subst.
  destruct Ha as [->|Ha], Hb as [->|Hb].
  - reflexivity.
  - exfalso. apply Hnot. rewrite E. apply in_map. exact Hb.
  - exfalso. apply Hnot. rewrite <- E. apply in_map. exact Ha.
  - apply IH; assumption.
Qed.

Lemma own_todo_ok (session : Session) (user_id todo_id : Z) (t : Todo.t) :
  own_todo session user_id todo_id = Ok t ->
  In t (todos session) /\ Todo.id t = todo_id /\ owned_by user_id t = true.
Proof.
  unfold own_todo. intros H.
  destruct (session_get session todo_id) as [r|] eqn:E; [|discriminate H].
  destruct (owned_by user_id r) eqn:Ho; [|discriminate H].
  injection H as ->. apply session_get_In in E. tauto.
Qed.

(** Deleting or updating a row of the user leaves the rows of the
    other users as they are. *)
Lemma others_delete (session : Session) (user_id : Z) (t : Todo.t) :
  NoDup (map Todo.id (todos session)) -> In t (todos session) ->
  owned_by user_id t = true ->
  others user_id (session_delete session t) = others user_id session.
Proof.
  intros Hnd Hin Hown. unfold others, session_delete, with_todos.
  cbn [todos]. rewrite filter_comm. apply filter_all.
  apply Forall_forall. intros r Hr. apply filter_In in Hr.
  destruct Hr as [Hr Hno]. apply negb_true_iff. apply Z.eqb_neq.
  intros E. rewrite (same_id_same_row _ r t Hnd Hr Hin E) in Hno.
  rewrite Hown in Hno. discriminate Hno.
Qed.


Lemma others_insert (session : Session) (user_id : Z) (title : string)
      (description : option string) :
  others user_id (fst (session_insert session user_id title description))
  = others user_id session.
Proof.
  unfold others, session_insert. cbn [fst todos]. rewrite filter_app.
  cbn [filter owned_by Todo.user_id]. unfold owned_by. cbn [Todo.user_id].
  rewrite Z.eqb_refl. cbn [negb]. apply app_nil_r.
Qed.

Lemma well_formed_insert (session : Session) (user_id : Z) (title : string)
      (description : option string) :
  well_formed session ->
  well_formed (fst (session_insert session user_id title description)).
Proof.
  intros [Hnd Hlt]. unfold well_formed, session_insert.
  cbn [fst todos next_id]. split.
  - rewrite map_app. cbn [map Todo.id].
    eapply Permutation_NoDup; [apply Permutation_cons_append|].
    constructor; [|exact Hnd].
    intros Hin. apply in_map_iff in Hin. destruct Hin as [r [E Hr]].
    rewrite Forall_forall in Hlt. specialize (Hlt r Hr). lia.
  - apply Forall_app. split.
    + eapply Forall_impl; [|exact Hlt]. cbv beta. intros; lia.
    + repeat constructor. cbn [Todo.id]. lia.
Qed.

(** The todos of the user after an insert: the new row comes last. *)
Lemma user_todos_insert (session : Session) (user_id : Z) (title : string)
      (description : option string) :
  well_formed session ->
  _get_user_todos (fst (session_insert session user_id title description))
                  user_id
  = (_get_user_todos session user_id
     ++ [snd (session_insert session user_id title description)])%list.
Proof.
  intros [_ Hlt]. unfold _get_user_todos, session_insert.
  cbn [fst snd todos].
  rewrite filter_app_last
    by (unfold owned_by; cbn [Todo.user_id]; apply Z.eqb_refl).
  apply order_by_app_last. cbn [Todo.id].
  apply Forall_filter. exact Hlt.
Qed.

(** X2.  A todo id that is free, or that belongs to another user,
    is not found: [get_todo], [update_todo] and [delete_todo] all
    raise the HTTP error 404. *)
Theorem rest_not_found (session : Session) (user_id todo_id : Z)
        (data : TodoUpdate.t) :
  (forall t, In t (todos session) -> Todo.id t = todo_id ->
             Todo.user_id t <> user_id) ->
  get_todo session user_id todo_id = Raise not_found
  /\ update_todo session user_id todo_id data = Raise not_found
  /\ delete_todo session user_id todo_id = Raise not_found.
Proof.
  intros H.
  assert (E : own_todo session user_id todo_id = Raise not_found).
  { unfold own_todo.
    destruct (session_get session todo_id) as [r|] eqn:Eg; [|reflexivity].
    apply session_get_In in Eg. destruct Eg as [Hin Hid].
    unfold owned_by.
    destruct (Z.eqb_spec (Todo.user_id r) user_id) as [Eu|_]; [|reflexivity].
    exfalso. exact (H r Hin Hid Eu). }
  unfold get_todo, update_todo, delete_todo. rewrite E. auto.
Qed.

(** X2 at [session3]: user 1 asks for todo 3, which is user 2's. *)
Lemma rest_not_found_witness :
  get_todo session3 1 3 = Raise not_found
  /\ delete_todo session3 1 3 = Raise not_found.
Proof.
  destruct (rest_not_found session3 1 3 (TodoUpdate.mk None None None))
    as [H1 [_ H3]].
  - simpl. intros t [<-|[<-|[<-|[<-|[]]]]]; simpl; intros; lia.
  - split; assumption.
Defined.

(** X3.  In a well-formed table [create_todo] stores a pending todo
    with the given title and description under a fresh id:
    [get_todo] returns it, it heads the REST list, it takes the last
    chat local number, the table stays well formed and the rows of
    the other users are untouched. *)
Theorem create_then_get (session : Session) (user_id : Z)
        (data : TodoCreate.t) :
  well_formed session ->
  let session' := fst (create_todo session user_id data) in
  let todo := snd (create_todo session user_id data) in
  get_todo session' user_id (Todo.id todo) = Ok todo
  /\ todo = Todo.mk (next_id session) user_id (TodoCreate.title data)
                    (TodoCreate.description data) false
  /\ well_formed session'
  /\ list_todos session' user_id = todo :: list_todos session user_id
  /\ _resolve_local_to_db_id session' user_id
       (Some (len (_get_user_todos session user_id) + 1))
     = Some (Todo.id todo)
  /\ others user_id session' = others user_id session.
Proof.
  intros Hwf session' todo.
  pose proof (well_formed_insert session user_id (TodoCreate.title data)
                (TodoCreate.description data) Hwf) as Hwf'.
  pose proof (user_todos_insert session user_id (TodoCreate.title data)
                (TodoCreate.description data) Hwf) as HU.
  fold (create_todo session user_id data) in Hwf', HU.
  fold session' in Hwf', HU. fold todo in HU.
  destruct Hwf as [Hnd Hlt]. split; [|split; [|split; [|split; [|split]]]].
  - unfold get_todo, own_todo, session_get. subst session' todo.
    unfold create_todo, session_insert. cbn [fst snd todos Todo.id].
    pose proof (find_app_last (todos session)
                  (Todo.mk (next_id session) user_id (TodoCreate.title data)
                           (TodoCreate.description data) false)) as Hf.
    cbn [Todo.id] in Hf. rewrite Hf.
    + unfold owned_by. cbn [Todo.user_id].
      rewrite Z.eqb_refl. reflexivity.
    + intros r Hr. rewrite Forall_forall in Hlt. specialize (Hlt r Hr). lia.
  - reflexivity.
  - exact Hwf'.
  - destruct Hwf' as [Hnd' _].
    rewrite (list_todos_rev_aux session' user_id Hnd').
    rewrite (list_todos_rev_aux session user_id Hnd).
    rewrite HU, rev_app_distr. reflexivity.
  - rewrite resolve_local_item.
    destruct (Z.leb_spec 1 (len (_get_user_todos session user_id) + 1));
      [|unfold len in *; lia].
    rewrite HU. unfold item, len.
    replace (Z.to_nat (Z.of_nat (List.length (_get_user_todos session user_id))
                       + 1 - 1))
      with (List.length (_get_user_todos session user_id)) by lia.
    rewrite nth_error_app2 by lia. rewrite Nat.sub_diag. reflexivity.
  - apply others_insert.
Qed.

Lemma session3_well_formed : well_formed session3.
Proof.
  split.
  - simpl. repeat constructor; simpl; intuition discriminate.
  - simpl. repeat constructor; simpl; lia.
Qed.

(** X3 at [session3]: the todo user 1 creates gets the id 10 and the
    chat local number 4. *)
Lemma create_then_get_witness :
  _resolve_local_to_db_id
    (fst (create_todo session3 1 (TodoCreate.mk "new" None))) 1 (Some 4)
  = Some 10.
Proof.
  exact (proj1 (proj2 (proj2 (proj2 (proj2
           (create_then_get session3 1 (TodoCreate.mk "new" None)
                            session3_well_formed)))))).
Defined.



(** X5.  With distinct ids, after a successful [delete_todo] the id
    is not found any more, the REST list is the old one without that
    row, and the rows of the other users are untouched. *)
Theorem delete_then_get (session session' : Session) (user_id todo_id : Z) :
  NoDup (map Todo.id (todos session)) ->
  delete_todo session user_id todo_id = Ok session' ->
  get_todo session' user_id todo_id = Raise not_found
  /\ list_todos session' user_id
     = filter (fun r => negb (Todo.id r =? todo_id))
              (list_todos session user_id)
  /\ len (list_todos session' user_id) + 1
     = len (list_todos session user_id)
  /\ others user_id session' = others user_id session.
Proof.
  intros Hnd H. unfold delete_todo in H.
  destruct (own_todo session user_id todo_id) as [todo|e] eqn:Eo;
    [|discriminate H].
  cbn [bind] in H. injection H as <-.
  destruct (own_todo_ok _ _ _ _ Eo) as [Hin [Hid Hown]].
  pose proof (session_delete_NoDup session todo Hnd) as Hnd'.
  assert (HinU : In todo (_get_user_todos session user_id))
    by (apply user_todos_In; tauto).
  apply In_nth_error in HinU. destruct HinU as [i Hi].
  pose proof (filter_remove_index _ _ _ (user_todos_NoDup _ user_id Hnd) Hi)
    as Hrem.
  assert (Hlist : list_todos (session_delete session todo) user_id
                  = filter (fun r => negb (Todo.id r =? todo_id))
                           (list_todos session user_id)).
  { rewrite (list_todos_rev_aux _ user_id Hnd').
    rewrite (list_todos_rev_aux _ user_id Hnd).
    rewrite user_todos_delete, Hid. symmetry. apply filter_rev. }
  split; [|split; [|split]].
  - unfold get_todo, own_todo. rewrite session_get_absent; [reflexivity|].
    intros r Hr. unfold session_delete, with_todos in Hr. cbn [todos] in Hr.
    apply filter_In in Hr. destruct Hr as [_ Hne].
    apply negb_true_iff, Z.eqb_neq in Hne. congruence.
  - exact Hlist.
  - rewrite (list_todos_rev_aux _ user_id Hnd').
    rewrite (list_todos_rev_aux _ user_id Hnd).
    unfold len. rewrite !length_rev, user_todos_delete, Hrem.
    assert (Hlt : (i < List.length (_get_user_todos session user_id))%nat)
      by (apply nth_error_Some; rewrite Hi; discriminate).
    rewrite length_app, length_firstn, length_skipn. lia.
  - apply others_delete; assumption.
Qed.

(** X5 at [session3]: user 1 deletes the todo stored under 5. *)
Lemma delete_then_get_witness :
  get_todo (session_delete session3 (Todo.mk 5 1 "water plants" None false))
           1 5
  = Raise not_found.
Proof.
  apply (proj1 (delete_then_get session3 _ 1 5 (proj1 session3_well_formed)
                  eq_refl)).
Defined.

(** X1 at [session3]: the REST list of user 1 starts with the todo
    stored under 9, which has the chat local number 3. *)
Lemma list_todos_reverse_witness :
  list_todos session3 1 = rev (_get_user_todos session3 1).
Proof.
  exact (proj1 (list_todos_reverse session3 1 (proj1 session3_well_formed))).
Defined.

(* ----------------------------------------------------------------- *)
(** ** What the action loop keeps *)

Lemma safe_refl (user_id : Z) (s : Session) : safe user_id s s.
Proof. intros H. auto. Qed.

Lemma safe_trans (user_id : Z) (s1 s2 s3 : Session) :
  safe user_id s1 s2 -> safe user_id s2 s3 -> safe user_id s1 s3.
Proof.
  intros H12 H23 Hwf. destruct (H12 Hwf) as [Hwf2 [Ho2 Hm2]].
  destruct (H23 Hwf2) as [Hwf3 [Ho3 Hm3]].
  split; [exact Hwf3|]. split; congruence.
Qed.

Lemma own_key_row (user_id : Z) (s : Session) (t : Todo.t) :
  NoDup (map Todo.id (todos s)) -> In t (todos s) ->
  owned_by user_id t = true -> own_key user_id s t.
Proof.
  intros Hnd Hin Hown r Hr E.
  rewrite (same_id_same_row _ r t Hnd Hr Hin E). exact Hown.
Qed.

Lemma safe_insert (user_id : Z) (s s' : Session) (title : string)
      (description : option string) (t : Todo.t) :
  session_insert s user_id title description = (s', t) -> safe user_id s s'.
Proof.
  intros E Hwf.
  assert (Es : s' = fst (session_insert s user_id title description))
    by (rewrite E; reflexivity).
  subst s'. split; [apply well_formed_insert; exact Hwf|].
  split; [apply others_insert|reflexivity].
Qed.

Lemma safe_delete (user_id : Z) (s : Session) (t : Todo.t) :
  own_key user_id s t -> safe user_id s (session_delete s t).
Proof.
  intros Hkey [Hnd Hlt]. split; [split|split].
  - apply session_delete_NoDup. exact Hnd.
  - unfold session_delete, with_todos. cbn [todos next_id].
    apply Forall_filter. exact Hlt.
  - unfold others, session_delete, with_todos. cbn [todos].
    rewrite filter_comm. apply filter_all.
    apply Forall_forall. intros r Hr. apply filter_In in Hr.
    destruct Hr as [Hr Hno]. apply negb_true_iff. apply Z.eqb_neq.
    intros E. rewrite (Hkey r Hr E) in Hno. discriminate Hno.
  - reflexivity.
Qed.

Lemma safe_update (user_id : Z) (s : Session) (t' : Todo.t) :
  own_key user_id s t' -> owned_by user_id t' = true ->
  safe user_id s (session_update s t').
Proof.
  intros Hkey Hown [Hnd Hlt]. split; [split|split].
  - rewrite session_update_ids. exact Hnd.
  - unfold session_update, with_todos. cbn [todos next_id].
    apply Forall_forall. intros r Hr. apply in_map_iff in Hr.
    destruct Hr as [x [Hx Hin]]. rewrite Forall_forall in Hlt.
    destruct (Z.eqb_spec (Todo.id x) (Todo.id t')) as [E|_].
    + subst r. rewrite <- E. apply Hlt. exact Hin.
    + subst r. apply Hlt. exact Hin.
  - unfold others, session_update, with_todos. cbn [todos].
    assert (G : forall l,
               (forall r, In r l -> Todo.id r = Todo.id t' ->
                          owned_by user_id r = true) ->
               filter (fun x => negb (owned_by user_id x))
                      (map (fun r => if Todo.id r =? Todo.id t' then t' else r)
                           l)
               = filter (fun x => negb (owned_by user_id x)) l).
    { induction l as [|x l IH]; intros H; [reflexivity|]. simpl.
      rewrite IH by (intros r Hr; apply H; right; exact Hr).
      destruct (Z.eqb_spec (Todo.id x) (Todo.id t')) as [E|_];
        [|reflexivity].
      rewrite Hown, (H x (or_introl eq_refl) E). reflexivity. }
    apply G. exact Hkey.
  - reflexivity.
Qed.

Lemma own_key_get (user_id : Z) (s : Session) (db_id : Z) (t t' : Todo.t) :
  NoDup (map Todo.id (todos s)) -> session_get s db_id = Some t ->
  owned_by user_id t = true -> Todo.id t' = Todo.id t ->
  own_key user_id s t'.
Proof.
  intros Hnd Hg Hown Hid r Hr E. apply session_get_In in Hg.
  destruct Hg as [Hin _]. rewrite Hid in E.
  rewrite (same_id_same_row _ r t Hnd Hr Hin E). exact Hown.
Qed.

Lemma own_key_delete (user_id : Z) (s : Session) (t t' : Todo.t) :
  own_key user_id s t' -> own_key user_id (session_delete s t) t'.
Proof.
  intros H r Hr E. apply (H r); [|exact E].
  unfold session_delete, with_todos in Hr. cbn [todos] in Hr.
  apply filter_In in Hr. tauto.
Qed.

Lemma delete_list_safe (user_id : Z) (tds : list Todo.t) (s : Session) :
  (forall td, In td tds -> own_key user_id s td) ->
  safe user_id s (fold_left session_delete tds s).
Proof.
  revert s. induction tds as [|td tds IH]; intros s H; [apply safe_refl|].
  cbn [fold_left]. eapply safe_trans.
  - apply safe_delete. apply H. left. reflexivity.
  - apply IH. intros td' Hin. apply own_key_delete. apply H. right.
    exact Hin.
Qed.

Lemma delete_owned_safe (user_id : Z) (tds : list Todo.t) (s : Session) :
  (forall td, In td tds -> In td (todos s) /\ owned_by user_id td = true) ->
  safe user_id s (fold_left session_delete tds s).
Proof.
  intros H Hwf. apply delete_list_safe; [|exact Hwf].
  intros td Htd. destruct (H td Htd) as [Hin Hown].
  apply own_key_row; [exact (proj1 Hwf)|exact Hin|exact Hown].
Qed.

Section LoopSteps.

Variables (env : Env) (user_id : Z).

Lemma add_items_safe (items : list value) :
  forall s acc s' acc',
    add_items user_id s items acc = Ok (s', acc') -> safe user_id s s'.
Proof.
  induction items as [|it items IH]; intros s acc s' acc' H.
  - injection H as <- _. apply safe_refl.
  - cbn [add_items] in H. destruct (py_str it) as [x|e]; [|discriminate H].
    cbn [bind] in H.
    destruct (String.eqb (Py.strip x) ""); [eapply IH; exact H|].
    destruct (session_insert s user_id (Py.strip x) None) as [s0 t0] eqn:E.
    eapply safe_trans; [eapply safe_insert; exact E|eapply IH; exact H].
Qed.

Lemma patch_rows_safe (title desc completed : value) (db_ids : list Z) :
  forall s upd s' upd',
    patch_rows user_id s db_ids title desc completed upd = Ok (s', upd') ->
    safe user_id s s'.
Proof.
  induction db_ids as [|d db_ids IH]; intros s upd s' upd' H.
  - injection H as <- _. apply safe_refl.
  - cbn [patch_rows] in H.
    destruct (session_get s d) as [todo|] eqn:Eg; [|eapply IH; exact H].
    destruct (owned_by user_id todo) eqn:Eo; [|eapply IH; exact H].
    unfold bind in H.
    repeat (break_in H; try discriminate H).
    all: apply IH in H; eapply safe_trans; [|exact H].
    all: intros Hwf; apply safe_update; [|exact Eo|exact Hwf].
    all: apply (own_key_get user_id s d todo _ (proj1 Hwf) Eg Eo eq_refl).
Qed.

Lemma set_status_safe (f : Todo.t -> bool) (db_ids : list Z) :
  forall s chg s' chg',
    set_status user_id f s db_ids chg = (s', chg') -> safe user_id s s'.
Proof.
  induction db_ids as [|d db_ids IH]; intros s chg s' chg' H.
  - injection H as <- _. apply safe_refl.
  - cbn [set_status] in H.
    destruct (session_get s d) as [todo|] eqn:Eg; [|eapply IH; exact H].
    destruct (owned_by user_id todo) eqn:Eo; [|eapply IH; exact H].
    apply IH in H. eapply safe_trans; [|exact H].
    intros Hwf. apply safe_update; [|exact Eo|exact Hwf].
    apply (own_key_get user_id s d todo _ (proj1 Hwf) Eg Eo eq_refl).
Qed.

Lemma delete_rows_safe (lm : list (Z * Z)) (db_ids : list Z) :
  forall s del s' del',
    delete_rows user_id lm s db_ids del = (s', del') -> safe user_id s s'.
Proof.
  induction db_ids as [|d db_ids IH]; intros s del s' del' H.
  - injection H as <- _. apply safe_refl.
  - cbn [delete_rows] in H.
    destruct (session_get s d) as [todo|] eqn:Eg; [|eapply IH; exact H].
    destruct (owned_by user_id todo) eqn:Eo; [|eapply IH; exact H].
    apply IH in H. eapply safe_trans; [|exact H].
    intros Hwf. apply safe_delete; [|exact Hwf].
    apply (own_key_get user_id s d todo _ (proj1 Hwf) Eg Eo eq_refl).
Qed.

Lemma search_todos_rows (s : Session) (qtext : string) (td : Todo.t) :
  In td (search_todos env s user_id qtext) ->
  In td (todos s) /\ owned_by user_id td = true.
Proof.
  unfold search_todos. intros H.
  apply (Permutation_in _ (order_by_perm _ _ _)) in H.
  apply filter_In in H. destruct H as [Hin Hc].
  apply andb_true_iff in Hc. tauto.
Qed.

Lemma delete_all_safe (s : Session) :
  safe user_id s
       (with_todos s (filter (fun t => negb (owned_by user_id t)) (todos s))).
Proof.
  intros [Hnd Hlt]. unfold well_formed, others, with_todos.
  cbn [todos next_id messages]. repeat split.
  - apply NoDup_map_filter. exact Hnd.
  - apply Forall_filter. exact Hlt.
  - apply filter_all. apply Forall_forall. intros r Hr.
    apply filter_In in Hr. tauto.
Qed.

Lemma complete_all_safe (s : Session) (desired : bool) :
  safe user_id s
       (with_todos s
          (map (fun t =>
                  if owned_by user_id t then
                    Todo.mk (Todo.id t) (Todo.user_id t) (Todo.title t)
                            (Todo.description t) desired
                  else t)
               (todos s))).
Proof.
  intros [Hnd Hlt]. unfold well_formed, others, with_todos.
  cbn [todos next_id messages].
  assert (Hid : forall l,
             map Todo.id
                 (map (fun t =>
                         if owned_by user_id t then
                           Todo.mk (Todo.id t) (Todo.user_id t) (Todo.title t)
                                   (Todo.description t) desired
                         else t) l)
             = map Todo.id l).
  { induction l as [|x l IH]; [reflexivity|]. simpl. rewrite IH.
    destruct (owned_by user_id x); reflexivity. }
  repeat split.
  - rewrite Hid. exact Hnd.
  - apply Forall_forall. intros r Hr. apply in_map_iff in Hr.
    destruct Hr as [x [Hx Hin]]. rewrite Forall_forall in Hlt.
    specialize (Hlt x Hin).
    destruct (owned_by user_id x); subst r; exact Hlt.
  - induction (todos s) as [|x l IH]; [reflexivity|]. simpl.
    inversion Hnd; inversion Hlt; subst.
    destruct (owned_by user_id x) eqn:Eo.
    + unfold owned_by at 1. cbn [Todo.user_id].
      unfold owned_by in Eo. rewrite Eo. simpl. auto.
    + rewrite Eo. simpl. f_equal. auto.
Qed.

(** Runs through the branches of one action function. *)
Ltac loop_leaf :=
  first
    [ apply safe_refl
    | eapply add_items_safe; eassumption
    | eapply patch_rows_safe; eassumption
    | eapply set_status_safe; eassumption
    | eapply delete_rows_safe; eassumption
    | eapply safe_insert; eassumption
    | apply delete_all_safe
    | apply complete_all_safe ].

Ltac loop_tac H :=
  unfold bind, say in H; cbv beta zeta in H;
  repeat (break_in H; cbv beta iota zeta in H; try discriminate H);
  try discriminate H;
  injection H as <- _;
  loop_leaf.

Lemma action_add_safe s p s' rs :
  action_add user_id s p = Ok (s', rs) -> safe user_id s s'.
Proof. intros H. unfold action_add in H. loop_tac H. Qed.

Lemma action_add_many_safe s p s' rs :
  action_add_many user_id s p = Ok (s', rs) -> safe user_id s s'.
Proof. intros H. unfold action_add_many in H. loop_tac H. Qed.

Lemma action_list_safe s p s' rs :
  action_list user_id s p = Ok (s', rs) -> safe user_id s s'.
Proof. intros H. unfold action_list in H. loop_tac H. Qed.

Lemma action_count_safe s p s' rs :
  action_count user_id s p = Ok (s', rs) -> safe user_id s s'.
Proof. intros H. unfold action_count in H. loop_tac H. Qed.

Lemma action_details_safe s p s' rs :
  action_details user_id s p = Ok (s', rs) -> safe user_id s s'.
Proof. intros H. unfold action_details in H. loop_tac H. Qed.

Lemma action_search_safe s p s' rs :
  action_search env user_id s p = Ok (s', rs) -> safe user_id s s'.
Proof. intros H. unfold action_search in H. loop_tac H. Qed.

Lemma action_patch_many_safe s p s' rs :
  action_patch_many user_id s p = Ok (s', rs) -> safe user_id s s'.
Proof. intros H. unfold action_patch_many in H. loop_tac H. Qed.

Lemma action_complete_many_safe s p s' rs :
  action_complete_many user_id s p = Ok (s', rs) -> safe user_id s s'.
Proof. intros H. unfold action_complete_many in H. loop_tac H. Qed.

Lemma action_toggle_many_safe s p s' rs :
  action_toggle_many user_id s p = Ok (s', rs) -> safe user_id s s'.
Proof. intros H. unfold action_toggle_many in H. loop_tac H. Qed.

Lemma action_complete_all_safe s p s' rs :
  action_complete_all user_id s p = Ok (s', rs) -> safe user_id s s'.
Proof.
  intros H. unfold action_complete_all, say in H. cbv zeta in H.
  injection H as <- _. apply complete_all_safe.
Qed.

Lemma action_delete_many_safe s p s' rs :
  action_delete_many user_id s p = Ok (s', rs) -> safe user_id s s'.
Proof. intros H. unfold action_delete_many in H. loop_tac H. Qed.

Lemma action_group_by_status_safe s s' rs :
  action_group_by_status user_id s = Ok (s', rs) -> safe user_id s s'.
Proof.
  intros H. unfold action_group_by_status in H. cbv zeta in H.
  injection H as <- _. apply safe_refl.
Qed.

Lemma action_delete_by_ordinal_safe s p s' rs :
  action_delete_by_ordinal user_id s p = Ok (s', rs) -> safe user_id s s'.
Proof.
  intros H. unfold action_delete_by_ordinal, say in H. cbv beta zeta in H.
  repeat (break_in H; cbv beta iota zeta in H; try discriminate H).
  all: injection H as <- _; try apply safe_refl.
  all: intros Hwf; apply safe_delete; [|exact Hwf].
  all: match goal with
       | Et : _ = Some ?t |- own_key _ _ ?t =>
           repeat (break_in Et; try discriminate Et)
       end.
  all: match goal with
       | Eg : session_get ?s0 ?d = Some ?t, Eo : owned_by ?u ?t = true
         |- _ =>
           apply (own_key_get u s0 d t t (proj1 Hwf) Eg Eo eq_refl)
       end.
Qed.

Lemma action_delete_by_text_safe s p s' rs :
  action_delete_by_text env user_id s p = Ok (s', rs) -> safe user_id s s'.
Proof.
  intros H. unfold action_delete_by_text, bind, say in H.
  cbv beta zeta in H.
  destruct (stripped (get "query" p)) as [q|e]; [|discriminate H].
  destruct (String.eqb q ""); [injection H as <- _; apply safe_refl|].
  destruct (search_todos env s user_id q) as [|td tds] eqn:E;
    injection H as <- _; [apply safe_refl|].
  change (safe user_id s (fold_left session_delete (td :: tds) s)).
  rewrite <- E. apply delete_owned_safe.
  intros td' Hin. eapply search_todos_rows. exact Hin.
Qed.

Lemma action_delete_filtered_safe s p s' rs :
  action_delete_filtered user_id s p = Ok (s', rs) -> safe user_id s s'.
Proof.
  intros H. unfold action_delete_filtered, bind, say in H.
  cbv beta zeta in H.
  destruct (py_str _) as [name|e]; [|discriminate H].
  set (tds := if is_str _ "completed" then _ else _) in H.
  assert (Hrows : forall td, In td tds ->
                             In td (todos s) /\ owned_by user_id td = true).
  { intros td Hin. unfold tds in Hin.
    destruct (is_str _ "completed"); [|destruct (is_str _ "pending")].
    - apply filter_In in Hin. destruct Hin as [Hin _].
      apply filter_In in Hin. exact Hin.
    - apply filter_In in Hin. destruct Hin as [Hin _].
      apply filter_In in Hin. exact Hin.
    - apply filter_In in Hin. exact Hin. }
  destruct tds as [|td tds']; injection H as <- _; [apply safe_refl|].
  change (safe user_id s (fold_left session_delete (td :: tds') s)).
  apply delete_owned_safe. exact Hrows.
Qed.

Lemma action_delete_all_safe s s' rs :
  action_delete_all user_id s = Ok (s', rs) -> safe user_id s s'.
Proof.
  intros H. unfold action_delete_all, say in H.
  injection H as <- _. apply delete_all_safe.
Qed.

Lemma apply_action_safe s a s' rs :
  apply_action env user_id s a = Ok (s', rs) -> safe user_id s s'.
Proof.
  intros H. destruct a as [action p]. unfold apply_action in H.
  repeat match type of H with
         | (if ?c then _ else _) = _ => destruct c
         end;
    first [ eapply action_add_safe; exact H
          | eapply action_add_many_safe; exact H
          | eapply action_list_safe; exact H
          | eapply action_group_by_status_safe; exact H
          | eapply action_count_safe; exact H
          | eapply action_details_safe; exact H
          | eapply action_search_safe; exact H
          | eapply action_patch_many_safe; exact H
          | eapply action_complete_many_safe; exact H
          | eapply action_toggle_many_safe; exact H
          | eapply action_complete_all_safe; exact H
          | eapply action_delete_many_safe; exact H
          | eapply action_delete_by_ordinal_safe; exact H
          | eapply action_delete_by_text_safe; exact H
          | eapply action_delete_filtered_safe; exact H
          | eapply action_delete_all_safe; exact H
          | unfold say in H; injection H as <- _; apply safe_refl ].
Qed.

Lemma apply_actions_safe (actions : list Parsed) :
  forall s s' rs,
    apply_actions env user_id s actions = Ok (s', rs) -> safe user_id s s'.
Proof.
  induction actions as [|a actions IH]; intros s s' rs H.
  - injection H as <- _. apply safe_refl.
  - cbn [apply_actions] in H. unfold bind in H.
    destruct (apply_action env user_id s a) as [[s1 r1]|e] eqn:Ea;
      [|discriminate H].
    destruct (apply_actions env user_id s1 actions) as [[s2 r2]|e] eqn:Eb;
      [|discriminate H].
    injection H as <- _.
    eapply safe_trans; [eapply apply_action_safe; exact Ea|].
    eapply IH. exact Eb.
Qed.

End LoopSteps.

(** X6.  The action loop keeps the table well formed: whatever the
    actions and their payloads, if the loop ends without an exception
    the ids are still distinct and below the next key. *)
Theorem apply_actions_well_formed (env : Env) (user_id : Z)
        (session session' : Session) (actions : list Parsed)
        (replies : list value) :
  well_formed session ->
  apply_actions env user_id session actions = Ok (session', replies) ->
  well_formed session'.
Proof.
  intros Hwf H.
  exact (proj1 (apply_actions_safe env user_id actions _ _ _ H Hwf)).
Qed.

(** X7.  The action loop run for one user never adds, changes or
    deletes a row of another user, whatever the actions and their
    payloads. *)
Theorem apply_actions_isolation (env : Env) (user_id : Z)
        (session session' : Session) (actions : list Parsed)
        (replies : list value) :
  well_formed session ->
  apply_actions env user_id session actions = Ok (session', replies) ->
  others user_id session' = others user_id session.
Proof.
  intros Hwf H.
  exact (proj1 (proj2 (apply_actions_safe env user_id actions _ _ _ H Hwf))).
Qed.

(** X6 at [session3]: user 1 deletes the second todo and lists the
    rest. *)
Lemma apply_actions_well_formed_witness :
  exists s' rs,
    apply_actions env_down 1 session3 [delete_one 2; show_all] = Ok (s', rs)
    /\ well_formed s'.
Proof.
  destruct (apply_actions env_down 1 session3 [delete_one 2; show_all])
    as [[s' rs]|e] eqn:E.
  - exists s', rs. split; [reflexivity|].
    exact (apply_actions_well_formed env_down 1 session3 s' _ rs
             session3_well_formed E).
  - vm_compute in E. discriminate E.
Defined.

(** X7 at [session3]: user 1 deletes everything; the rows of the other
    users are the ones from before. *)
Lemma apply_actions_isolation_witness :
  exists s' rs,
    apply_actions env_down 1 session3 [("delete_all", [])] = Ok (s', rs)
    /\ others 1 s' = others 1 session3.
Proof.
  destruct (apply_actions env_down 1 session3 [("delete_all", [])])
    as [[s' rs]|e] eqn:E.
  - exists s', rs. split; [reflexivity|].
    exact (apply_actions_isolation env_down 1 session3 s' _ rs
             session3_well_formed E).
  - vm_compute in E. discriminate E.
Defined.

(* ----------------------------------------------------------------- *)
(** ** The chat log and the reply *)

Lemma rstrip_ink (s : string) :
  Py.rstrip_by Py.is_space s = "" <-> has_ink s = false.
Proof.
  induction s as [|c s IH]; simpl; [tauto|].
  destruct (Py.rstrip_by Py.is_space s) eqn:E.
  - destruct (Py.is_space c); simpl.
    + split; [intros _; apply IH; reflexivity | reflexivity].
    + split; discriminate.
  - split; [discriminate|].
    intros H. apply orb_false_iff in H. destruct H as [_ H].
    apply IH in H. discriminate H.
Qed.

Lemma lstrip_ink (s : string) :
  has_ink (Py.lstrip_by Py.is_space s) = has_ink s.
Proof.
  induction s as [|c s IH]; simpl; [reflexivity|].
  destruct (Py.is_space c) eqn:E; simpl; [exact IH|].
  rewrite E. reflexivity.
Qed.

Lemma strip_ink (s : string) : Py.strip s = "" <-> has_ink s = false.
Proof.
  unfold Py.strip, Py.strip_by. rewrite rstrip_ink, lstrip_ink. tauto.
Qed.

Lemma has_ink_app (a b : string) :
  has_ink (a ++ b) = has_ink a || has_ink b.
Proof.
  induction a as [|c a IH]; simpl; [reflexivity|].
  rewrite IH. apply orb_assoc.
Qed.

Lemma join_ink (sep : string) (rs : list string) :
  rs <> [] -> Forall (fun r => has_ink r = true) rs ->
  has_ink (Py.join sep rs) = true.
Proof.
  intros Hne H. destruct H as [|r rs Hr Hrs]; [congruence|].
  destruct rs as [|r' rs]; simpl; [exact Hr|].
  rewrite has_ink_app, Hr. reflexivity.
Qed.

Lemma nonblank_replies_ink (replies : list value) :
  forall rs, nonblank_replies replies = Ok rs ->
             Forall (fun r => has_ink r = true) rs.
Proof.
  induction replies as [|v replies IH]; intros rs H; simpl in H.
  - injection H as <-. constructor.
  - destruct v; try discriminate H. unfold bind in H.
    destruct (nonblank_replies replies) as [rs'|e]; [|discriminate H].
    injection H as <-. specialize (IH rs' eq_refl).
    destruct (String.eqb_spec (Py.strip s) "") as [E|E]; [exact IH|].
    constructor; [|exact IH].
    destruct (has_ink s) eqn:Ei; [reflexivity|].
    apply strip_ink in Ei. contradiction.
Qed.

(** X8.  When the statements of [send_message] before its [return]
    finish, exactly two new rows stand at the end of the chat log,
    the text of the user and then the reply; the reply is never
    blank; the table stays well formed and the todos of the other
    users are untouched.  The reply is stored but not returned: the
    last statement then raises [ValidationError]. *)
Theorem send_message_log (env : Env) (settings : Settings)
        (session session' : Session) (user_id : Z) (message reply : string) :
  well_formed session ->
  store_reply env settings session user_id message = Ok (session', reply) ->
  messages session'
  = (messages session
     ++ [{| msg_user_id := user_id; role := "user"; content := message |};
         {| msg_user_id := user_id; role := "assistant";
            content := reply |}])%list
  /\ Py.strip reply <> ""
  /\ well_formed session'
  /\ others user_id session' = others user_id session
  /\ send_message env settings session user_id message
     = Raise (PyError "ValidationError").
Proof.
  intros Hwf H. pose proof (send_message_return _ _ _ _ _ _ _ H) as Hret.
  unfold store_reply, bind in H.
  destruct (apply_actions env user_id
              (session_log session user_id "user" message)
              (classify env settings message)) as [[s1 replies]|e] eqn:Ea;
    [|discriminate H].
  destruct (nonblank_replies replies) as [rs|e] eqn:En; [|discriminate H].
  injection H as <- <-.
  destruct (apply_actions_safe _ _ _ _ _ _ Ea Hwf) as [Hwf1 [Ho Hm]].
  split; [|split; [|split; [|split]]]; [| | | |exact Hret].
  - unfold session_log at 1. cbn [messages]. rewrite Hm.
    unfold session_log. cbn [messages]. rewrite <- app_assoc. reflexivity.
  - intros Hs. apply strip_ink in Hs.
    pose proof (nonblank_replies_ink _ _ En) as Hink.
    destruct rs as [|r rs]; [discriminate Hs|].
    match type of Hs with
    | context [Py.join ?sep _] =>
        pose proof (join_ink sep (r :: rs) ltac:(discriminate) Hink) as Hj;
        destruct (Py.join sep (r :: rs)) as [|c reply]; [discriminate Hj|]
    end.
    rewrite Hj in Hs. discriminate Hs.
  - exact Hwf1.
  - exact Ho.
Qed.

(** X8 at [session3]: user 1 asks for the list. *)
Lemma send_message_log_witness :
  exists s' reply,
    store_reply env_down settings_no_key session3 1 "show my todos"
    = Ok (s', reply)
    /\ List.length (messages s') = (List.length (messages session3) + 2)%nat
    /\ Py.strip reply <> ""
    /\ send_message env_down settings_no_key session3 1 "show my todos"
       = Raise (PyError "ValidationError").
Proof.
  destruct (store_reply env_down settings_no_key session3 1 "show my todos")
    as [[s' reply]|e] eqn:E.
  - exists s', reply. split; [reflexivity|].
    destruct (send_message_log env_down settings_no_key session3 s' 1 _ reply
                session3_well_formed E) as [Hm [Hr [_ [_ Hv]]]].
    split; [|split; [exact Hr|exact Hv]].
    rewrite Hm, length_app. reflexivity.
  - vm_compute in E. discriminate E.
Defined.

(* ----------------------------------------------------------------- *)
(** ** The parser's actions run without an exception *)



Lemma shaped_show_all : shaped show_all = true.
Proof. reflexivity. Qed.



































Section LoopAnswers.

Variables (env : Env) (user_id : Z).





















End LoopAnswers.




(* ----------------------------------------------------------------- *)
(** ** An action the loop has no branch for *)

(** X10.  The parser answers a status change by ordinal (second,
    2nd, ...) with the action [status_by_ordinal], which the loop of
    [send_message] has no branch for: the reply stored is Done. and
    no todo is changed; [send_message] then raises at its last
    statement. *)
Theorem status_by_ordinal_ignored (env : Env) (settings : Settings)
        (session : Session) (user_id : Z) (message : string) (p : payload) :
  parse_intent_fast message = [("status_by_ordinal", p)] ->
  store_reply env settings session user_id message
  = Ok (session_log (session_log session user_id "user" message)
                    user_id "assistant" "Done.",
        "Done.")
  /\ send_message env settings session user_id message
     = Raise (PyError "ValidationError").
Proof.
  intros H.
  assert (Hs : store_reply env settings session user_id message
               = Ok (session_log (session_log session user_id "user" message)
                                 user_id "assistant" "Done.",
                     "Done.")).
  { unfold store_reply, classify. cbv zeta. rewrite H. reflexivity. }
  split; [exact Hs|exact (send_message_return _ _ _ _ _ _ _ Hs)].
Qed.

(** X10 for a message that asks to complete the second todo. *)
Lemma status_by_ordinal_ignored_witness :
  store_reply env_down settings_no_key session3 1
              "mark the second todo as done"
  = Ok (session_log (session_log session3 1 "user"
                                 "mark the second todo as done")
                    1 "assistant" "Done.",
        "Done.")
  /\ send_message env_down settings_no_key session3 1
                  "mark the second todo as done"
     = Raise (PyError "ValidationError").
Proof.
  apply (status_by_ordinal_ignored env_down settings_no_key session3 1 _
           [("ordinal", VInt 2); ("mode", VStr "set"); ("completed", VNone)]).
  vm_compute. reflexivity.
Defined.

(* ----------------------------------------------------------------- *)
(** ** What the actions on local numbers do *)

Lemma ids_at_rows (U : list Todo.t) (sns : list Z) :
  exists rows,
    ids_at U sns = map Todo.id rows
    /\ Forall2 (names U) (filter (in_range U) sns) rows.
Proof.
  induction sns as [|n sns [rows [E F]]]; simpl.
  - exists []. split; [reflexivity|constructor].
  - unfold in_range at 1. destruct ((1 <=? n) && (n <=? len U)) eqn:Er.
    + apply andb_true_iff in Er. destruct Er as [H1 H2].
      apply Z.leb_le in H1. apply Z.leb_le in H2.
      destruct (item U (n - 1)) as [t|] eqn:Ei.
      * exists (t :: rows). simpl. rewrite E. split; [reflexivity|].
        constructor; [split; assumption|exact F].
      * exfalso. unfold item in Ei. apply nth_error_None in Ei.
        unfold len in H2. lia.
    + exists rows. split; assumption.
Qed.

Lemma Forall2_in_r_exists (A B : Type) (R : A -> B -> Prop) (l : list A)
      (l' : list B) (y : B) :
  Forall2 R l l' -> In y l' -> exists x, In x l /\ R x y.
Proof.
  induction 1 as [|x y' l l' Hxy _ IH]; intros Hin; [destruct Hin|].
  destruct Hin as [->|Hin].
  - exists x. split; [left; reflexivity|exact Hxy].
  - destruct (IH Hin) as [x' [Hx' Hr]]. exists x'. split; [right|]; assumption.
Qed.

Lemma Forall2_in_l_exists (A B : Type) (R : A -> B -> Prop) (l : list A)
      (l' : list B) (x : A) :
  Forall2 R l l' -> In x l -> exists y, In y l' /\ R x y.
Proof.
  induction 1 as [|x' y l l' Hxy _ IH]; intros Hin; [destruct Hin|].
  destruct Hin as [->|Hin].
  - exists y. split; [left; reflexivity|exact Hxy].
  - destruct (IH Hin) as [y' [Hy' Hr]]. exists y'. split; [right|]; assumption.
Qed.

Lemma names_In (U : list Todo.t) (n : Z) (t : Todo.t) :
  names U n t -> In t U.
Proof. intros [_ H]. eapply nth_error_In. exact H. Qed.

Lemma names_inj (U : list Todo.t) (n n' : Z) (t t' : Todo.t) :
  NoDup (map Todo.id U) -> names U n t -> names U n' t' ->
  Todo.id t = Todo.id t' -> n = n'.
Proof.
  intros Hnd [H1 Hi] [H1' Hi'] Hid. unfold item in Hi, Hi'.
  assert (Ht : t = t')
    by (eapply same_id_same_row; eauto using nth_error_In).
  subst t'.
  assert (Hlt : (Z.to_nat (n - 1) < List.length U)%nat)
    by (apply nth_error_Some; rewrite Hi; discriminate).
  assert (HU : NoDup U) by (eapply NoDup_map_inv; exact Hnd).
  assert (E : Z.to_nat (n - 1) = Z.to_nat (n' - 1)).
  { eapply (proj1 (NoDup_nth_error U) HU); [exact Hlt|].
    rewrite Hi, Hi'. reflexivity. }
  lia.
Qed.

Lemma rows_NoDup (U : list Todo.t) (ns : list Z) (rows : list Todo.t) :
  NoDup (map Todo.id U) -> NoDup ns -> Forall2 (names U) ns rows ->
  NoDup (map Todo.id rows).
Proof.
  intros HU Hns F. induction F as [|n t ns rows Hn F IH]; simpl;
    [constructor|].
  inversion Hns as [|? ? Hnot Hns']; subst.
  constructor; [|apply IH; exact Hns'].
  intros Hin. apply in_map_iff in Hin. destruct Hin as [t' [Hid Hin]].
  apply Hnot. clear IH Hnot Hns Hns'.
  induction F as [|n' t'' ns rows Hn' F IH]; [destruct Hin|].
  destruct Hin as [->|Hin]; [|right; apply IH; exact Hin].
  left. symmetry. eapply names_inj; eauto.
Qed.

Lemma rows_local (U : list Todo.t) (ns : list Z) (rows : list Todo.t) :
  NoDup (map Todo.id U) -> Forall2 (names U) ns rows ->
  map (fun t => match map_get (Todo.id t) (local_map U) with
                | Some n => n
                | None => -1
                end) rows = ns.
Proof.
  intros HU F. induction F as [|n t ns rows [H1 Hi] F IH]; simpl;
    [reflexivity|].
  rewrite IH. unfold item in Hi.
  rewrite (map_get_local_map U _ t HU Hi). f_equal. lia.
Qed.

Lemma sorted_lt_NoDup (l : list Z) : StronglySorted Z.lt l -> NoDup l.
Proof.
  induction 1 as [|x l _ IH Hx]; constructor; [|exact IH].
  intros Hin. rewrite Forall_forall in Hx. specialize (Hx x Hin). lia.
Qed.

Lemma with_todos_delete (s : Session) (t : Todo.t) (rows : list Todo.t) :
  with_todos (session_delete s t) rows = with_todos s rows.
Proof. reflexivity. Qed.

Lemma delete_rows_all (user_id : Z) (lm : list (Z * Z)) (rows : list Todo.t) :
  forall s acc,
    NoDup (map Todo.id (todos s)) -> NoDup (map Todo.id rows) ->
    (forall t, In t rows -> In t (todos s) /\ owned_by user_id t = true) ->
    delete_rows user_id lm s (map Todo.id rows) acc
    = (with_todos s
         (filter (fun r => negb (id_in (map Todo.id rows) r)) (todos s)),
       (acc ++ map (fun t => match map_get (Todo.id t) lm with
                             | Some n => n
                             | None => -1
                             end) rows)%list).
Proof.
  induction rows as [|t rows IH]; intros s acc Hnd Hr Hin; simpl.
  - rewrite app_nil_r. unfold id_in. simpl.
    rewrite filter_all by (apply Forall_forall; reflexivity).
    destruct s; reflexivity.
  - destruct (Hin t (or_introl eq_refl)) as [Ht Ho].
    rewrite (session_get_row s t Hnd Ht), Ho.
    inversion Hr as [|? ? Hnot Hr']; subst.
    rewrite IH.
    + rewrite with_todos_delete, <- app_assoc. f_equal. f_equal.
      unfold session_delete at 1. cbn [todos with_todos].
      rewrite <- filter_andb. apply filter_ext. intros r.
      unfold id_in. simpl. rewrite negb_orb. reflexivity.
    + apply session_delete_NoDup. exact Hnd.
    + exact Hr'.
    + intros t' Hin'. destruct (Hin t' (or_intror Hin')) as [Ht' Ho'].
      split; [|exact Ho'].
      unfold session_delete. cbn [todos with_todos].
      apply filter_In. split; [exact Ht'|].
      apply negb_true_iff. apply Z.eqb_neq. intros E.
      apply Hnot. rewrite <- E. apply in_map. exact Hin'.
Qed.

Lemma hits_positive (U : list Todo.t) (ns : list Z) :
  filter (fun x => 0 <? x) (hits U ns) = hits U ns.
Proof.
  apply filter_all. apply Forall_forall. intros n Hn.
  unfold hits in Hn. apply filter_In in Hn. destruct Hn as [_ Hn].
  unfold in_range in Hn. apply andb_true_iff in Hn. destruct Hn as [Hn _].
  apply Z.leb_le in Hn. apply Z.ltb_lt. lia.
Qed.

Lemma int_items_ints_eq (l : list Z) : int_items (map VInt l) = Ok l.
Proof.
  induction l as [|n l IH]; simpl; [reflexivity|].
  rewrite IH. reflexivity.
Qed.

Lemma hits_nil_resolve (session : Session) (user_id : Z) (ns : list Z) :
  hits (_get_user_todos session user_id) ns = [] ->
  _resolve_many_local_to_db_ids session user_id ns = [].
Proof.
  intros H. unfold _resolve_many_local_to_db_ids. cbv zeta.
  destruct (ids_at_rows (_get_user_todos session user_id) (sorted_set ns))
    as [rows [E F]].
  fold (hits (_get_user_todos session user_id) ns) in F.
  rewrite H in F. inversion F; subst. exact E.
Qed.

(** X11.  With distinct ids, [delete_many] deletes exactly the todos
    the given local numbers name in the list as it is before the
    action (every number is resolved before any row is deleted): the
    reply lists the numbers in range, the todo at index [i] of the old
    list remains if and only if [i + 1] is not among the numbers, the
    remaining todos keep their order, and the todos of the other users
    are untouched. *)
Theorem delete_many_effect (env : Env) (session : Session) (user_id : Z)
        (ns : list Z) :
  NoDup (map Todo.id (todos session)) ->
  let U := _get_user_todos session user_id in
  hits U ns <> [] ->
  exists session',
    apply_action env user_id session ("delete_many", [("local_nos", ints ns)])
    = Ok (session',
          [VStr (BIN ++ " Deleted todo(s): " ++ _human_list (hits U ns))])
    /\ _get_user_todos session' user_id
       = filter (fun t =>
                   negb (id_in (_resolve_many_local_to_db_ids session user_id
                                  ns) t)) U
    /\ (forall i t,
           nth_error U i = Some t ->
           (In t (_get_user_todos session' user_id)
            <-> ~ In (Z.of_nat i + 1) ns))
    /\ others user_id session' = others user_id session.
Proof.
  intros Hnd U Hh.
  pose proof (user_todos_NoDup session user_id Hnd) as HU. fold U in HU.
  destruct (ids_at_rows U (sorted_set ns)) as [rows [E F]].
  fold (hits U ns) in F.
  destruct rows as [|r rows'];
    [exfalso; inversion F as [Hnil|]; apply Hh; congruence|].
  set (rows := r :: rows') in *.
  assert (Er : _resolve_many_local_to_db_ids session user_id ns
               = map Todo.id rows) by exact E.
  assert (Hrows : forall t, In t rows ->
                            In t (todos session) /\ owned_by user_id t = true).
  { intros t Hin. apply user_todos_In. fold U.
    destruct (Forall2_in_r_exists _ _ _ _ _ _ F Hin) as [n [_ Hn]].
    exact (names_In _ _ _ Hn). }
  assert (Hns : NoDup (hits U ns)).
  { unfold hits. apply NoDup_filter. apply sorted_lt_NoDup.
    apply sorted_set_sorted. }
  pose proof (rows_NoDup U _ _ HU Hns F) as Hrd.
  set (session' :=
         with_todos session
           (filter (fun r => negb (id_in (map Todo.id rows) r))
                   (todos session))).
  assert (HU' : _get_user_todos session' user_id
                = filter (fun t => negb (id_in (map Todo.id rows) t)) U).
  { unfold U, _get_user_todos, session'. cbn [todos with_todos].
    rewrite filter_order_by. f_equal. apply filter_comm. }
  exists session'. split; [|split; [|split]].
  - unfold apply_action. cbn [String.eqb Ascii.eqb Bool.eqb].
    unfold action_delete_many, or_else, ints.
    cbn [get String.eqb Ascii.eqb Bool.eqb].
    destruct ns as [|n0 ns0];
      [exfalso; apply Hh; reflexivity|].
    cbn [map truthy negb int_list].
    change (VInt n0 :: map VInt ns0) with (map VInt (n0 :: ns0)).
    rewrite int_items_ints_eq. cbn [bind]. cbv zeta.
    fold U. rewrite Er.
    change (map Todo.id rows) with (Todo.id r :: map Todo.id rows') at 1.
    cbv iota.
    change (Todo.id r :: map Todo.id rows') with (map Todo.id rows).
    rewrite (delete_rows_all user_id (local_map U) rows session [] Hnd Hrd
               Hrows).
    cbn [app]. rewrite (rows_local U _ _ HU F), hits_positive.
    fold session'.
    destruct (hits U (n0 :: ns0)) eqn:Eh; [contradiction Hh; reflexivity|].
    reflexivity.
  - rewrite Er. exact HU'.
  - intros i t Hi. rewrite HU', filter_In, negb_true_iff.
    assert (Hin : In t U) by (eapply nth_error_In; exact Hi).
    assert (Hlt : (i < List.length U)%nat)
      by (apply nth_error_Some; rewrite Hi; discriminate).
    assert (Hname : names U (Z.of_nat i + 1) t).
    { split; [lia|]. unfold item.
      replace (Z.to_nat (Z.of_nat i + 1 - 1)) with i by lia. exact Hi. }
    split.
    + intros [_ Hnot] Hns'.
      assert (Hhit : In (Z.of_nat i + 1) (hits U ns)).
      { unfold hits. apply filter_In. split; [apply sorted_set_In; exact Hns'|].
        unfold in_range, len. apply andb_true_iff.
        split; apply Z.leb_le; lia. }
      destruct (Forall2_in_l_exists _ _ _ _ _ _ F Hhit) as [t' [Hin' Hn']].
      assert (t' = t).
      { destruct Hname as [_ H1], Hn' as [_ H2]. congruence. }
      subst t'.
      assert (Ht : id_in (map Todo.id rows) t = true).
      { unfold id_in. apply existsb_exists. exists (Todo.id t).
        split; [apply in_map; exact Hin'|apply Z.eqb_refl]. }
      congruence.
    + intros Hnot. split; [exact Hin|].
      destruct (id_in (map Todo.id rows) t) eqn:Eid; [|reflexivity].
      exfalso. apply Hnot. unfold id_in in Eid.
      apply existsb_exists in Eid. destruct Eid as [d [Hd Heq]].
      apply Z.eqb_eq in Heq. subst d.
      apply in_map_iff in Hd. destruct Hd as [t' [Hid Hin']].
      destruct (Forall2_in_r_exists _ _ _ _ _ _ F Hin') as [n [Hn Hn']].
      assert (n = Z.of_nat i + 1)
        by (eapply names_inj; [exact HU|exact Hn'|exact Hname|exact Hid]).
      subst n. unfold hits in Hn. apply filter_In in Hn.
      apply sorted_set_In. exact (proj1 Hn).
  - unfold others, session'. cbn [todos with_todos].
    rewrite filter_comm. apply filter_all. apply Forall_forall.
    intros x Hx. apply filter_In in Hx. destruct Hx as [Hx Ho].
    apply negb_true_iff. destruct (id_in (map Todo.id rows) x) eqn:Eid;
      [|reflexivity].
    exfalso. unfold id_in in Eid. apply existsb_exists in Eid.
    destruct Eid as [d [Hd Heq]]. apply Z.eqb_eq in Heq. subst d.
    apply in_map_iff in Hd. destruct Hd as [t' [Hid Hin']].
    destruct (Hrows t' Hin') as [Ht' Ho'].
    assert (t' = x) by exact (same_id_same_row _ _ _ Hnd Ht' Hx Hid).
    subst t'. rewrite Ho' in Ho. discriminate Ho.
Qed.

(** X11 at [session3]: user 1 deletes the todos 2 and 7 of three. *)
Lemma delete_many_effect_witness :
  exists session',
    apply_action env_down 1 session3
                 ("delete_many", [("local_nos", ints [2; 7])])
    = Ok (session', [VStr (BIN ++ " Deleted todo(s): 2")])
    /\ map Todo.id (_get_user_todos session' 1) = [2; 9].
Proof.
  destruct (delete_many_effect env_down session3 1 [2; 7]
              (proj1 session3_well_formed))
    as [session' [H1 [H2 _]]]; [vm_compute; discriminate|].
  exists session'. split; [exact H1|].
  rewrite H2. vm_compute. reflexivity.
Defined.

Lemma hits_none (U : list Todo.t) (ns : list Z) :
  (forall n, In n ns -> n < 1 \/ len U < n) -> hits U ns = [].
Proof.
  intros H. unfold hits. apply filter_none. apply Forall_forall.
  intros n Hn. apply (proj1 (sorted_set_In _ _)) in Hn. unfold in_range.
  destruct (H n Hn); [apply andb_false_iff; left|apply andb_false_iff; right];
    apply Z.leb_gt; lia.
Qed.

(** X12.  Local numbers that are all out of range (below 1 or above
    the number of todos of the user) match nothing: [details],
    [complete_many], [toggle_many] and [delete_many] each reply that no
    matching todos were found, and leave the table as it is. *)
Theorem out_of_range_no_match (env : Env) (session : Session) (user_id : Z)
        (ns : list Z) (p : payload) :
  ns <> [] ->
  (forall n, In n ns ->
             n < 1 \/ len (_get_user_todos session user_id) < n) ->
  get "local_nos" p = ints ns ->
  as_int (get "ordinal" p) = None ->
  let none := Ok (session, [VStr "No matching todos found."]) in
  apply_action env user_id session ("details", p) = none
  /\ apply_action env user_id session ("complete_many", p) = none
  /\ apply_action env user_id session ("toggle_many", p) = none
  /\ apply_action env user_id session ("delete_many", p) = none.
Proof.
  intros Hne Hout Hp Ho none.
  pose proof (hits_nil_resolve session user_id ns (hits_none _ _ Hout)) as Hr.
  assert (Ht : truthy (ints ns) = true) by (destruct ns; [congruence|reflexivity]).
  assert (Hi : int_list (ints ns) = Ok ns) by apply int_items_ints_eq.
  unfold apply_action. cbn [String.eqb Ascii.eqb Bool.eqb].
  unfold action_details, action_complete_many, action_toggle_many,
    action_delete_many, or_else.
  rewrite Hp, Ho. repeat rewrite Ht. repeat rewrite Hi.
  cbn [negb bind]. cbv zeta. rewrite Hr.
  repeat split; reflexivity.
Qed.

(** X12 at [session3], where user 1 has three todos. *)
Lemma out_of_range_no_match_witness :
  apply_action env_down 1 session3
               ("delete_many", [("local_nos", ints [0; 4; 12])])
  = Ok (session3, [VStr "No matching todos found."]).
Proof.
  apply (out_of_range_no_match env_down session3 1 [0; 4; 12]
           [("local_nos", ints [0; 4; 12])]).
  - discriminate.
  - vm_compute. intros n [<-|[<-|[<-|[]]]]; [left|right|right]; reflexivity.
  - reflexivity.
  - reflexivity.
Defined.

Lemma insert_by_map (g : Todo.t -> Todo.t) (x : Todo.t) (l : list Todo.t) :
  (forall y, Todo.id (g y) = Todo.id y) ->
  insert_by Todo.id false (g x) (map g l)
  = map g (insert_by Todo.id false x l).
Proof.
  intros Hg. induction l as [|y l IH]; simpl; [reflexivity|].
  rewrite !Hg. destruct (Todo.id x <=? Todo.id y); simpl; [reflexivity|].
  rewrite IH. reflexivity.
Qed.

Lemma order_by_map (g : Todo.t -> Todo.t) (l : list Todo.t) :
  (forall y, Todo.id (g y) = Todo.id y) ->
  order_by Todo.id false (map g l) = map g (order_by Todo.id false l).
Proof.
  intros Hg. induction l as [|x l IH]; simpl; [reflexivity|].
  rewrite IH. apply insert_by_map. exact Hg.
Qed.

Lemma filter_map_same (A : Type) (p : A -> bool) (g : A -> A) (l : list A) :
  (forall y, p (g y) = p y) -> filter p (map g l) = map g (filter p l).
Proof.
  intros Hg. induction l as [|x l IH]; simpl; [reflexivity|].
  rewrite Hg, IH. destruct (p x); reflexivity.
Qed.

Lemma with_todos_update (s : Session) (t : Todo.t) (rows : list Todo.t) :
  with_todos (session_update s t) rows = with_todos s rows.
Proof. reflexivity. Qed.

Lemma id_in_iff (ids : list Z) (t : Todo.t) :
  id_in ids t = true <-> In (Todo.id t) ids.
Proof.
  unfold id_in. rewrite existsb_exists. split.
  - intros [d [Hd E]]. apply Z.eqb_eq in E. subst d. exact Hd.
  - intros H. exists (Todo.id t). split; [exact H|apply Z.eqb_refl].
Qed.

Lemma set_status_all (user_id : Z) (f : Todo.t -> bool)
      (rows : list Todo.t) :
  forall s acc,
    NoDup (map Todo.id (todos s)) -> NoDup (map Todo.id rows) ->
    (forall t, In t rows -> In t (todos s) /\ owned_by user_id t = true) ->
    set_status user_id f s (map Todo.id rows) acc
    = (with_todos s
         (map (fun r => if id_in (map Todo.id rows) r then with_status f r
                        else r) (todos s)),
       (acc ++ map (with_status f) rows)%list).
Proof.
  induction rows as [|t rows IH]; intros s acc Hnd Hr Hin.
  - simpl. rewrite app_nil_r. unfold id_in. simpl. rewrite map_id.
    destruct s; reflexivity.
  - cbn [map set_status].
    destruct (Hin t (or_introl eq_refl)) as [Ht Ho].
    rewrite (session_get_row s t Hnd Ht), Ho.
    inversion Hr as [|? ? Hnot Hr']; subst.
    fold (with_status f t). rewrite IH.
    + rewrite with_todos_update, <- app_assoc. f_equal. f_equal.
      unfold session_update at 1. cbn [todos with_todos].
      rewrite map_map. apply map_ext_in. intros r Hr0.
      change (Todo.id (with_status f t)) with (Todo.id t).
      unfold id_in at 2. cbn [existsb].
      destruct (Z.eqb_spec (Todo.id r) (Todo.id t)) as [E|E]; cbn [orb].
      * assert (r = t) by exact (same_id_same_row _ _ _ Hnd Hr0 Ht E).
        subst r.
        destruct (id_in (map Todo.id rows) (with_status f t)) eqn:Ei;
          [|reflexivity].
        apply id_in_iff in Ei. contradiction.
      * reflexivity.
    + rewrite session_update_ids. exact Hnd.
    + exact Hr'.
    + intros t' Hin'. destruct (Hin t' (or_intror Hin')) as [Ht' Ho'].
      split; [|exact Ho'].
      unfold session_update. cbn [todos with_todos].
      apply in_map_iff. exists t'. split; [|exact Ht'].
      destruct (Z.eqb_spec (Todo.id t') (Todo.id (with_status f t)))
        as [E|_]; [|reflexivity].
      exfalso. apply Hnot. change (Todo.id (with_status f t)) with (Todo.id t) in E.
      rewrite <- E. apply in_map. exact Hin'.
Qed.

(** What a status loop over the numbers [ns] leaves, in a table with
    distinct ids. *)
Lemma status_effect (user_id : Z) (f : Todo.t -> bool) (session : Session)
      (ns : list Z) :
  NoDup (map Todo.id (todos session)) ->
  let U := _get_user_todos session user_id in
  let db_ids := _resolve_many_local_to_db_ids session user_id ns in
  exists rows,
    db_ids = map Todo.id rows
    /\ Forall2 (names U) (hits U ns) rows
    /\ set_status user_id f session db_ids []
       = (with_todos session
            (map (fun r => if id_in db_ids r then with_status f r else r)
                 (todos session)),
          map (with_status f) rows).
Proof.
  intros Hnd U db_ids.
  pose proof (user_todos_NoDup session user_id Hnd) as HU. fold U in HU.
  destruct (ids_at_rows U (sorted_set ns)) as [rows [E F]].
  fold (hits U ns) in F.
  assert (Er : db_ids = map Todo.id rows) by exact E.
  exists rows. split; [exact Er|]. split; [exact F|].
  rewrite Er. apply set_status_all; [exact Hnd| |].
  - apply (rows_NoDup U (hits U ns)); [exact HU| |exact F].
    unfold hits. apply NoDup_filter. apply sorted_lt_NoDup.
    apply sorted_set_sorted.
  - intros t Hin. apply user_todos_In. fold U.
    destruct (Forall2_in_r_exists _ _ _ _ _ _ F Hin) as [n [_ Hn]].
    exact (names_In _ _ _ Hn).
Qed.

Lemma status_user_todos (user_id : Z) (f : Todo.t -> bool)
      (session : Session) (db_ids : list Z) :
  _get_user_todos
    (with_todos session
       (map (fun r => if id_in db_ids r then with_status f r else r)
            (todos session))) user_id
  = map (fun r => if id_in db_ids r then with_status f r else r)
        (_get_user_todos session user_id).
Proof.
  unfold _get_user_todos. cbn [todos with_todos].
  rewrite filter_map_same, order_by_map; [reflexivity| |];
    intros y; destruct (id_in db_ids y); reflexivity.
Qed.

Lemma status_others (user_id : Z) (f : Todo.t -> bool) (session : Session)
      (rows : list Todo.t) :
  (forall t, In t rows -> In t (todos session) /\ owned_by user_id t = true) ->
  NoDup (map Todo.id (todos session)) ->
  others user_id
    (with_todos session
       (map (fun r => if id_in (map Todo.id rows) r then with_status f r
                      else r) (todos session)))
  = others user_id session.
Proof.
  intros Hrows Hnd. unfold others. cbn [todos with_todos].
  rewrite filter_map_same
    by (intros y; destruct (id_in _ y); reflexivity).
  rewrite <- (map_id (filter _ (todos session))) at 2.
  apply map_ext_in. intros r Hr. apply filter_In in Hr.
  destruct Hr as [Hr Ho].
  destruct (id_in (map Todo.id rows) r) eqn:Ei; [|reflexivity].
  exfalso. apply id_in_iff in Ei. apply in_map_iff in Ei.
  destruct Ei as [t [Hid Hin]]. destruct (Hrows t Hin) as [Ht Ho'].
  assert (t = r) by exact (same_id_same_row _ _ _ Hnd Ht Hr Hid).
  subst t. rewrite Ho' in Ho. discriminate Ho.
Qed.

Lemma status_position (U : list Todo.t) (ns : list Z) (rows : list Todo.t)
      (i : nat) (t : Todo.t) :
  NoDup (map Todo.id U) -> Forall2 (names U) (hits U ns) rows ->
  nth_error U i = Some t ->
  id_in (map Todo.id rows) t = listed ns (Z.of_nat i + 1).
Proof.
  intros HU F Hi.
  assert (Hlt : (i < List.length U)%nat)
    by (apply nth_error_Some; rewrite Hi; discriminate).
  assert (Hname : names U (Z.of_nat i + 1) t).
  { split; [lia|]. unfold item.
    replace (Z.to_nat (Z.of_nat i + 1 - 1)) with i by lia. exact Hi. }
  apply eq_true_iff_eq. rewrite id_in_iff. unfold listed.
  rewrite existsb_exists. split.
  - intros Hin. apply in_map_iff in Hin. destruct Hin as [t' [Hid Hin]].
    destruct (Forall2_in_r_exists _ _ _ _ _ _ F Hin) as [n [Hn Hn']].
    assert (n = Z.of_nat i + 1)
      by (eapply names_inj; [exact HU|exact Hn'|exact Hname|exact Hid]).
    subst n. exists (Z.of_nat i + 1). split; [|apply Z.eqb_refl].
    unfold hits in Hn. apply filter_In in Hn.
    apply sorted_set_In. exact (proj1 Hn).
  - intros [n [Hn E]]. apply Z.eqb_eq in E. subst n.
    assert (Hhit : In (Z.of_nat i + 1) (hits U ns)).
    { unfold hits. apply filter_In. split; [apply sorted_set_In; exact Hn|].
      unfold in_range, len. apply andb_true_iff.
      split; apply Z.leb_le; lia. }
    destruct (Forall2_in_l_exists _ _ _ _ _ _ F Hhit) as [t' [Hin' Hn']].
    assert (t' = t).
    { destruct Hname as [_ H1], Hn' as [_ H2]. congruence. }
    subst t'. apply in_map. exact Hin'.
Qed.

Lemma nth_error_map_some (A B : Type) (g : A -> B) (l : list A) (i : nat)
      (x : A) :
  nth_error l i = Some x -> nth_error (map g l) i = Some (g x).
Proof. intros H. rewrite nth_error_map, H. reflexivity. Qed.

(** X13.  With distinct ids, [complete_many] sets the status of
    exactly the todos the given local numbers name: the todo at index
    [i] of the list of the user gets the requested status if [i + 1]
    is among the numbers and is unchanged otherwise, the list keeps
    its order and length (so the local numbers stay the same), the
    rows reported are the resolved ones, and the todos of the other
    users are untouched. *)
Theorem complete_many_effect (env : Env) (session : Session) (user_id : Z)
        (ns : list Z) (b : bool) :
  NoDup (map Todo.id (todos session)) ->
  let U := _get_user_todos session user_id in
  hits U ns <> [] ->
  exists session' changed,
    apply_action env user_id session
                 ("complete_many",
                  [("local_nos", ints ns); ("completed", VBool b)])
    = Ok (session',
          [VStr (CHECK ++ " Updated status:" ++ NL
                 ++ format_todos_for_user session' user_id changed)])
    /\ map Todo.id changed
       = _resolve_many_local_to_db_ids session user_id ns
    /\ Forall (fun t => Todo.completed t = b) changed
    /\ (forall i t,
           nth_error U i = Some t ->
           nth_error (_get_user_todos session' user_id) i
           = Some (if listed ns (Z.of_nat i + 1)
                   then with_status (fun _ => b) t else t))
    /\ len (_get_user_todos session' user_id) = len U
    /\ others user_id session' = others user_id session.
Proof.
  intros Hnd U Hh.
  pose proof (user_todos_NoDup session user_id Hnd) as HU. fold U in HU.
  destruct (status_effect user_id (fun _ => b) session ns Hnd)
    as [rows [Er [F Es]]].
  fold U in F.
  set (db_ids := _resolve_many_local_to_db_ids session user_id ns) in *.
  set (session' :=
         with_todos session
           (map (fun r => if id_in db_ids r
                          then with_status (fun _ => b) r else r)
                (todos session))) in *.
  assert (HU' : _get_user_todos session' user_id
                = map (fun r => if id_in db_ids r
                                then with_status (fun _ => b) r else r) U)
    by apply status_user_todos.
  exists session', (map (with_status (fun _ => b)) rows).
  split; [|split; [|split; [|split; [|split]]]].
  - unfold apply_action. cbn [String.eqb Ascii.eqb Bool.eqb].
    unfold action_complete_many, or_else, ints.
    cbn [get get_default String.eqb Ascii.eqb Bool.eqb].
    destruct ns as [|n0 ns0]; [exfalso; apply Hh; reflexivity|].
    cbn [map truthy negb int_list].
    change (VInt n0 :: map VInt ns0) with (map VInt (n0 :: ns0)).
    rewrite int_items_ints_eq. cbn [bind]. cbv zeta.
    fold db_ids.
    destruct db_ids as [|d ds] eqn:Ed.
    { exfalso. destruct rows; [|discriminate Er].
      inversion F as [Hnil|]. apply Hh. congruence. }
    rewrite Es. reflexivity.
  - rewrite map_map. rewrite Er. apply map_ext. reflexivity.
  - apply Forall_forall. intros t Ht. apply in_map_iff in Ht.
    destruct Ht as [t' [<- _]]. reflexivity.
  - intros i t Hi. rewrite HU'.
    rewrite (nth_error_map_some _ _ _ _ _ _ Hi). f_equal.
    rewrite Er, (status_position U ns rows i t HU F Hi). reflexivity.
  - rewrite HU'. unfold len. rewrite length_map. reflexivity.
  - unfold session'. rewrite Er. apply status_others; [|exact Hnd].
    intros t Hin. apply user_todos_In. fold U.
    destruct (Forall2_in_r_exists _ _ _ _ _ _ F Hin) as [n [_ Hn]].
    exact (names_In _ _ _ Hn).
Qed.

(** X13 at [session3]: user 1 reopens the todo 1 and marks nothing
    else. *)
Lemma complete_many_effect_witness :
  exists session',
    map Todo.completed (_get_user_todos session3 1) = [true; false; false]
    /\ fst (match apply_action env_down 1 session3
                    ("complete_many",
                     [("local_nos", ints [1]); ("completed", VBool false)])
            with
            | Ok r => r
            | Raise _ => (session3, [])
            end) = session'
    /\ map Todo.completed (_get_user_todos session' 1)
       = [false; false; false].
Proof.
  destruct (complete_many_effect env_down session3 1 [1] false
              (proj1 session3_well_formed))
    as [session' [changed [H1 _]]]; [vm_compute; discriminate|].
  exists session'. split; [reflexivity|].
  rewrite H1. split; [reflexivity|].
  vm_compute in H1. injection H1 as <- _. reflexivity.
Defined.

Lemma ids_at_same (U U' : list Todo.t) (sns : list Z) :
  map Todo.id U' = map Todo.id U -> ids_at U' sns = ids_at U sns.
Proof.
  intros E.
  assert (Hlen : len U' = len U).
  { unfold len. f_equal.
    rewrite <- (length_map Todo.id U'), E. apply length_map. }
  induction sns as [|n sns IH]; simpl; [reflexivity|].
  rewrite Hlen, IH.
  assert (Hi : option_map Todo.id (item U' (n - 1))
               = option_map Todo.id (item U (n - 1))).
  { unfold item. rewrite <- !nth_error_map, E. reflexivity. }
  destruct (item U' (n - 1)), (item U (n - 1)); simpl in Hi;
    try discriminate Hi; [injection Hi as ->|]; reflexivity.
Qed.

Lemma flipped_twice (t : Todo.t) :
  with_status flipped (with_status flipped t) = t.
Proof.
  destruct t as [i u ti d c]. unfold with_status, flipped. cbn.
  rewrite negb_involutive. reflexivity.
Qed.

Lemma with_todos_same (s : Session) : with_todos s (todos s) = s.
Proof. destruct s; reflexivity. Qed.

Lemma toggle_many_step (env : Env) (session : Session) (user_id : Z)
      (ns : list Z) :
  NoDup (map Todo.id (todos session)) ->
  let db_ids := _resolve_many_local_to_db_ids session user_id ns in
  exists replies,
    apply_action env user_id session (toggle ns)
    = Ok (with_todos session
            (map (fun r => if id_in db_ids r then with_status flipped r
                           else r) (todos session)),
          replies).
Proof.
  intros Hnd db_ids.
  destruct (status_effect user_id flipped session ns Hnd)
    as [rows [Er [F Es]]].
  fold db_ids in Er, Es.
  unfold toggle, apply_action. cbn [String.eqb Ascii.eqb Bool.eqb].
  unfold action_toggle_many, or_else, ints.
  cbn [get String.eqb Ascii.eqb Bool.eqb].
  assert (Hsame : forall l, l = [] ->
            with_todos session
              (map (fun r => if id_in l r then with_status flipped r else r)
                   (todos session)) = session).
  { intros l ->. unfold id_in. cbn [existsb]. rewrite map_id.
    apply with_todos_same. }
  destruct ns as [|n0 ns0].
  - cbn [map truthy negb]. eexists. unfold say. f_equal. f_equal.
    symmetry. apply Hsame. reflexivity.
  - cbn [map truthy negb int_list].
    change (VInt n0 :: map VInt ns0) with (map VInt (n0 :: ns0)).
    rewrite int_items_ints_eq. cbn [bind]. fold db_ids.
    destruct db_ids as [|d ds] eqn:Ed.
    + eexists. unfold say. f_equal. f_equal. symmetry. apply Hsame.
      reflexivity.
    + change (fun t : Todo.t => negb (Todo.completed t)) with flipped.
      rewrite Es. eexists. reflexivity.
Qed.

(** X14.  With distinct ids, toggling the same local numbers twice
    restores the table: the second [toggle_many] resolves the numbers
    to the same todos and flips each of them back, whatever the
    numbers are (in range or not, repeated or not). *)
Theorem toggle_many_twice (env : Env) (session : Session) (user_id : Z)
        (ns : list Z) :
  NoDup (map Todo.id (todos session)) ->
  exists replies,
    apply_actions env user_id session [toggle ns; toggle ns]
    = Ok (session, replies).
Proof.
  intros Hnd.
  destruct (toggle_many_step env session user_id ns Hnd) as [r1 E1].
  set (db_ids := _resolve_many_local_to_db_ids session user_id ns) in *.
  set (g := fun r => if id_in db_ids r then with_status flipped r else r)
    in *.
  set (session1 := with_todos session (map g (todos session))) in *.
  assert (Hg : forall y, Todo.id (g y) = Todo.id y)
    by (intros y; unfold g; destruct (id_in db_ids y); reflexivity).
  assert (Hids : map Todo.id (todos session1) = map Todo.id (todos session)).
  { unfold session1. cbn [todos with_todos]. rewrite map_map.
    apply map_ext. exact Hg. }
  assert (Hnd1 : NoDup (map Todo.id (todos session1)))
    by (rewrite Hids; exact Hnd).
  destruct (toggle_many_step env session1 user_id ns Hnd1) as [r2 E2].
  assert (Hdb : _resolve_many_local_to_db_ids session1 user_id ns = db_ids).
  { unfold db_ids, _resolve_many_local_to_db_ids. cbv zeta.
    apply ids_at_same. unfold session1, g.
    rewrite (status_user_todos user_id flipped session db_ids).
    rewrite map_map. apply map_ext. exact Hg. }
  rewrite Hdb in E2. fold g in E2.
  exists (r1 ++ r2 ++ [])%list.
  cbn [apply_actions]. unfold bind. rewrite E1, E2.
  f_equal. f_equal.
  unfold session1 at 2. cbn [todos with_todos]. rewrite map_map.
  rewrite (map_ext _ (fun r => r)), map_id.
  - unfold session1. destruct session; reflexivity.
  - intros r. unfold g. destruct (id_in db_ids r) eqn:Ei.
    + change (id_in db_ids (with_status flipped r)) with (id_in db_ids r).
      rewrite Ei. apply flipped_twice.
    + rewrite Ei. reflexivity.
Qed.

(** X14 at [session3]: user 1 toggles the todos 1 and 3 twice. *)
Lemma toggle_many_twice_witness :
  exists replies,
    apply_actions env_down 1 session3 [toggle [1; 3]; toggle [1; 3]]
    = Ok (session3, replies).
Proof.
  exact (toggle_many_twice env_down session3 1 [1; 3]
           (proj1 session3_well_formed)).
Defined.

(* ----------------------------------------------------------------- *)
(** ** Bulk actions *)

Lemma fold_delete_todos (tds : list Todo.t) :
  forall s,
    fold_left session_delete tds s
    = with_todos s
        (filter (fun r => negb (id_in (map Todo.id tds) r)) (todos s)).
Proof.
  induction tds as [|t tds IH]; intros s; simpl.
  - unfold id_in. simpl.
    rewrite filter_all by (apply Forall_forall; reflexivity).
    symmetry. apply with_todos_same.
  - rewrite IH, with_todos_delete. f_equal.
    unfold session_delete. cbn [todos with_todos].
    rewrite <- filter_andb. apply filter_ext. intros r.
    unfold id_in. simpl. rewrite negb_orb. reflexivity.
Qed.

Lemma user_todos_without (session : Session) (user_id : Z) (ids : list Z) :
  _get_user_todos
    (with_todos session
       (filter (fun r => negb (id_in ids r)) (todos session))) user_id
  = filter (fun r => negb (id_in ids r)) (_get_user_todos session user_id).
Proof.
  unfold _get_user_todos. cbn [todos with_todos].
  rewrite filter_order_by. f_equal. apply filter_comm.
Qed.

Lemma others_without (session : Session) (user_id : Z) (tds : list Todo.t) :
  NoDup (map Todo.id (todos session)) ->
  (forall t, In t tds -> In t (todos session) /\ owned_by user_id t = true) ->
  others user_id
    (with_todos session
       (filter (fun r => negb (id_in (map Todo.id tds) r)) (todos session)))
  = others user_id session.
Proof.
  intros Hnd Hrows. unfold others. cbn [todos with_todos].
  rewrite filter_comm. apply filter_all. apply Forall_forall.
  intros x Hx. apply filter_In in Hx. destruct Hx as [Hx Ho].
  apply negb_true_iff. destruct (id_in (map Todo.id tds) x) eqn:Eid;
    [|reflexivity].
  exfalso. apply id_in_iff in Eid. apply in_map_iff in Eid.
  destruct Eid as [t' [Hid Hin']]. destruct (Hrows t' Hin') as [Ht' Ho'].
  assert (t' = x) by exact (same_id_same_row _ _ _ Hnd Ht' Hx Hid).
  subst t'. rewrite Ho' in Ho. discriminate Ho.
Qed.

Lemma filter_ext_in_bool (A : Type) (f g : A -> bool) (l : list A) :
  (forall x, In x l -> f x = g x) -> filter f l = filter g l.
Proof.
  induction l as [|x l IH]; intros H; simpl; [reflexivity|].
  rewrite (H x (or_introl eq_refl)), IH; [reflexivity|].
  intros y Hy. apply H. right. exact Hy.
Qed.

(** X15.  With distinct ids, [delete_filtered] removes exactly the
    todos of the user that the filter selects, the completed ones or
    the pending ones, and keeps the others in their order; any other
    filter value selects every todo of the user.  The reply gives the
    number of todos deleted, or says that there were none; the todos
    of the other users are untouched. *)
Theorem delete_filtered_effect (env : Env) (session : Session) (user_id : Z)
        (flt : string) :
  NoDup (map Todo.id (todos session)) ->
  let U := _get_user_todos session user_id in
  let k := len (filter (selected flt) U) in
  exists session',
    apply_action env user_id session
                 ("delete_filtered", [("filter", VStr flt)])
    = Ok (session',
          [VStr (if k =? 0 then "No " ++ flt ++ " todos to delete."
                 else BIN ++ " Deleted all " ++ flt ++ " todos ("
                      ++ Py.str k ++ ").")])
    /\ _get_user_todos session' user_id
       = filter (fun t => negb (selected flt t)) U
    /\ others user_id session' = others user_id session.
Proof.
  intros Hnd U k.
  set (tds := filter (selected flt) (filter (owned_by user_id)
                                            (todos session))).
  assert (Hrows : forall t, In t tds ->
                            In t (todos session) /\ owned_by user_id t = true).
  { intros t Hin. unfold tds in Hin. apply filter_In in Hin.
    destruct Hin as [Hin _]. apply filter_In in Hin. exact Hin. }
  assert (Hk : len tds = k).
  { unfold k, U, _get_user_todos, tds, len. f_equal.
    rewrite filter_order_by. symmetry. apply Permutation_length.
    apply order_by_perm. }
  assert (Hact : apply_action env user_id session
                   ("delete_filtered", [("filter", VStr flt)])
                 = match tds with
                   | [] => say session ("No " ++ flt ++ " todos to delete.")
                   | _ =>
                       say (fold_left session_delete tds session)
                           (BIN ++ " Deleted all " ++ flt ++ " todos ("
                            ++ Py.str (len tds) ++ ").")
                   end).
  { unfold apply_action. cbn [String.eqb Ascii.eqb Bool.eqb].
    unfold action_delete_filtered.
    cbn [get_default String.eqb Ascii.eqb Bool.eqb py_str bind is_str].
    cbv zeta. unfold tds, selected.
    destruct (String.eqb flt "completed"); [reflexivity|].
    destruct (String.eqb flt "pending").
    - reflexivity.
    - rewrite (filter_all _ (fun _ => true))
        by (apply Forall_forall; reflexivity).
      reflexivity. }
  assert (Hsel : forall t, In t U ->
                           negb (id_in (map Todo.id tds) t)
                           = negb (selected flt t)).
  { intros t Hin. f_equal. apply user_todos_In in Hin.
    destruct Hin as [Hin Ho]. apply eq_true_iff_eq. rewrite id_in_iff.
    split.
    - intros Hid. apply in_map_iff in Hid. destruct Hid as [t' [Hid Hin']].
      assert (t' = t)
        by exact (same_id_same_row _ _ _ Hnd (proj1 (Hrows t' Hin')) Hin Hid).
      subst t'. unfold tds in Hin'. apply filter_In in Hin'. tauto.
    - intros Hs. apply in_map. unfold tds. apply filter_In.
      split; [apply filter_In; split; assumption|exact Hs]. }
  exists (fold_left session_delete tds session).
  split; [|split].
  - rewrite Hact, <- Hk. destruct tds as [|t tds']; [reflexivity|].
    unfold len. simpl List.length. rewrite Nat2Z.inj_succ.
    destruct (Z.eqb_spec (Z.succ (Z.of_nat (List.length tds'))) 0) as [E|_];
      [lia|]. reflexivity.
  - rewrite fold_delete_todos, user_todos_without.
    apply filter_ext_in_bool. exact Hsel.
  - rewrite fold_delete_todos. apply others_without; assumption.
Qed.

(** X15 at [session3]: user 1 deletes the completed todos, one of
    three. *)
Lemma delete_filtered_effect_witness :
  exists session',
    apply_action env_down 1 session3
                 ("delete_filtered", [("filter", VStr "completed")])
    = Ok (session', [VStr (BIN ++ " Deleted all completed todos (1).")])
    /\ map Todo.id (_get_user_todos session' 1) = [5; 9].
Proof.
  destruct (delete_filtered_effect env_down session3 1 "completed"
              (proj1 session3_well_formed)) as [session' [H1 [H2 _]]].
  exists session'. split; [exact H1|].
  rewrite H2. vm_compute. reflexivity.
Defined.

(** X16.  [delete_all] leaves the user without a todo and the table
    with exactly the rows of the other users, in their order; a list
    action after it in the same message finds nothing.  This holds in
    every table. *)
Theorem delete_all_effect (env : Env) (session : Session) (user_id : Z) :
  exists session',
    apply_actions env user_id session [("delete_all", []); show_all]
    = Ok (session',
          [VStr (BIN ++ " Deleted all todos."); VStr "No todos found."])
    /\ todos session' = others user_id session
    /\ _get_user_todos session' user_id = []
    /\ others user_id session' = others user_id session.
Proof.
  set (session' :=
         with_todos session
           (filter (fun t => negb (owned_by user_id t)) (todos session))).
  assert (Hq : filter (owned_by user_id) (todos session') = []).
  { unfold session'. cbn [todos with_todos]. apply filter_none.
    apply Forall_forall. intros t Ht. apply filter_In in Ht.
    destruct Ht as [_ Ht]. apply negb_true_iff. exact Ht. }
  exists session'. split; [|split; [|split]].
  - cbn [apply_actions]. unfold apply_action at 1.
    cbn [String.eqb Ascii.eqb Bool.eqb]. unfold action_delete_all, say.
    cbn [bind]. fold session'.
    unfold show_all, apply_action. cbn [String.eqb Ascii.eqb Bool.eqb].
    unfold action_list.
    cbn [get get_default String.eqb Ascii.eqb Bool.eqb truthy as_int].
    cbv zeta. rewrite Hq. reflexivity.
  - reflexivity.
  - unfold _get_user_todos. rewrite Hq. reflexivity.
  - unfold others, session'. cbn [todos with_todos].
    apply filter_all. apply Forall_forall. intros t Ht.
    apply filter_In in Ht. exact (proj2 Ht).
Qed.

(** X17.  [complete_all] gives every todo of the user the requested
    status and changes nothing else of it: the list of the user is
    the old one with the status set, in the same order, and the todos
    of the other users are untouched.  This holds in every table. *)
Theorem complete_all_effect (env : Env) (session : Session) (user_id : Z)
        (b : bool) :
  exists session',
    apply_action env user_id session
                 ("complete_all", [("completed", VBool b)])
    = Ok (session',
          [VStr (CHECK ++ " Marked all todos as "
                 ++ (if b then "completed" else "pending") ++ ".")])
    /\ _get_user_todos session' user_id
       = map (with_status (fun _ => b)) (_get_user_todos session user_id)
    /\ others user_id session' = others user_id session.
Proof.
  set (g := fun t => if owned_by user_id t then with_status (fun _ => b) t
                     else t).
  exists (with_todos session (map g (todos session))).
  split; [|split].
  - reflexivity.
  - unfold _get_user_todos. cbn [todos with_todos].
    rewrite filter_map_same
      by (intros y; unfold g; destruct (owned_by user_id y) eqn:E;
          [exact E|exact E]).
    rewrite order_by_map
      by (intros y; unfold g; destruct (owned_by user_id y); reflexivity).
    rewrite <- filter_order_by. apply map_ext_in. intros t Ht.
    apply filter_In in Ht. unfold g. rewrite (proj2 Ht). reflexivity.
  - unfold others. cbn [todos with_todos].
    rewrite filter_map_same
      by (intros y; unfold g; destruct (owned_by user_id y) eqn:E;
          [unfold owned_by in *; cbn [with_status Todo.user_id]; rewrite E|
           rewrite E]; reflexivity).
    rewrite <- (map_id (filter _ (todos session))) at 2.
    apply map_ext_in. intros t Ht. apply filter_In in Ht.
    unfold g. destruct (owned_by user_id t); [|reflexivity].
    destruct Ht as [_ Ht]. discriminate Ht.
Qed.

(* ----------------------------------------------------------------- *)
(** ** Patching rows *)

Lemma mapped_user_todos (user_id : Z) (g : Todo.t -> Todo.t)
      (session : Session) :
  (forall y, Todo.id (g y) = Todo.id y) ->
  (forall y, Todo.user_id (g y) = Todo.user_id y) ->
  _get_user_todos (with_todos session (map g (todos session))) user_id
  = map g (_get_user_todos session user_id).
Proof.
  intros Hid Hu. unfold _get_user_todos. cbn [todos with_todos].
  rewrite filter_map_same, order_by_map; [reflexivity|exact Hid|].
  intros y. unfold owned_by. rewrite Hu. reflexivity.
Qed.

Lemma mapped_others (user_id : Z) (g : Todo.t -> Todo.t) (session : Session) :
  (forall y, Todo.user_id (g y) = Todo.user_id y) ->
  (forall y, In y (todos session) -> owned_by user_id y = false -> g y = y) ->
  others user_id (with_todos session (map g (todos session)))
  = others user_id session.
Proof.
  intros Hu Hg. unfold others. cbn [todos with_todos].
  rewrite filter_map_same
    by (intros y; unfold owned_by; rewrite Hu; reflexivity).
  rewrite <- (map_id (filter _ (todos session))) at 2.
  apply map_ext_in. intros r Hr. apply filter_In in Hr.
  destruct Hr as [Hr Ho]. apply Hg; [exact Hr|].
  apply negb_true_iff. exact Ho.
Qed.

Lemma patch_rows_all (user_id : Z) (title desc : option string)
      (completed : option bool) (rows : list Todo.t) :
  forall s acc,
    NoDup (map Todo.id (todos s)) -> NoDup (map Todo.id rows) ->
    (forall t, In t rows -> In t (todos s) /\ owned_by user_id t = true) ->
    patch_rows user_id s (map Todo.id rows) (opt_str title) (opt_str desc)
               (opt_bool completed) acc
    = Ok (with_todos s
            (map (fun r => if id_in (map Todo.id rows) r
                           then patched title desc completed r else r)
                 (todos s)),
          (acc ++ map (patched title desc completed) rows)%list).
Proof.
  induction rows as [|t rows IH]; intros s acc Hnd Hr Hin.
  - simpl. rewrite app_nil_r. unfold id_in. simpl. rewrite map_id.
    destruct s; reflexivity.
  - cbn [map patch_rows].
    destruct (Hin t (or_introl eq_refl)) as [Ht Ho].
    rewrite (session_get_row s t Hnd Ht), Ho.
    inversion Hr as [|? ? Hnot Hr']; subst.
    assert (Hstep :
              forall T, T = patched title desc completed t ->
                patch_rows user_id (session_update s T) (map Todo.id rows)
                           (opt_str title) (opt_str desc)
                           (opt_bool completed) (acc ++ [T])%list
                = Ok (with_todos s
                        (map (fun r =>
                                if id_in (map Todo.id (t :: rows)) r
                                then patched title desc completed r else r)
                             (todos s)),
                      (acc ++ map (patched title desc completed)
                                  (t :: rows))%list)).
    { intros T ->. rewrite IH.
      + rewrite with_todos_update, <- app_assoc. f_equal. f_equal. f_equal.
        unfold session_update at 1. cbn [todos with_todos].
        rewrite map_map. apply map_ext_in. intros r Hr0.
        change (Todo.id (patched title desc completed t)) with (Todo.id t).
        unfold id_in at 2. cbn [map existsb].
        destruct (Z.eqb_spec (Todo.id r) (Todo.id t)) as [E|E]; cbn [orb].
        * assert (r = t) by exact (same_id_same_row _ _ _ Hnd Hr0 Ht E).
          subst r.
          destruct (id_in (map Todo.id rows)
                          (patched title desc completed t)) eqn:Ei;
            [|reflexivity].
          apply id_in_iff in Ei. contradiction.
        * reflexivity.
      + rewrite session_update_ids. exact Hnd.
      + exact Hr'.
      + intros t' Hin'. destruct (Hin t' (or_intror Hin')) as [Ht' Ho'].
        split; [|exact Ho'].
        unfold session_update. cbn [todos with_todos].
        apply in_map_iff. exists t'. split; [|exact Ht'].
        destruct (Z.eqb_spec (Todo.id t')
                    (Todo.id (patched title desc completed t)))
          as [E|_]; [|reflexivity].
        exfalso. apply Hnot.
        change (Todo.id (patched title desc completed t))
          with (Todo.id t) in E.
        rewrite <- E. apply in_map. exact Hin'. }
    destruct title as [ti|], desc as [de|], completed as [b|];
      cbn [opt_str opt_bool py_str bind truthy];
      apply Hstep; reflexivity.
Qed.

(** X18.  With distinct ids, [patch_many] changes exactly the todos
    the local numbers name and exactly the fields given: a title is
    stored trimmed and a blank title keeps the old one, a description
    is stored trimmed and a blank description clears it, a status is
    stored as given, and a field that is not given keeps its value.
    The list keeps its order and length and the todos of the other
    users are untouched. *)
Theorem patch_many_effect (env : Env) (session : Session) (user_id : Z)
        (ns : list Z) (title desc : option string)
        (completed : option bool) :
  NoDup (map Todo.id (todos session)) ->
  let U := _get_user_todos session user_id in
  hits U ns <> [] ->
  is_none (opt_str title) && is_none (opt_str desc)
  && is_none (opt_bool completed) = false ->
  exists session' changed,
    apply_action env user_id session
                 ("patch_many",
                  [("local_nos", ints ns); ("title", opt_str title);
                   ("description", opt_str desc);
                   ("completed", opt_bool completed)])
    = Ok (session',
          [VStr (CHECK ++ " Updated:" ++ NL
                 ++ format_todos_for_user session' user_id changed)])
    /\ map Todo.id changed
       = _resolve_many_local_to_db_ids session user_id ns
    /\ (forall i t,
           nth_error U i = Some t ->
           nth_error (_get_user_todos session' user_id) i
           = Some (if listed ns (Z.of_nat i + 1)
                   then patched title desc completed t else t))
    /\ len (_get_user_todos session' user_id) = len U
    /\ others user_id session' = others user_id session.
Proof.
  intros Hnd U Hh Hsome.
  pose proof (user_todos_NoDup session user_id Hnd) as HU. fold U in HU.
  destruct (ids_at_rows U (sorted_set ns)) as [rows [E F]].
  fold (hits U ns) in F.
  set (db_ids := _resolve_many_local_to_db_ids session user_id ns).
  assert (Er : db_ids = map Todo.id rows) by exact E.
  assert (Hrows : forall t, In t rows ->
                            In t (todos session) /\ owned_by user_id t = true).
  { intros t Hin. apply user_todos_In. fold U.
    destruct (Forall2_in_r_exists _ _ _ _ _ _ F Hin) as [n [_ Hn]].
    exact (names_In _ _ _ Hn). }
  assert (Hrd : NoDup (map Todo.id rows)).
  { apply (rows_NoDup U (hits U ns)); [exact HU| |exact F].
    unfold hits. apply NoDup_filter. apply sorted_lt_NoDup.
    apply sorted_set_sorted. }
  set (g := fun r => if id_in (map Todo.id rows) r
                     then patched title desc completed r else r).
  set (session' := with_todos session (map g (todos session))).
  assert (Hgid : forall y, Todo.id (g y) = Todo.id y)
    by (intros y; unfold g; destruct (id_in _ y); reflexivity).
  assert (Hgu : forall y, Todo.user_id (g y) = Todo.user_id y)
    by (intros y; unfold g; destruct (id_in _ y); reflexivity).
  assert (HU' : _get_user_todos session' user_id = map g U)
    by (apply mapped_user_todos; assumption).
  exists session', (map (patched title desc completed) rows).
  split; [|split; [|split; [|split]]].
  - unfold apply_action. cbn [String.eqb Ascii.eqb Bool.eqb].
    unfold action_patch_many, or_else, ints.
    cbn [get String.eqb Ascii.eqb Bool.eqb].
    destruct ns as [|n0 ns0]; [exfalso; apply Hh; reflexivity|].
    cbn [map truthy negb int_list].
    change (VInt n0 :: map VInt ns0) with (map VInt (n0 :: ns0)).
    rewrite int_items_ints_eq. cbn [bind]. rewrite Hsome.
    fold db_ids. rewrite Er.
    destruct rows as [|r rows'];
      [exfalso; inversion F as [Hnil|]; apply Hh; congruence|].
    change (map Todo.id (r :: rows'))
      with (Todo.id r :: map Todo.id rows') at 1.
    cbv iota.
    change (Todo.id r :: map Todo.id rows') with (map Todo.id (r :: rows')).
    rewrite (patch_rows_all user_id title desc completed (r :: rows')
               session [] Hnd Hrd Hrows).
    reflexivity.
  - rewrite map_map. rewrite Er. apply map_ext. reflexivity.
  - intros i t Hi. rewrite HU'.
    rewrite (nth_error_map_some _ _ _ _ _ _ Hi). f_equal. unfold g.
    rewrite (status_position U ns rows i t HU F Hi). reflexivity.
  - rewrite HU'. unfold len. rewrite length_map. reflexivity.
  - apply mapped_others; [exact Hgu|].
    intros y Hy Ho. unfold g.
    destruct (id_in (map Todo.id rows) y) eqn:Ei; [|reflexivity].
    exfalso. apply id_in_iff in Ei. apply in_map_iff in Ei.
    destruct Ei as [t [Hid Hin]]. destruct (Hrows t Hin) as [Ht Ho'].
    assert (t = y) by exact (same_id_same_row _ _ _ Hnd Ht Hy Hid).
    subst t. rewrite Ho' in Ho. discriminate Ho.
Qed.

(** X18 at [session3]: user 1 gives the todo 1 a blank description,
    which clears the one it has. *)
Lemma patch_many_effect_witness :
  exists session',
    map Todo.description (_get_user_todos session3 1)
    = [Some "two litres"; None; None]
    /\ fst (match apply_action env_down 1 session3
                    ("patch_many",
                     [("local_nos", ints [1]); ("title", VNone);
                      ("description", VStr "  "); ("completed", VNone)])
            with
            | Ok r => r
            | Raise _ => (session3, [])
            end) = session'
    /\ map Todo.description (_get_user_todos session' 1)
       = [None; None; None].
Proof.
  destruct (patch_many_effect env_down session3 1 [1] None (Some "  ") None
              (proj1 session3_well_formed))
    as [session' [changed [H1 _]]];
    [vm_compute; discriminate|reflexivity|].
  exists session'. split; [reflexivity|].
  cbn [opt_str opt_bool] in H1. rewrite H1. split; [reflexivity|].
  vm_compute in H1. injection H1 as <- _. reflexivity.
Defined.

(* ----------------------------------------------------------------- *)
(** ** Adding from the chat *)

Lemma strip_empty_nonblank (s : string) : Py.strip s <> "" -> s <> "".
Proof. intros H ->. apply H. reflexivity. Qed.

(** X19.  In a well-formed table, the chat action [add] with a title
    that is not blank stores a pending todo with the trimmed title and
    the description as given, at the end of the list of the user: the
    reply names its local number, the count of todos plus one, this
    number resolves to the new row, and every earlier number resolves
    as before. *)
Theorem chat_add_effect (env : Env) (session : Session) (user_id : Z)
        (title : string) (desc : option string) :
  well_formed session ->
  Py.strip title <> "" ->
  let U := _get_user_todos session user_id in
  let n := len U + 1 in
  let todo := Todo.mk (next_id session) user_id (Py.strip title) desc false in
  exists session',
    apply_action env user_id session
                 ("add", [("title", VStr title); ("description", opt_str desc)])
    = Ok (session',
          [VStr (CHECK ++ " Added Todo " ++ Py.str n ++ NL ++ "Title: "
                 ++ Py.strip title
                 ++ match desc with
                    | Some d => if String.eqb d "" then ""
                                else NL ++ "Description: " ++ d
                    | None => ""
                    end)])
    /\ _get_user_todos session' user_id = (U ++ [todo])%list
    /\ _resolve_local_to_db_id session' user_id (Some n)
       = Some (next_id session)
    /\ (forall k, k <= len U ->
                  _resolve_local_to_db_id session' user_id (Some k)
                  = _resolve_local_to_db_id session user_id (Some k))
    /\ well_formed session'
    /\ others user_id session' = others user_id session.
Proof.
  intros Hwf Hne U n todo.
  pose proof (user_todos_insert session user_id (Py.strip title) desc Hwf)
    as HU.
  pose proof (well_formed_insert session user_id (Py.strip title) desc Hwf)
    as Hwf'.
  set (session' := fst (session_insert session user_id (Py.strip title) desc))
    in *.
  change (snd (session_insert session user_id (Py.strip title) desc))
    with todo in HU.
  fold U in HU.
  exists session'. split; [|split; [|split; [|split; [|split]]]].
  - unfold apply_action. cbn [String.eqb Ascii.eqb Bool.eqb].
    unfold action_add, stripped, or_else.
    cbn [get String.eqb Ascii.eqb Bool.eqb truthy].
    destruct (String.eqb_spec title "") as [E|_];
      [exfalso; exact (strip_empty_nonblank _ Hne E)|].
    cbn [negb bind].
    destruct (String.eqb_spec (Py.strip title) "") as [E|_];
      [contradiction|].
    assert (Hd : db_text (opt_str desc) = Ok desc)
      by (destruct desc; reflexivity).
    rewrite Hd. cbn [bind].
    change (session_insert session user_id (Py.strip title) desc)
      with (session', todo).
    cbv iota. rewrite HU. unfold len. rewrite length_app, Nat2Z.inj_add.
    cbn [List.length Todo.title Todo.description todo].
    unfold say. do 3 f_equal. unfold n, len.
    change (Z.of_nat 1) with 1.
    destruct desc as [d|]; [destruct (String.eqb d "")|];
      rewrite ?append_nil_r, <- ?append_assoc; reflexivity.
  - exact HU.
  - rewrite resolve_local_item, HU. unfold n, len, item.
    destruct (Z.leb_spec 1 (Z.of_nat (List.length U) + 1)); [|lia].
    replace (Z.to_nat (Z.of_nat (List.length U) + 1 - 1))
      with (List.length U + 0)%nat by lia.
    rewrite nth_error_app2 by lia.
    replace (List.length U + 0 - List.length U)%nat with 0%nat by lia.
    reflexivity.
  - intros k Hk. rewrite !resolve_local_item, HU. fold U.
    destruct (Z.leb_spec 1 k); [|reflexivity].
    unfold item, len in *. rewrite nth_error_app1 by lia. reflexivity.
  - exact Hwf'.
  - apply others_insert.
Qed.

(** X19 at [session3]: the fourth todo of user 1. *)
Lemma chat_add_effect_witness :
  exists session',
    apply_action env_down 1 session3
                 ("add", [("title", VStr " feed cat "); ("description", VNone)])
    = Ok (session',
          [VStr (CHECK ++ " Added Todo 4" ++ NL ++ "Title: feed cat")])
    /\ _resolve_local_to_db_id session' 1 (Some 4) = Some 10.
Proof.
  destruct (chat_add_effect env_down session3 1 " feed cat " None
              session3_well_formed)
    as [session' [H1 [_ [H3 _]]]]; [vm_compute; discriminate|].
  exists session'. split; [exact H1|exact H3].
Defined.

(* ----------------------------------------------------------------- *)
(** ** What the fallback hands to the loop *)

Lemma ai_ops_kinds (ops : list value) : forallb ai_kind (ai_ops ops) = true.
Proof.
  induction ops as [|op ops IH]; simpl; [reflexivity|].
  destruct op; try exact IH.
  destruct (is_int (get "id" d)); [|exact IH].
  simpl. exact IH.
Qed.

Lemma normalize_ai_kinds (ai : value) (acts : list Parsed) :
  normalize_ai ai = Ok acts -> acts <> [] /\ forallb ai_kind acts = true.
Proof.
  intros H. unfold normalize_ai, bind in H.
  destruct (as_dict ai) as [d|e]; [|discriminate H].
  destruct (or_else (get "action" d) (VStr "unknown")); try discriminate H.
  repeat match type of H with
         | (if String.eqb ?a ?b then _ else _) = _ =>
             destruct (String.eqb a b)
         end;
    try (injection H as <-; split; [discriminate|reflexivity]).
  - destruct (iter _) as [items|e]; [|discriminate H].
    destruct (ai_titles items) as [[|ti tis]|e]; try discriminate H;
      injection H as <-; split; try discriminate; reflexivity.
  - destruct (or_else (get "ids" d) (VList [])) as [| | | | |[|x l]|];
      injection H as <-; split; try discriminate; reflexivity.
  - destruct (iter _) as [ops|e]; [|discriminate H].
    destruct (ai_ops ops) as [|a l] eqn:E; injection H as <-;
      split; try discriminate; try reflexivity.
    rewrite <- E. apply ai_ops_kinds.
  - destruct (iter _) as [ids|e]; [|discriminate H].
    destruct (positive_ints ids); injection H as <-;
      split; try discriminate; reflexivity.
Qed.

Ltac reply_tac H :=
  unfold bind, say in H; cbv beta zeta in H;
  repeat (break_in H; cbv beta iota zeta in H; try discriminate H);
  try discriminate H;
  injection H as _ <-;
  discriminate.

Lemma apply_action_replies (env : Env) (user_id : Z) (s s' : Session)
      (a : Parsed) (rs : list value) :
  ai_kind a = true -> apply_action env user_id s a = Ok (s', rs) -> rs <> [].
Proof.
  destruct a as [k p]. unfold ai_kind. cbn [fst]. intros Hk H.
  apply existsb_exists in Hk. destruct Hk as [x [Hin E]].
  apply String.eqb_eq in E. subst x. unfold ai_kinds in Hin.
  cbn [In] in Hin.
  repeat match type of Hin with
         | _ \/ _ => destruct Hin as [<-|Hin]
         end;
    try contradiction;
    unfold apply_action in H; cbn [String.eqb Ascii.eqb Bool.eqb] in H.
  - unfold action_add in H. reply_tac H.
  - unfold action_add_many in H. reply_tac H.
  - unfold action_list in H. reply_tac H.
  - unfold action_count in H. reply_tac H.
  - reply_tac H.
  - unfold action_details in H. reply_tac H.
  - unfold action_patch_many in H. reply_tac H.
  - unfold action_complete_all in H. reply_tac H.
  - unfold action_delete_many in H. reply_tac H.
  - unfold action_delete_all in H. reply_tac H.
  - unfold action_delete_filtered in H. reply_tac H.
  - unfold action_search in H. reply_tac H.
  - injection H as _ <-. discriminate.
  - reply_tac H.
Qed.

(** X20.  Whatever the answer of the model is, when [normalize_ai]
    returns it returns at least one action, every action it returns
    has a branch in the loop of [send_message] (an unrecognised
    action name becomes [unknown]), and the loop, when it ends, has
    left at least one reply fragment for it. *)
Theorem normalize_ai_handled (ai : value) (acts : list Parsed) :
  normalize_ai ai = Ok acts ->
  acts <> []
  /\ forallb ai_kind acts = true
  /\ (forall env user_id s s' rs,
         apply_actions env user_id s acts = Ok (s', rs) -> rs <> []).
Proof.
  intros H. destruct (normalize_ai_kinds ai acts H) as [Hne Hk].
  split; [exact Hne|]. split; [exact Hk|].
  intros env user_id s s' rs Ha.
  destruct acts as [|a rest]; [contradiction|].
  cbn [forallb] in Hk. apply andb_true_iff in Hk. destruct Hk as [Hka _].
  cbn [apply_actions] in Ha. unfold bind in Ha.
  destruct (apply_action env user_id s a) as [[s1 r1]|e] eqn:E1;
    [|discriminate Ha].
  destruct (apply_actions env user_id s1 rest) as [[s2 r2]|e];
    [|discriminate Ha].
  injection Ha as _ <-.
  pose proof (apply_action_replies env user_id s s1 a r1 Hka E1) as Hr.
  destruct r1; [contradiction|discriminate].
Qed.

(** X20 for an answer with an action name the code does not know. *)
Lemma normalize_ai_handled_witness :
  normalize_ai (VDict [("action", VStr "Archive"); ("ids", ints [1])])
  = Ok [("unknown", [])]
  /\ forallb ai_kind [("unknown", [])] = true.
Proof.
  split; [reflexivity|].
  exact (proj1 (proj2 (normalize_ai_handled
                         (VDict [("action", VStr "Archive");
                                 ("ids", ints [1])])
                         [("unknown", [])] eq_refl))).
Defined.

(* ----------------------------------------------------------------- *)
(** ** Deleting by text and by ordinal *)

Lemma search_todos_matches (env : Env) (session : Session) (user_id : Z)
      (qtext : string) :
  search_todos env session user_id qtext
  = filter (matches env qtext) (_get_user_todos session user_id).
Proof.
  unfold search_todos, _get_user_todos. cbv zeta.
  rewrite filter_order_by. f_equal.
  rewrite <- filter_andb. reflexivity.
Qed.

Lemma local_numbers (U : list Todo.t) (tds : list Todo.t) :
  NoDup (map Todo.id U) -> (forall t, In t tds -> In t U) ->
  exists nums,
    map (fun td => match map_get (Todo.id td) (local_map U) with
                   | Some n => n
                   | None => -1
                   end) tds = nums
    /\ Forall2 (names U) nums tds.
Proof.
  intros HU. induction tds as [|t tds IH]; intros Hin.
  - exists []. split; [reflexivity|constructor].
  - destruct IH as [nums [E F]]; [intros x Hx; apply Hin; right; exact Hx|].
    destruct (In_nth_error U t (Hin t (or_introl eq_refl))) as [i Hi].
    exists (Z.of_nat i + 1 :: nums). cbn [map].
    rewrite (map_get_local_map U i t HU Hi), E. split; [reflexivity|].
    constructor; [|exact F]. split; [lia|]. unfold item.
    replace (Z.to_nat (Z.of_nat i + 1 - 1)) with i by lia. exact Hi.
Qed.

Lemma names_positive (U : list Todo.t) (nums : list Z) (tds : list Todo.t) :
  Forall2 (names U) nums tds -> filter (fun x => 0 <? x) nums = nums.
Proof.
  intros F. apply filter_all. induction F as [|n t nums tds [Hn _] _ IH];
    constructor; [apply Z.ltb_lt; lia|exact IH].
Qed.

(** X21.  With distinct ids, [delete_by_text] with a query that is
    not blank deletes every todo of the user whose title or
    description matches the trimmed query, and no other: the list of
    the user keeps the todos that do not match, in their order, the
    reply lists the local numbers the deleted todos had, and the todos
    of the other users are untouched.  When nothing matches, nothing
    is deleted. *)
Theorem delete_by_text_effect (env : Env) (session : Session) (user_id : Z)
        (query : string) :
  NoDup (map Todo.id (todos session)) ->
  Py.strip query <> "" ->
  let qtext := Py.strip query in
  let U := _get_user_todos session user_id in
  exists session' nums,
    apply_action env user_id session
                 ("delete_by_text", [("query", VStr query)])
    = Ok (session',
          [VStr (match nums with
                 | [] => "No todos matched: " ++ qtext
                 | _ => BIN ++ " Deleted todo(s): " ++ _human_list nums
                 end)])
    /\ Forall2 (names U) nums (filter (matches env qtext) U)
    /\ _get_user_todos session' user_id
       = filter (fun t => negb (matches env qtext t)) U
    /\ others user_id session' = others user_id session.
Proof.
  intros Hnd Hne qtext U.
  pose proof (user_todos_NoDup session user_id Hnd) as HU. fold U in HU.
  set (tds := filter (matches env qtext) U).
  assert (Hs : search_todos env session user_id qtext = tds)
    by apply search_todos_matches.
  assert (HinU : forall t, In t tds -> In t U)
    by (intros t Ht; apply filter_In in Ht; tauto).
  assert (Hrows : forall t, In t tds ->
                            In t (todos session) /\ owned_by user_id t = true)
    by (intros t Ht; apply user_todos_In; apply HinU; exact Ht).
  destruct (local_numbers U tds HU HinU) as [nums [En F]].
  assert (Hsel : forall t, In t U ->
                           negb (id_in (map Todo.id tds) t)
                           = negb (matches env qtext t)).
  { intros t Hin. f_equal. apply eq_true_iff_eq. rewrite id_in_iff. split.
    - intros Hid. apply in_map_iff in Hid. destruct Hid as [t' [Hid Hin']].
      assert (t' = t).
      { apply user_todos_In in Hin.
        exact (same_id_same_row _ _ _ Hnd (proj1 (Hrows t' Hin'))
                 (proj1 Hin) Hid). }
      subst t'. apply filter_In in Hin'. tauto.
    - intros Hm. apply in_map. apply filter_In. tauto. }
  exists (fold_left session_delete tds session), nums.
  split; [|split; [|split]].
  - unfold apply_action. cbn [String.eqb Ascii.eqb Bool.eqb].
    unfold action_delete_by_text, stripped, or_else.
    cbn [get String.eqb Ascii.eqb Bool.eqb truthy].
    destruct (String.eqb_spec query "") as [E|_];
      [exfalso; exact (strip_empty_nonblank _ Hne E)|].
    cbn [negb bind]. fold qtext.
    destruct (String.eqb_spec qtext "") as [E|_]; [contradiction|].
    rewrite Hs. fold U.
    destruct tds as [|t tds'] eqn:Et.
    + inversion F; subst. reflexivity.
    + rewrite <- Et in *. cbv zeta. rewrite En.
      rewrite (names_positive U nums tds F).
      destruct nums as [|n nums']; [rewrite Et in F; inversion F|].
      reflexivity.
  - exact F.
  - rewrite fold_delete_todos, user_todos_without.
    apply filter_ext_in_bool. exact Hsel.
  - rewrite fold_delete_todos. apply others_without; assumption.
Qed.

(** X21 at [session3], with a database that matches by substring:
    user 1 deletes the todos that mention [milk]. *)
Lemma delete_by_text_effect_witness :
  exists session' nums,
    apply_action env_substring 1 session3
                 ("delete_by_text", [("query", VStr " milk ")])
    = Ok (session',
          [VStr (match nums with
                 | [] => "No todos matched: milk"
                 | _ => BIN ++ " Deleted todo(s): " ++ _human_list nums
                 end)])
    /\ map Todo.id (_get_user_todos session' 1) = [5; 9].
Proof.
  destruct (delete_by_text_effect env_substring session3 1 " milk "
              (proj1 session3_well_formed))
    as [session' [nums [H1 [_ [H3 _]]]]]; [vm_compute; discriminate|].
  exists session', nums. split; [exact H1|].
  rewrite H3. vm_compute. reflexivity.
Defined.

Lemma ordinal_local_range (session : Session) (user_id o local : Z) :
  _ordinal_to_local_no session user_id o = Some local ->
  1 <= local <= len (_get_user_todos session user_id).
Proof.
  unfold _ordinal_to_local_no. cbv zeta.
  destruct (_get_user_todos session user_id) as [|t U]; [discriminate|].
  set (L := len (t :: U)). clearbody L.
  destruct (Z.ltb_spec o 0).
  - destruct (Z.leb_spec 0 (L + o)), (Z.ltb_spec (L + o) L); cbn [andb];
      try discriminate.
    intros E. injection E as <-. lia.
  - destruct (Z.leb_spec 1 o), (Z.leb_spec o L); cbn [andb];
      try discriminate.
    intros E. injection E as <-. lia.
Qed.

(** X22.  In a table with distinct, positive ids, [delete_by_ordinal]
    deletes the one todo of the user at the local number the ordinal
    stands for, and says which; the other todos of the user keep
    their order, and the todos of the other users are untouched.  An
    ordinal that stands for no todo deletes nothing. *)
Theorem delete_by_ordinal_effect (env : Env) (session : Session)
        (user_id o : Z) :
  NoDup (map Todo.id (todos session)) ->
  (forall t, In t (todos session) -> 0 < Todo.id t) ->
  let U := _get_user_todos session user_id in
  let run := apply_action env user_id session
                          ("delete_by_ordinal", [("ordinal", VInt o)]) in
  match _ordinal_to_local_no session user_id o with
  | Some local =>
      exists t,
        names U local t
        /\ run = Ok (session_delete session t,
                     [VStr (BIN ++ " Deleted Todo " ++ Py.str local ++ ".")])
        /\ _get_user_todos (session_delete session t) user_id
           = (firstn (Z.to_nat (local - 1)) U
              ++ skipn (Z.to_nat local) U)%list
        /\ others user_id (session_delete session t) = others user_id session
  | None => run = Ok (session, [VStr "I could not find that todo."])
  end.
Proof.
  intros Hnd Hpos U run.
  pose proof (user_todos_NoDup session user_id Hnd) as HU. fold U in HU.
  destruct (_ordinal_to_local_no session user_id o) as [local|] eqn:Eo.
  - destruct (ordinal_local_range _ _ _ _ Eo) as [H1 H2]. fold U in H2.
    destruct (nth_error U (Z.to_nat (local - 1))) as [t|] eqn:Ei.
    2:{ apply nth_error_None in Ei. unfold len in H2. lia. }
    assert (Hin : In t (todos session) /\ owned_by user_id t = true)
      by (apply user_todos_In; eapply nth_error_In; exact Ei).
    exists t. split; [split; [exact H1|exact Ei]|]. split; [|split].
    + unfold run, apply_action. cbn [String.eqb Ascii.eqb Bool.eqb].
      unfold action_delete_by_ordinal.
      cbn [get String.eqb Ascii.eqb Bool.eqb as_int]. cbv zeta.
      rewrite Eo. destruct local as [|l|l]; try lia.
      rewrite resolve_local_item.
      destruct (Z.leb_spec 1 (Z.pos l)); [|lia].
      unfold item. fold U. rewrite Ei. cbn [option_map].
      pose proof (Hpos t (proj1 Hin)) as Hp.
      destruct (Todo.id t) as [|d|d] eqn:Ed; try lia.
      rewrite <- Ed. rewrite (session_get_row session t Hnd (proj1 Hin)).
      rewrite (proj2 Hin). reflexivity.
    + rewrite user_todos_delete. fold U.
      rewrite (filter_remove_index U _ t HU Ei). do 2 f_equal. lia.
    + apply others_delete; tauto.
  - unfold run, apply_action. cbn [String.eqb Ascii.eqb Bool.eqb].
    unfold action_delete_by_ordinal.
    cbn [get String.eqb Ascii.eqb Bool.eqb as_int]. cbv zeta.
    rewrite Eo. reflexivity.
Qed.

(** X22 at [session3]: the ordinal [-1] is the last todo of user 1,
    his third. *)
Lemma delete_by_ordinal_effect_witness :
  apply_action env_down 1 session3 ("delete_by_ordinal", [("ordinal", VInt (-1))])
  = Ok (session_delete session3 (Todo.mk 9 1 "call bob" None false),
        [VStr (BIN ++ " Deleted Todo 3.")]).
Proof.
  pose proof (delete_by_ordinal_effect env_down session3 1 (-1)
                (proj1 session3_well_formed)) as H.
  cbv zeta in H.
  change (_ordinal_to_local_no session3 1 (-1)) with (Some 3) in H.
  destruct H as [t [[_ Hi] [Hr _]]].
  - simpl. intros t [<-|[<-|[<-|[<-|[]]]]]; reflexivity.
  - vm_compute in Hi. injection Hi as <-. exact Hr.
Defined.

(* ----------------------------------------------------------------- *)
(** ** White space in a message *)

Lemma tidy_head (s : string) :
  tidy s -> s <> "" -> exists c s', s = String c s' /\ Py.is_space c = false.
Proof. intros H Hne. destruct H; try contradiction; eauto. Qed.

Lemma tidy_rstrip (s : string) : tidy s -> Py.rstrip_by Py.is_space s = s.
Proof.
  induction 1 as [|c Hc|c s Hc _ IH Hne|c s Hc Hs IH Hne].
  - reflexivity.
  - simpl. rewrite Hc. reflexivity.
  - rewrite rstrip_nonspace by exact Hc. rewrite IH. reflexivity.
  - rewrite rstrip_nonspace by exact Hc. f_equal.
    cbn [Py.rstrip_by]. rewrite IH.
    destruct s; [contradiction|reflexivity].
Qed.

Lemma tidy_lstrip (s : string) : tidy s -> Py.lstrip_by Py.is_space s = s.
Proof. intros H. destruct H; simpl; try rewrite H; reflexivity. Qed.

Lemma tidy_collapse (s : string) : tidy s -> collapse s = s.
Proof.
  induction 1 as [|c Hc|c s Hc _ IH Hne|c s Hc Hs IH Hne].
  - reflexivity.
  - simpl. rewrite Hc. reflexivity.
  - cbn [collapse]. rewrite Hc, IH. reflexivity.
  - cbn [collapse]. rewrite Hc, IH. f_equal.
    change (Py.is_space " ") with true. cbv iota.
    destruct (tidy_head s Hs Hne) as [d [s' [-> Hd]]].
    rewrite (starts_blank_nonspace d s' Hd). reflexivity.
Qed.

Lemma collapse_empty (s : string) : collapse s = "" -> s = "".
Proof.
  destruct s as [|c s]; [reflexivity|]. cbn [collapse].
  destruct (Py.is_space c); [|discriminate].
  destruct (collapse s) as [|d r] eqn:E; [discriminate|].
  cbn [starts_blank]. destruct (Ascii.eqb d " "); discriminate.
Qed.

Lemma rstrip_tail (c : ascii) (s : string) :
  Py.rstrip_by Py.is_space (String c s) = String c s ->
  Py.rstrip_by Py.is_space s = s
  /\ (s = "" -> Py.is_space c = false).
Proof.
  cbn [Py.rstrip_by]. destruct (Py.rstrip_by Py.is_space s) as [|d r] eqn:E.
  - destruct (Py.is_space c); [discriminate|].
    intros H. injection H as <-. auto.
  - intros H. injection H as <-. split; [reflexivity|discriminate].
Qed.

(** The text [collapse] leaves of one without trailing white space:
    a normal form, possibly after one leading blank. *)
Lemma collapse_tidy (s : string) :
  Py.rstrip_by Py.is_space s = s ->
  collapse s = "" \/ tidy (collapse s)
  \/ exists r, collapse s = String " " r /\ r <> "" /\ tidy r.
Proof.
  induction s as [|c s IH]; intros Hr; [left; reflexivity|].
  destruct (rstrip_tail c s Hr) as [Hs Hc].
  specialize (IH Hs). cbn [collapse].
  destruct (Py.is_space c) eqn:Ec.
  - assert (Hne : s <> "") by (intros E; specialize (Hc E); congruence).
    assert (Hcne : collapse s <> "")
      by (intros E; apply Hne; apply collapse_empty; exact E).
    destruct IH as [E|[Ht|[r [E [Hrne Ht]]]]]; [contradiction| |].
    + destruct (tidy_head _ Ht Hcne) as [d [s' [E Hd]]].
      rewrite E in *. rewrite (starts_blank_nonspace d s' Hd).
      right. right. exists (String d s'). repeat split; [discriminate|exact Ht].
    + rewrite E. cbn [starts_blank]. change (Ascii.eqb " " " ") with true.
      cbv iota. right. right. exists r. auto.
  - right. left.
    destruct IH as [E|[Ht|[r [E [Hrne Ht]]]]].
    + rewrite E. apply tidy_one. exact Ec.
    + destruct (collapse s) eqn:E; [apply tidy_one; exact Ec|].
      apply tidy_ink; [exact Ec|exact Ht|discriminate].
    + rewrite E. apply tidy_gap; assumption.
Qed.

Lemma rstrip_idem (s : string) :
  Py.rstrip_by Py.is_space (Py.rstrip_by Py.is_space s)
  = Py.rstrip_by Py.is_space s.
Proof.
  assert (Hcons : forall c s,
             Py.rstrip_by Py.is_space (String c s)
             = match Py.rstrip_by Py.is_space s with
               | "" => if Py.is_space c then "" else String c ""
               | r => String c r
               end) by reflexivity.
  induction s as [|c s IH]; [reflexivity|]. rewrite Hcons.
  destruct (Py.rstrip_by Py.is_space s) as [|d r] eqn:E.
  - destruct (Py.is_space c) eqn:Ec; [reflexivity|].
    simpl. rewrite Ec. reflexivity.
  - rewrite Hcons, IH. reflexivity.
Qed.

Lemma lstrip_head (s : string) :
  Py.lstrip_by Py.is_space s = ""
  \/ exists c s', Py.lstrip_by Py.is_space s = String c s'
                  /\ Py.is_space c = false.
Proof.
  induction s as [|c s IH]; [left; reflexivity|]. simpl.
  destruct (Py.is_space c) eqn:Ec; [exact IH|]. right. eauto.
Qed.

Lemma normalize_tidy (text : string) : tidy (normalize text).
Proof.
  rewrite normalize_collapse. unfold Py.strip, Py.strip_by.
  pose proof (rstrip_idem (Py.lstrip_by Py.is_space text)) as Hr.
  destruct (collapse_tidy _ Hr) as [E|[Ht|[r [E _]]]].
  - rewrite E. constructor.
  - exact Ht.
  - exfalso. destruct (lstrip_head text) as [El|[c [s' [El Hc]]]].
    + rewrite El in E. discriminate E.
    + rewrite El in E. rewrite rstrip_nonspace in E by exact Hc.
      cbn [collapse] in E. rewrite Hc in E. injection E as -> _.
      discriminate Hc.
Qed.

(** X23.  Normalising a message twice is normalising it once, so the
    parser reads a message and its normal form (trimmed, every run of
    white space turned into one blank) in the same way: additional
    white space around or between the words of a message never
    changes the actions. *)
Theorem normalize_idempotent (text : string) :
  normalize (normalize text) = normalize text
  /\ parse_intent_fast (normalize text) = parse_intent_fast text.
Proof.
  assert (E : normalize (normalize text) = normalize text).
  { pose proof (normalize_tidy text) as Ht.
    rewrite (normalize_collapse (normalize text)).
    unfold Py.strip, Py.strip_by.
    rewrite (tidy_lstrip _ Ht), (tidy_rstrip _ Ht).
    apply tidy_collapse. exact Ht. }
  split; [exact E|].
  unfold parse_intent_fast. rewrite E. reflexivity.
Qed.

(* ----------------------------------------------------------------- *)
(** ** An answer of the model with a wrongly typed title *)

(** X24.  The [except] of the fallback covers the call of the model
    and [normalize_ai] only: when the parser does not know a message
    and the model answers with an [add] whose title is neither a
    string nor falsy (a number, say), [normalize_ai] passes the title
    on and the loop raises [AttributeError] on it, so the request
    fails instead of being answered. *)
Theorem ai_title_not_text_raises (env : Env) (settings : Settings)
        (session : Session) (user_id : Z) (message : string) (d : payload) :
  parse_intent_fast message = [("unknown", [])] ->
  gemini_to_action env settings message = Ok (VDict d) ->
  get "action" d = VStr "add" ->
  truthy (get "title" d) = true ->
  is_str_value (get "title" d) = false ->
  send_message env settings session user_id message
  = Raise (PyError "AttributeError").
Proof.
  intros Hp Hg Ha Ht Hs.
  assert (Hc : classify env settings message
               = [("add", [("title", get "title" d);
                           ("description", get "description" d)])]).
  { unfold classify. cbv zeta. rewrite Hp. cbn [sole_unknown String.eqb
      Ascii.eqb Bool.eqb].
    unfold fallback. rewrite Hg. cbn [bind].
    unfold normalize_ai, as_dict, or_else. cbn [bind].
    rewrite Ha, Ht. cbn [truthy String.eqb negb Py.lower bind].
    reflexivity. }
  apply send_message_raise.
  unfold store_reply. cbv zeta. rewrite Hc.
  cbn [apply_actions]. unfold apply_action.
  cbn [String.eqb Ascii.eqb Bool.eqb].
  unfold action_add, stripped, or_else.
  cbn [get String.eqb Ascii.eqb Bool.eqb]. rewrite Ht.
  destruct (get "title" d); try discriminate Hs; reflexivity.
Qed.

(** X24 for a service that answers with the title 7. *)
Lemma ai_title_not_text_raises_witness :
  send_message env_number_title settings_with_key session3 1 "hello there"
  = Raise (PyError "AttributeError").
Proof.
  apply (ai_title_not_text_raises env_number_title settings_with_key
           session3 1 "hello there"
           [("action", VStr "add"); ("title", VInt 7)]);
    vm_compute; reflexivity.
Defined.

(* ----------------------------------------------------------------- *)
(** ** Numbers in the replies *)

Lemma sorted_lt_unique (l1 l2 : list Z) :
  StronglySorted Z.lt l1 -> StronglySorted Z.lt l2 ->
  (forall x, In x l1 <-> In x l2) -> l1 = l2.
Proof.
  intros H1. revert l2.
  induction H1 as [|a l1 H1 IH Ha]; intros l2 H2 Hin.
  - destruct l2 as [|b l2]; [reflexivity|].
    exfalso. apply (proj2 (Hin b)). left. reflexivity.
  - destruct H2 as [|b l2 H2 Hb].
    + exfalso. apply (proj1 (Hin a)). left. reflexivity.
    + rewrite Forall_forall in Ha, Hb.
      assert (a = b).
      { destruct (proj1 (Hin a) (or_introl eq_refl)) as [E|Hab];
          [symmetry; exact E|].
        destruct (proj2 (Hin b) (or_introl eq_refl)) as [E|Hba];
          [exact E|].
        specialize (Ha b Hba). specialize (Hb a Hab). lia. }
      subst b. f_equal. apply IH; [exact H2|].
      intros x. split; intros Hx.
      * destruct (proj1 (Hin x) (or_intror Hx)) as [E|Hx']; [|exact Hx'].
        subst x. specialize (Ha a Hx). lia.
      * destruct (proj2 (Hin x) (or_intror Hx)) as [E|Hx']; [|exact Hx'].
        subst x. specialize (Hb a Hx). lia.
Qed.

Lemma sorted_set_same (a b : list Z) :
  (forall x, In x a <-> In x b) -> sorted_set a = sorted_set b.
Proof.
  intros H. apply sorted_lt_unique; try apply sorted_set_sorted.
  intros x. rewrite !sorted_set_In. apply H.
Qed.

(** X25.  [_human_list] and [_resolve_many_local_to_db_ids] read a
    list of numbers as a set: two lists with the same members, in any
    order and with any repetitions, give the same text and resolve to
    the same todos. *)
Theorem numbers_as_set (session : Session) (user_id : Z) (a b : list Z) :
  (forall x, In x a <-> In x b) ->
  _human_list a = _human_list b
  /\ _resolve_many_local_to_db_ids session user_id a
     = _resolve_many_local_to_db_ids session user_id b.
Proof.
  intros H. pose proof (sorted_set_same a b H) as E.
  unfold _human_list, _resolve_many_local_to_db_ids. cbv zeta.
  rewrite E. split; reflexivity.
Qed.

(** X25 for the numbers 3, 1, 3 and 1, 3. *)
Lemma numbers_as_set_witness :
  _human_list [3; 1; 3] = _human_list [1; 3]
  /\ _resolve_many_local_to_db_ids session3 1 [3; 1; 3]
     = _resolve_many_local_to_db_ids session3 1 [1; 3].
Proof.
  apply numbers_as_set. intros x. simpl. tauto.
Defined.

(* ----------------------------------------------------------------- *)
(** ** Adding many *)

Lemma add_items_all (user_id : Z) (titles : list string) :
  forall s acc,
    well_formed s ->
    let U := _get_user_todos s user_id in
    exists s',
      add_items user_id s (map VStr titles) acc
      = Ok (s', (acc ++ map (fun i => len U + 1 + Z.of_nat i)
                            (seq 0 (List.length (kept_titles titles))))%list)
      /\ _get_user_todos s' user_id
         = (U ++ new_rows user_id (next_id s) (kept_titles titles))%list
      /\ well_formed s'
      /\ others user_id s' = others user_id s.
Proof.
  induction titles as [|t titles IH]; intros s acc Hwf U.
  - exists s. cbn. rewrite !app_nil_r. auto.
  - cbn [map add_items py_str bind]. unfold kept_titles. cbn [map filter].
    fold (kept_titles titles).
    destruct (String.eqb (Py.strip t) "") eqn:Et; cbn [negb].
    + apply IH. exact Hwf.
    + pose proof (user_todos_insert s user_id (Py.strip t) None Hwf) as HU.
      pose proof (well_formed_insert s user_id (Py.strip t) None Hwf) as Hwf1.
      pose proof (others_insert s user_id (Py.strip t) None) as Ho.
      set (s1 := fst (session_insert s user_id (Py.strip t) None)) in *.
      change (snd (session_insert s user_id (Py.strip t) None))
        with (Todo.mk (next_id s) user_id (Py.strip t) None false) in HU.
      fold U in HU.
      change (session_insert s user_id (Py.strip t) None)
        with (s1, Todo.mk (next_id s) user_id (Py.strip t) None false).
      cbv iota.
      destruct (IH s1 (acc ++ [len (_get_user_todos s1 user_id)])%list Hwf1)
        as [s' [E [HU' [Hwf' Ho']]]].
      exists s'. split; [|split; [|split]].
      * rewrite E. f_equal. f_equal. rewrite <- app_assoc. f_equal.
        rewrite HU. unfold len. rewrite length_app. cbn [List.length app].
        cbn [seq map]. f_equal; [lia|].
        rewrite <- seq_shift, map_map. apply map_ext. intros i. lia.
      * rewrite HU', HU, <- app_assoc. reflexivity.
      * exact Hwf'.
      * rewrite Ho'. exact Ho.
Qed.

(** X26.  In a well-formed table, [add_many] stores one pending todo
    without description for every item that is not blank, with the
    item trimmed as its title, at the end of the list of the user and
    in the order of the items; the reply counts them and lists their
    local numbers, which continue the numbering; the todos of the
    other users are untouched. *)
Theorem add_many_effect (env : Env) (session : Session) (user_id : Z)
        (titles : list string) :
  well_formed session ->
  kept_titles titles <> [] ->
  let U := _get_user_todos session user_id in
  let k := len (kept_titles titles) in
  exists session',
    apply_action env user_id session ("add_many", [("items", strs titles)])
    = Ok (session',
          [VStr (CHECK ++ " Added " ++ Py.str k ++ " todos: "
                 ++ _human_list (range (len U + 1) (len U + 1 + k)))])
    /\ _get_user_todos session' user_id
       = (U ++ new_rows user_id (next_id session) (kept_titles titles))%list
    /\ well_formed session'
    /\ others user_id session' = others user_id session.
Proof.
  intros Hwf Hk U k.
  destruct (add_items_all user_id titles session [] Hwf)
    as [session' [E [HU [Hwf' Ho]]]].
  fold U in E, HU. exists session'.
  split; [|split; [exact HU|split; [exact Hwf'|exact Ho]]].
  unfold apply_action. cbn [String.eqb Ascii.eqb Bool.eqb].
  unfold action_add_many, or_else, strs.
  cbn [get String.eqb Ascii.eqb Bool.eqb].
  destruct titles as [|t titles']; [contradiction Hk; reflexivity|].
  cbn [map truthy].
  change (VStr t :: map VStr titles') with (map VStr (t :: titles')).
  rewrite E. cbn [bind app].
  assert (Hr : map (fun i => len U + 1 + Z.of_nat i)
                   (seq 0 (List.length (kept_titles (t :: titles'))))
               = range (len U + 1) (len U + 1 + k)).
  { unfold range, k, len. f_equal. f_equal. lia. }
  rewrite Hr.
  assert (Hlen : len (range (len U + 1) (len U + 1 + k)) = k).
  { unfold range, len at 1. rewrite length_map, length_seq.
    unfold k, len. lia. }
  rewrite Hlen.
  assert (Hkpos : 0 < k).
  { unfold k, len. destruct (kept_titles (t :: titles'));
      [contradiction Hk; reflexivity|cbn [List.length]; lia]. }
  destruct (range (len U + 1) (len U + 1 + k)) as [|n nums] eqn:En;
    [|reflexivity].
  exfalso. change (len (@nil Z)) with 0 in Hlen. lia.
Qed.

(** X26 at [session3]: user 1 adds two todos and a blank item. *)
Lemma add_many_effect_witness :
  exists session',
    apply_action env_down 1 session3
                 ("add_many", [("items", strs [" eggs"; "  "; "bread "])])
    = Ok (session', [VStr (CHECK ++ " Added 2 todos: 4 and 5")])
    /\ map Todo.title (_get_user_todos session' 1)
       = ["buy milk"; "water plants"; "call bob"; "eggs"; "bread"].
Proof.
  destruct (add_many_effect env_down session3 1 [" eggs"; "  "; "bread "]
              session3_well_formed)
    as [session' [H1 [H2 _]]]; [vm_compute; discriminate|].
  exists session'. split; [exact H1|].
  rewrite H2. vm_compute. reflexivity.
Defined.

(* ----------------------------------------------------------------- *)
(** ** Queries *)

Ltac query_tac H :=
  unfold bind, say in H; cbv beta zeta in H;
  repeat (break_in H; cbv beta iota zeta in H; try discriminate H);
  try discriminate H;
  injection H as <- _;
  reflexivity.

(** X27.  The actions that answer a question ([list],
    [group_by_status], [count], [summary], [details], [search],
    [clarify] and [unknown]) never change the table or the chat log,
    whatever their payload: when such an action returns, the session
    is the one it started from. *)
Theorem queries_read_only (env : Env) (user_id : Z) (s s' : Session)
        (kind : string) (p : payload) (rs : list value) :
  In kind query_kinds ->
  apply_action env user_id s (kind, p) = Ok (s', rs) ->
  s' = s.
Proof.
  unfold query_kinds. cbn [In]. intros Hin H.
  repeat match type of Hin with
         | _ \/ _ => destruct Hin as [<-|Hin]
         end;
    try contradiction;
    unfold apply_action in H; cbn [String.eqb Ascii.eqb Bool.eqb] in H.
  - unfold action_list in H. query_tac H.
  - unfold action_group_by_status in H. query_tac H.
  - unfold action_count in H. query_tac H.
  - query_tac H.
  - unfold action_details in H. query_tac H.
  - unfold action_search in H. query_tac H.
  - injection H as <- _. reflexivity.
  - query_tac H.
Qed.

(** X27 at [session3]: user 1 asks for the summary. *)
Lemma queries_read_only_witness :
  exists rs, apply_action env_down 1 session3 ("summary", []) = Ok (session3, rs).
Proof.
  destruct (apply_action env_down 1 session3 ("summary", []))
    as [[s' rs]|e] eqn:E.
  - exists rs. f_equal. f_equal.
    apply (queries_read_only env_down 1 session3 s' "summary" [] rs);
      [simpl; tauto|exact E].
  - vm_compute in E. discriminate E.
Defined.
